(** * Insider-tracking MCP server: query construction, pagination,
      derived rates and lookups

    A shallow embedding of the Python sources [db.py],
    [insider_transactions.py], [llm_calls.py], [market_context.py] and
    [analytics.py], followed by the properties of the tool surface.

    Conventions of the embedding.
    - Python objects that travel through the tools (query parameters, row
      fields, envelope entries) are terms of [value]; a [dict] is an
      association list in insertion order.
    - Text is [string], read as a sequence of code points below 256;
      [upper], [isdigit] and [int] follow Python on these code points.
    - A raised exception is [Raise]; [try_except] is the
      [except Exception as e: raise Exception(f"...: {str(e)}")] tail that
      closes every tool.
    - Integer-to-float arithmetic follows IEEE-754 binary64 through
      [SpecFloat].
    - The database server, the wall clock and the float printer of the
      interpreter are outside the repository: they are the fields of [Env]. *)

From Stdlib Require Import ZArith List String Ascii Bool Lia Permutation.
From Stdlib Require Import Floats.SpecFloat.
From Stdlib Require DecimalString.
Import ListNotations.

Local Open Scope string_scope.
Local Open Scope Z_scope.

#[local] Set Warnings "-register-all".

(* ================================================================= *)
(** ** Python values *)

Inductive value : Type :=
| VNone
| VBool (b : bool)
| VInt (z : Z)
| VFloat (f : spec_float)
| VStr (s : string)
| VDate (ordinal : Z)
| VList (l : list value)
| VDict (d : list (string * value)).

(** A row as [RealDictCursor] delivers it, and every response envelope. *)
Definition row : Type := list (string * value).

(** Truth value testing ([if x:], [x or y], [not x]). *)
Definition truthy (v : value) : bool :=
  match v with
  | VNone => false
  | VBool b => b
  | VInt z => negb (z =? 0)
  | VFloat (S754_zero _) => false
  | VFloat _ => true
  | VStr s => negb (s =? "")%string
  | VDate _ => true
  | VList l => match l with [] => false | _ => true end
  | VDict d => match d with [] => false | _ => true end
  end.

(** [x or y] *)
Definition py_or (x y : value) : value := if truthy x then x else y.

(** [if s:] for an [Optional[str]] argument. *)
Definition supplied (o : option string) : bool :=
  match o with
  | Some s => negb (s =? "")%string
  | None => false
  end.

(* ================================================================= *)
(** ** Exceptions *)

Inductive exn_class : Type :=
| PyException
| AttributeError
| KeyError
| TypeError
| ValueError
| OverflowError
| PoolError
| OperationalError
| ZeroDivisionError
| DatabaseError.

(** An exception object: its class and [str(e)]. *)
Record exn : Type := mk_exn { exn_cls : exn_class; exn_str : string }.

Inductive result (A : Type) : Type :=
| Ok (a : A)
| Raise (e : exn).
Arguments Ok {A} a.
Arguments Raise {A} e.

Definition bind {A B : Type} (m : result A) (k : A -> result B) : result B :=
  match m with
  | Ok a => k a
  | Raise e => Raise e
  end.

Notation "x <- m ;; k" := (bind m (fun x => k))
  (at level 61, m at next level, right associativity).

(** [try: body  except Exception as e: raise Exception(f"{what}: {str(e)}")] *)
Definition try_except {A : Type} (what : string) (body : result A) : result A :=
  match body with
  | Ok a => Ok a
  | Raise e => Raise (mk_exn PyException (what ++ ": " ++ exn_str e))
  end.

(* ================================================================= *)
(** ** Strings *)

(** [str(n)] for an integer. *)
Definition str_of_Z (z : Z) : string :=
  DecimalString.NilZero.string_of_int (Z.to_int z).

(** Text is a sequence of code points below 256.  [c.upper()] on these:
    the ASCII letters, the letters U+00E0..U+00FE without the division
    sign, and the sharp s, whose capital is "SS".  The capitals of the
    micro sign (U+00B5) and of the y with diaeresis (U+00FF) lie beyond
    code point 255, which this model of text does not hold: the two
    letters are left as they are. *)
Definition upper_char (c : ascii) : string :=
  let n := nat_of_ascii c in
  if (97 <=? n)%nat && (n <=? 122)%nat then String (ascii_of_nat (n - 32)) EmptyString
  else if (n =? 223)%nat then "SS"
  else if (224 <=? n)%nat && (n <=? 254)%nat && negb (n =? 247)%nat
  then String (ascii_of_nat (n - 32)) EmptyString
  else String c EmptyString.

(** [s.upper()] *)
Fixpoint upper (s : string) : string :=
  match s with
  | EmptyString => EmptyString
  | String c rest => upper_char c ++ upper rest
  end.

(** [c.isdecimal()]: the digits 0 to 9, the only code points of category
    Nd below 256. *)
Definition is_decimal (c : ascii) : bool :=
  let n := nat_of_ascii c in (48 <=? n)%nat && (n <=? 57)%nat.

(** [c.isdigit()]: the decimal digits and the superscripts two, three and
    one (U+00B2, U+00B3, U+00B9). *)
Definition is_digit (c : ascii) : bool :=
  let n := nat_of_ascii c in
  is_decimal c || (n =? 178)%nat || (n =? 179)%nat || (n =? 185)%nat.

Fixpoint all_digits (s : string) : bool :=
  match s with
  | EmptyString => true
  | String c rest => is_digit c && all_digits rest
  end.

(** [s.isdigit()]: at least one character and all of them digits. *)
Definition isdigit (s : string) : bool :=
  match s with
  | EmptyString => false
  | _ => all_digits s
  end.

Fixpoint all_decimal (s : string) : bool :=
  match s with
  | EmptyString => true
  | String c rest => is_decimal c && all_decimal rest
  end.

(** [s.isdecimal()] *)
Definition isdecimal (s : string) : bool :=
  match s with
  | EmptyString => false
  | _ => all_decimal s
  end.

(** The decimal digits [s] starts with. *)
Fixpoint leading_decimals (s : string) : nat :=
  match s with
  | EmptyString => O
  | String c rest => if is_decimal c then S (leading_decimals rest) else O
  end.

Fixpoint int_of_digits (acc : Z) (s : string) : Z :=
  match s with
  | EmptyString => acc
  | String c rest => int_of_digits (10 * acc + (Z.of_nat (nat_of_ascii c) - 48)) rest
  end.

(** [sys.get_int_max_str_digits()], at its default. *)
Definition int_max_str_digits : nat := 4300.

(** [int(s)] on a string that passed [isdigit] (no sign, blank or
    underscore): the interpreter refuses more than
    [int_max_str_digits] leading digits, then any character that is not a
    decimal digit, with the [repr] of the string cut at 200 characters. *)
Definition py_int (s : string) : result Z :=
  if (int_max_str_digits <? leading_decimals s)%nat then
    Raise (mk_exn ValueError
             ("Exceeds the limit (4300 digits) for integer string conversion: value has "
              ++ str_of_Z (Z.of_nat (leading_decimals s))
              ++ " digits; use sys.set_int_max_str_digits() to increase the limit"))
  else if isdecimal s then Ok (int_of_digits 0 s)
  else Raise (mk_exn ValueError
                ("invalid literal for int() with base 10: "
                 ++ substring 0 200 ("'" ++ s ++ "'"))).

(** The digit strings [int] reads: decimal digits, at most
    [int_max_str_digits] of them. *)
Definition int_readable (s : string) : bool :=
  isdecimal s && (String.length s <=? int_max_str_digits)%nat.

(** The one-character string of the superscript two (U+00B2). *)
Definition superscript_two : string := String (ascii_of_nat 178) EmptyString.

Fixpoint replicate (n : nat) (c : ascii) : string :=
  match n with
  | O => EmptyString
  | S n' => String c (replicate n' c)
  end.

(** The digit one, 4301 times. *)
Definition long_identifier : string := replicate 4301 "1".

(** [sep.join(l)] *)
Fixpoint join (sep : string) (l : list string) : string :=
  match l with
  | [] => EmptyString
  | [x] => x
  | x :: rest => x ++ sep ++ join sep rest
  end.

Fixpoint starts_with (p s : string) : bool :=
  match p, s with
  | EmptyString, _ => true
  | String a p', String b s' => Ascii.eqb a b && starts_with p' s'
  | String _ _, EmptyString => false
  end.

(** [needle in hay] on strings. *)
Fixpoint contains (needle hay : string) : bool :=
  starts_with needle hay ||
  match hay with
  | EmptyString => false
  | String _ hay' => contains needle hay'
  end.

(** Number of positional [%s] placeholders of a statement, read the way the
    driver reads it: a [%] takes the next character with it, so [%%] is a
    literal percent sign and not the start of a placeholder. *)
Fixpoint count_placeholders (s : string) : nat :=
  match s with
  | EmptyString => O
  | String c rest =>
      if Ascii.eqb c "%" then
        match rest with
        | EmptyString => O
        | String d rest' =>
            if Ascii.eqb d "s" then S (count_placeholders rest')
            else count_placeholders rest'
        end
      else count_placeholders rest
  end.

(* ================================================================= *)
(** ** Numbers: [/], [*], [>] and [round(x, 2)] on Python ints and floats *)

Definition prec : Z := 53.
Definition emax : Z := 1024.

Definition type_name (v : value) : string :=
  match v with
  | VNone => "NoneType"
  | VBool _ => "bool"
  | VInt _ => "int"
  | VFloat _ => "float"
  | VStr _ => "str"
  | VDate _ => "datetime.date"
  | VList _ => "list"
  | VDict _ => "dict"
  end.

(** The numeric reading of an operand: [bool] is a subclass of [int]. *)
Inductive number : Type :=
| NInt (z : Z)
| NFloat (f : spec_float).

Definition as_number (v : value) : option number :=
  match v with
  | VBool b => Some (NInt (if b then 1 else 0))
  | VInt z => Some (NInt z)
  | VFloat f => Some (NFloat f)
  | _ => None
  end.

Definition finite_or_overflow (msg : string) (f : spec_float) : result spec_float :=
  match f with
  | S754_infinity _ => Raise (mk_exn OverflowError msg)
  | _ => Ok f
  end.

(** [float(z)]: the nearest double, ties to even. *)
Definition float_of_int (z : Z) : result spec_float :=
  finite_or_overflow "int too large to convert to float"
    (binary_normalize prec emax z 0 false).

Definition int_as_float (sign_if_zero : bool) (z : Z) : spec_float :=
  match z with
  | Z0 => S754_zero sign_if_zero
  | Zpos p => S754_finite false p 0
  | Zneg p => S754_finite true p 0
  end.

(** [a / b] on two ints: the correctly rounded quotient. *)
Definition int_truediv (a b : Z) : result spec_float :=
  if b =? 0 then Raise (mk_exn ZeroDivisionError "division by zero")
  else
    finite_or_overflow "integer division result too large for a float"
      (SFdiv prec emax (int_as_float false a) (int_as_float false b)).

Definition float_truediv (x y : spec_float) : result spec_float :=
  match y with
  | S754_zero _ => Raise (mk_exn ZeroDivisionError "float division by zero")
  | _ => Ok (SFdiv prec emax x y)
  end.

Definition binop_type_error (op : string) (x y : value) : exn :=
  mk_exn TypeError
    ("unsupported operand type(s) for " ++ op ++ ": '" ++ type_name x
       ++ "' and '" ++ type_name y ++ "'").

(** [x / y] *)
Definition py_truediv (x y : value) : result value :=
  match as_number x, as_number y with
  | Some (NInt a), Some (NInt b) => f <- int_truediv a b ;; Ok (VFloat f)
  | Some (NInt a), Some (NFloat g) =>
      f <- float_of_int a ;; q <- float_truediv f g ;; Ok (VFloat q)
  | Some (NFloat f), Some (NInt b) =>
      g <- float_of_int b ;; q <- float_truediv f g ;; Ok (VFloat q)
  | Some (NFloat f), Some (NFloat g) => q <- float_truediv f g ;; Ok (VFloat q)
  | _, _ => Raise (binop_type_error "/" x y)
  end.

(** [x * n] where [x] is the float a true division produced and [n] an int
    literal. *)
Definition py_mul_int (x : value) (n : Z) : result value :=
  match x with
  | VFloat f => g <- float_of_int n ;; Ok (VFloat (SFmul prec emax f g))
  | VInt a => Ok (VInt (a * n))
  | VBool b => Ok (VInt ((if b then 1 else 0) * n))
  | _ => Raise (binop_type_error "*" x (VInt n))
  end.

(** [x > 0] *)
Definition py_gt_zero (x : value) : result bool :=
  match as_number x with
  | Some (NInt a) => Ok (0 <? a)
  | Some (NFloat f) => Ok (SFltb (S754_zero false) f)
  | None =>
      Raise (mk_exn TypeError
               ("'>' not supported between instances of '" ++ type_name x
                  ++ "' and 'int'"))
  end.

(** Nearest integer to [n / d], ties to the even one ([0 <= n], [0 < d]). *)
Definition div_half_even (n d : Z) : Z :=
  let q := n / d in
  match (2 * (n mod d)) ?= d with
  | Lt => q
  | Gt => q + 1
  | Eq => if Z.even q then q else q + 1
  end.

(** The magnitude of a finite double in hundredths, rounded half to even on
    its exact binary value. *)
Definition hundredths (m : positive) (e : Z) : Z :=
  match e with
  | Zneg k => div_half_even (Zpos m * 100) (2 ^ Zpos k)
  | _ => Zpos m * 100 * 2 ^ e
  end.

(** [round(x, 2)] on a float: the double nearest to the two-decimal
    rendering of [x]; zeros, infinities and NaN round to themselves. *)
Definition float_round2 (x : spec_float) : spec_float :=
  match x with
  | S754_finite s m e =>
      match hundredths m e with
      | Zpos h => SFdiv prec emax (S754_finite s h 0) (S754_finite false 100 0)
      | _ => S754_zero s
      end
  | _ => x
  end.

(** [round(x, 2)] *)
Definition py_round2 (x : value) : result value :=
  match x with
  | VFloat f =>
      match f, float_round2 f with
      | S754_finite _ _ _, S754_infinity _ =>
          Raise (mk_exn OverflowError "rounded value too large to represent")
      | _, r => Ok (VFloat r)
      end
  | VInt z => Ok (VInt z)
  | VBool b => Ok (VInt (if b then 1 else 0))
  | _ =>
      Raise (mk_exn TypeError
               ("type " ++ type_name x ++ " doesn't define __round__ method"))
  end.

(** The double written [n / 10^2] in decimal, e.g. [decimal2 6667] for
    [66.67]. *)
Definition decimal2 (n : Z) : spec_float :=
  SFdiv prec emax (int_as_float false n) (S754_finite false 100 0).

(* ================================================================= *)
(** ** Dictionaries *)

(** [d.get(k)] as an option: the value bound to the first [k]. *)
Fixpoint dict_lookup (d : row) (k : string) : option value :=
  match d with
  | [] => None
  | (k', v) :: rest => if (k' =? k)%string then Some v else dict_lookup rest k
  end.

(** [d.get(k, default)] *)
Definition dict_get (d : row) (k : string) (default : value) : value :=
  match dict_lookup d k with
  | Some v => v
  | None => default
  end.

(** [d[k]] *)
Definition getitem (d : row) (k : string) : result value :=
  match dict_lookup d k with
  | Some v => Ok v
  | None => Raise (mk_exn KeyError ("'" ++ k ++ "'"))
  end.

(** [d[k] = v]: an existing key keeps its place, a new one goes last. *)
Fixpoint setitem (d : row) (k : string) (v : value) : row :=
  match d with
  | [] => [(k, v)]
  | (k', v') :: rest =>
      if (k' =? k)%string then (k', v) :: rest else (k', v') :: setitem rest k v
  end.

(** [len(l)] *)
Definition len {A : Type} (l : list A) : value := VInt (Z.of_nat (List.length l)).

(** [l[:-2]] *)
Definition drop_last_two {A : Type} (l : list A) : list A :=
  firstn (List.length l - 2) l.

(* ================================================================= *)
(** ** Dates *)

(** A [datetime]: proleptic Gregorian ordinal of its day and the
    microsecond within the day. *)
Record datetime : Type := mk_datetime { dt_ordinal : Z; dt_micro : Z }.

(** [timedelta(days=days)]: the day count must fit a C [int] and then have
    a magnitude of at most 999999999. *)
Definition timedelta (days : Z) : result Z :=
  if (days <? -2147483648) || (2147483647 <? days)
  then Raise (mk_exn OverflowError "Python int too large to convert to C int")
  else if Z.abs days <=? 999999999 then Ok days
  else Raise (mk_exn OverflowError
                ("days=" ++ str_of_Z days ++ "; must have magnitude <= 999999999")).

(** [dt - delta], a datetime between 0001-01-01 and 9999-12-31. *)
Definition datetime_sub (dt : datetime) (delta : Z) : result datetime :=
  let o := dt_ordinal dt - delta in
  if (1 <=? o) && (o <=? 3652059) then Ok (mk_datetime o (dt_micro dt))
  else Raise (mk_exn OverflowError "date value out of range").

(** [dt.date()] *)
Definition date (dt : datetime) : value := VDate (dt_ordinal dt).

(* ================================================================= *)
(** ** The environment of a tool call *)

(** What the process finds around it.
    - [cursor_run sql params]: the outcome of running one statement through
      a pooled connection, i.e. the rows [fetchall] would deliver or the
      exception the driver raises (see [Db] for the pool itself).
    - [now k]: the reading of [datetime.now()] at the [k]-th call made by
      the running tool.
    - [isoformat]: [datetime.isoformat].
    - [float_repr]: the text [json.dumps] writes for a float. *)
Record Env : Type := mk_env {
  cursor_run : string -> option (list value) -> result (list row);
  now : nat -> datetime;
  isoformat : datetime -> string;
  float_repr : spec_float -> string
}.

(* ================================================================= *)
(** ** [json.dumps] *)

Definition dquote : ascii := ascii_of_nat 34.
Definition backslash : ascii := ascii_of_nat 92.

Definition hex_digit (n : nat) : ascii :=
  if (n <? 10)%nat then ascii_of_nat (48 + n) else ascii_of_nat (87 + n).

(** One character under [ensure_ascii=True]. *)
Definition json_escape_char (c : ascii) : string :=
  let n := nat_of_ascii c in
  if Ascii.eqb c dquote then String backslash (String dquote EmptyString)
  else if Ascii.eqb c backslash then String backslash (String backslash EmptyString)
  else if (n =? 8)%nat then "\b"
  else if (n =? 12)%nat then "\f"
  else if (n =? 10)%nat then "\n"
  else if (n =? 13)%nat then "\r"
  else if (n =? 9)%nat then "\t"
  else if (32 <=? n)%nat && (n <=? 126)%nat then String c EmptyString
  else "\u00" ++ String (hex_digit (n / 16)) (String (hex_digit (n mod 16)) EmptyString).

Fixpoint json_escape (s : string) : string :=
  match s with
  | EmptyString => EmptyString
  | String c rest => json_escape_char c ++ json_escape rest
  end.

Definition json_string (s : string) : string :=
  String dquote (json_escape s ++ String dquote EmptyString).

(** Whether the encoder accepts the object: a [date] is not serializable. *)
Fixpoint serializable (v : value) : bool :=
  match v with
  | VDate _ => false
  | VList l => forallb serializable l
  | VDict d => forallb (fun kv => serializable (snd kv)) d
  | _ => true
  end.

Section Json.
Variable E : Env.

Fixpoint json_encode (v : value) : string :=
  match v with
  | VNone => "null"
  | VBool true => "true"
  | VBool false => "false"
  | VInt z => str_of_Z z
  | VFloat f => float_repr E f
  | VStr s => json_string s
  | VDate _ => EmptyString
  | VList l => "[" ++ join ", " (map json_encode l) ++ "]"
  | VDict d =>
      "{" ++ join ", " (map (fun kv => json_string (fst kv) ++ ": " ++ json_encode (snd kv)) d)
          ++ "}"
  end.

(** [json.dumps(v)] with the default separators. *)
Definition json_dumps (v : value) : result string :=
  if serializable v then Ok (json_encode v)
  else Raise (mk_exn TypeError "Object of type date is not JSON serializable").
End Json.

(* ================================================================= *)
(** ** [db.execute_query] as the tools see it *)

(** What [execute_query] hands back: a row or [None] under
    [fetch_one=True], the list of rows otherwise. *)
Definition fetched (fetch_one : bool) : Type :=
  if fetch_one then option row else list row.

(** [dict(result) if result else None] on what [fetchone] returns. *)
Definition fetchone (rows : list row) : option row :=
  match rows with
  | [] => None
  | r :: _ => if truthy (VDict r) then Some r else None
  end.

Definition fetch (fetch_one : bool) (rows : list row) : fetched fetch_one :=
  match fetch_one as b return fetched b with
  | true => fetchone rows
  | false => rows
  end.

Section Query.
Variable E : Env.

Definition execute_query (query : string) (params : option (list value))
    (fetch_one : bool) : result (fetched fetch_one) :=
  rows <- cursor_run E query params ;;
  Ok (fetch fetch_one rows).
End Query.

(* ================================================================= *)
(** ** Building a WHERE clause

    Every list tool keeps two Python lists, [conditions] and [params], and
    appends to both under the same guard. *)

Record filters : Type := mk_filters {
  conditions : list string;
  params : list value
}.

Definition no_filters : filters := mk_filters [] [].

(** [conditions.append(condition)] *)
Definition append_condition (condition : string) (q : filters) : filters :=
  mk_filters (conditions q ++ [condition]) (params q).

(** [params.append(param)] *)
Definition append_param (param : value) (q : filters) : filters :=
  mk_filters (conditions q) (params q ++ [param]).

(** [if arg: ...] on an optional string argument. *)
Definition if_supplied (arg : option string) (body : string -> filters -> filters)
    (q : filters) : filters :=
  match arg with
  | Some s => if supplied arg then body s q else q
  | None => q
  end.

(** [if arg is not None: ...] *)
Definition if_not_none {A : Type} (arg : option A) (body : A -> filters -> filters)
    (q : filters) : filters :=
  match arg with
  | Some a => body a q
  | None => q
  end.

(** [" AND ".join(conditions) if conditions else "1=1"] *)
Definition where_or_true (conditions : list string) : string :=
  match conditions with
  | [] => "1=1"
  | _ => join " AND " conditions
  end.

Definition opt_str (o : option string) : value :=
  match o with Some s => VStr s | None => VNone end.

Definition option_value (o : option row) : value :=
  match o with Some r => VDict r | None => VNone end.

Definition rows_value (rows : list row) : value := VList (map VDict rows).

(* ================================================================= *)
(** ** insider_transactions.py *)

Definition insider_transactions_query (where_clause : string) : string :=
  "
                SELECT * FROM insider_transactions
                WHERE " ++ where_clause ++ "
                ORDER BY transaction_date DESC NULLS LAST, filing_date DESC
                LIMIT %s OFFSET %s
            ".

Definition insider_transactions_count_query (where_clause : string) : string :=
  "
                SELECT COUNT(*) as total FROM insider_transactions
                WHERE " ++ where_clause ++ "
            ".

Definition recent_signals_query (where_clause : string) : string :=
  "
                SELECT * FROM insider_transactions
                WHERE " ++ where_clause ++ "
                ORDER BY filing_date DESC, signal_score DESC NULLS LAST
                LIMIT %s
            ".

Definition unprocessed_transactions_query : string :=
  "
                SELECT * FROM insider_transactions
                WHERE signal_generated = FALSE
                ORDER BY filing_date DESC
                LIMIT %s
            ".

Definition insider_stats_query (where_clause : string) : string :=
  "
                SELECT 
                    COUNT(*) as total_transactions,
                    COUNT(DISTINCT ticker) as unique_tickers,
                    COUNT(DISTINCT insider_name) as unique_insiders,
                    SUM(transaction_value) as total_value,
                    AVG(transaction_value) as avg_value,
                    SUM(shares) as total_shares,
                    COUNT(CASE WHEN signal_generated = TRUE THEN 1 END) as signals_generated,
                    COUNT(CASE WHEN alert_sent = TRUE THEN 1 END) as alerts_sent
                FROM insider_transactions
                WHERE " ++ where_clause ++ "
            ".

Section InsiderTransactions.
Variable E : Env.

(** The [conditions]/[params] part of [get_insider_transactions]. *)
Definition insider_transactions_filters
    (ticker insider_name start_date end_date : option string)
    (signal_generated : option bool) (signal_quality : option string)
    (alert_sent : option bool) : filters :=
  let q := no_filters in
  let q := if_supplied ticker (fun t q =>
             append_param (VStr (upper t)) (append_condition "ticker = %s" q)) q in
  let q := if_supplied insider_name (fun n q =>
             append_param (VStr ("%" ++ n ++ "%"))
               (append_condition "insider_name ILIKE %s" q)) q in
  let q := if_supplied start_date (fun d q =>
             append_param (VStr d) (append_condition "transaction_date >= %s" q)) q in
  let q := if_supplied end_date (fun d q =>
             append_param (VStr d) (append_condition "transaction_date <= %s" q)) q in
  let q := if_not_none signal_generated (fun b q =>
             append_param (VBool b) (append_condition "signal_generated = %s" q)) q in
  let q := if_supplied signal_quality (fun s q =>
             append_param (VStr s) (append_condition "signal_quality = %s" q)) q in
  let q := if_not_none alert_sent (fun b q =>
             append_param (VBool b) (append_condition "alert_sent = %s" q)) q in
  q.

Definition get_insider_transactions
    (ticker insider_name start_date end_date : option string)
    (signal_generated : option bool) (signal_quality : option string)
    (alert_sent : option bool) (limit offset : Z) : result row :=
  try_except "Failed to retrieve insider transactions" (
    let limit := if (limit <? 1) || (limit >? 1000) then 100 else limit in
    let q := insider_transactions_filters ticker insider_name start_date end_date
               signal_generated signal_quality alert_sent in
    let where_clause := where_or_true (conditions q) in
    let query := insider_transactions_query where_clause in
    let q := append_param (VInt limit) q in
    let q := append_param (VInt offset) q in
    let count_query := insider_transactions_count_query where_clause in
    results <- execute_query E query (Some (params q)) false ;;
    count_result <- execute_query E count_query (Some (drop_last_two (params q))) true ;;
    total <- match count_result with
             | Some r => getitem r "total"
             | None => Ok (VInt 0)
             end ;;
    Ok [("transactions", rows_value results);
        ("count", len results);
        ("total", total);
        ("limit", VInt limit);
        ("offset", VInt offset);
        ("timestamp", VStr (isoformat E (now E 0)));
        ("status", VStr "success")]).

Definition transaction_found (r : row) : row :=
  [("transaction", VDict r);
   ("timestamp", VStr (isoformat E (now E 0)));
   ("status", VStr "success")].

(** The second half of [get_transaction_by_id]: the natural-key lookup. *)
Definition transaction_by_external_id (transaction_id : string) : result row :=
  let query := "SELECT * FROM insider_transactions WHERE transaction_id = %s" in
  result <- execute_query E query (Some [VStr transaction_id]) true ;;
  match result with
  | None =>
      Raise (mk_exn PyException ("Transaction not found: " ++ transaction_id))
  | Some r => Ok (transaction_found r)
  end.

Definition get_transaction_by_id (transaction_id : string) : result row :=
  try_except "Failed to retrieve transaction" (
    if isdigit transaction_id then
      let query := "SELECT * FROM insider_transactions WHERE id = %s" in
      id <- py_int transaction_id ;;
      result <- execute_query E query (Some [VInt id]) true ;;
      match result with
      | Some r => Ok (transaction_found r)
      | None => transaction_by_external_id transaction_id
      end
    else transaction_by_external_id transaction_id).

(** [(datetime.now() - timedelta(days=days)).date()] *)
Definition days_ago (days : Z) : result value :=
  delta <- timedelta days ;;
  dt <- datetime_sub (now E 0) delta ;;
  Ok (date dt).

Definition recent_signals_filters (start_date : value)
    (signal_quality : option string) : filters :=
  let q := mk_filters ["signal_generated = TRUE"] [] in
  let q := append_param start_date (append_condition "filing_date >= %s" q) in
  let q := if_supplied signal_quality (fun s q =>
             append_param (VStr s) (append_condition "signal_quality = %s" q)) q in
  q.

Definition get_recent_signals (days : Z) (signal_quality : option string)
    (limit : Z) : result row :=
  try_except "Failed to retrieve recent signals" (
    let limit := if (limit <? 1) || (limit >? 500) then 50 else limit in
    start_date <- days_ago days ;;
    let q := recent_signals_filters start_date signal_quality in
    let where_clause := join " AND " (conditions q) in
    let q := append_param (VInt limit) q in
    let query := recent_signals_query where_clause in
    results <- execute_query E query (Some (params q)) false ;;
    Ok [("signals", rows_value results);
        ("count", len results);
        ("days", VInt days);
        ("timestamp", VStr (isoformat E (now E 1)));
        ("status", VStr "success")]).

Definition get_unprocessed_transactions (limit : Z) : result row :=
  try_except "Failed to retrieve unprocessed transactions" (
    let limit := if (limit <? 1) || (limit >? 1000) then 100 else limit in
    let query := unprocessed_transactions_query in
    results <- execute_query E query (Some [VInt limit]) false ;;
    Ok [("transactions", rows_value results);
        ("count", len results);
        ("timestamp", VStr (isoformat E (now E 0)));
        ("status", VStr "success")]).

Definition insider_stats_filters (start_date : value)
    (ticker insider_name : option string) : filters :=
  let q := no_filters in
  let q := append_param start_date (append_condition "transaction_date >= %s" q) in
  let q := if_supplied ticker (fun t q =>
             append_param (VStr (upper t)) (append_condition "ticker = %s" q)) q in
  let q := if_supplied insider_name (fun n q =>
             append_param (VStr ("%" ++ n ++ "%"))
               (append_condition "insider_name ILIKE %s" q)) q in
  q.

Definition get_insider_stats (ticker insider_name : option string) (days : Z)
    : result row :=
  try_except "Failed to retrieve insider statistics" (
    start_date <- days_ago days ;;
    let q := insider_stats_filters start_date ticker insider_name in
    let where_clause := join " AND " (conditions q) in
    let query := insider_stats_query where_clause in
    result <- execute_query E query (Some (params q)) true ;;
    Ok [("statistics", option_value result);
        ("days", VInt days);
        ("filters", VDict [("ticker", opt_str ticker);
                           ("insider_name", opt_str insider_name)]);
        ("timestamp", VStr (isoformat E (now E 1)));
        ("status", VStr "success")]).
End InsiderTransactions.

(* ================================================================= *)
(** ** llm_calls.py *)

Definition llm_calls_query (where_clause : string) : string :=
  "
                SELECT * FROM llm_calls
                WHERE " ++ where_clause ++ "
                ORDER BY entry_date DESC, call_date DESC
                LIMIT %s OFFSET %s
            ".

Definition llm_calls_count_query (where_clause : string) : string :=
  "
                SELECT COUNT(*) as total FROM llm_calls
                WHERE " ++ where_clause ++ "
            ".

Definition open_calls_query : string :=
  "
                SELECT * FROM llm_calls
                WHERE is_closed = FALSE
                ORDER BY entry_date DESC, call_date DESC
                LIMIT %s
            ".

Definition call_performance_query (where_clause : string) : string :=
  "
                SELECT 
                    COUNT(*) as total_calls,
                    COUNT(CASE WHEN is_closed = TRUE THEN 1 END) as closed_calls,
                    COUNT(CASE WHEN is_closed = FALSE THEN 1 END) as open_calls,
                    AVG(price_change_pct) as avg_price_change_pct,
                    SUM(pnl_dollars) as total_pnl,
                    AVG(pnl_dollars) as avg_pnl,
                    AVG(holding_days) as avg_holding_days,
                    COUNT(CASE WHEN pnl_dollars > 0 THEN 1 END) as winning_calls,
                    COUNT(CASE WHEN pnl_dollars < 0 THEN 1 END) as losing_calls,
                    COUNT(CASE WHEN pnl_dollars IS NULL THEN 1 END) as pending_calls
                FROM llm_calls
                WHERE " ++ where_clause ++ "
            ".

(** [result.get(...)] on what a [fetch_one] query returned: [None] has no
    attribute [get]. *)
Definition must_be_dict (fetched_row : option row) : result row :=
  match fetched_row with
  | Some r => Ok r
  | None =>
      Raise (mk_exn AttributeError "'NoneType' object has no attribute 'get'")
  end.

(** [row.get(key, 0) or 0] *)
Definition count_of (r : row) (key : string) : value :=
  py_or (dict_get r key (VInt 0)) (VInt 0).

(** [(numerator / denominator * 100) if denominator > 0 else 0], the
    expression behind every derived rate. *)
Definition percentage (numerator denominator : value) : result value :=
  positive <- py_gt_zero denominator ;;
  if positive then
    ratio <- py_truediv numerator denominator ;;
    py_mul_int ratio 100
  else Ok (VInt 0).

Section LlmCalls.
Variable E : Env.

Definition llm_calls_filters (ticker status recommendation : option string)
    (is_closed : option bool) (start_date end_date : option string) : filters :=
  let q := no_filters in
  let q := if_supplied ticker (fun t q =>
             append_param (VStr (upper t)) (append_condition "ticker = %s" q)) q in
  let q := if_supplied status (fun s q =>
             append_param (VStr (upper s)) (append_condition "status = %s" q)) q in
  let q := if_supplied recommendation (fun r q =>
             append_param (VStr (upper r))
               (append_condition "recommendation = %s" q)) q in
  let q := if_not_none is_closed (fun b q =>
             append_param (VBool b) (append_condition "is_closed = %s" q)) q in
  let q := if_supplied start_date (fun d q =>
             append_param (VStr d) (append_condition "entry_date >= %s" q)) q in
  let q := if_supplied end_date (fun d q =>
             append_param (VStr d) (append_condition "entry_date <= %s" q)) q in
  q.

Definition get_llm_calls (ticker status recommendation : option string)
    (is_closed : option bool) (start_date end_date : option string)
    (limit offset : Z) : result row :=
  try_except "Failed to retrieve LLM calls" (
    let limit := if (limit <? 1) || (limit >? 1000) then 100 else limit in
    let q := llm_calls_filters ticker status recommendation is_closed
               start_date end_date in
    let where_clause := where_or_true (conditions q) in
    let query := llm_calls_query where_clause in
    let q := append_param (VInt limit) q in
    let q := append_param (VInt offset) q in
    let count_query := llm_calls_count_query where_clause in
    results <- execute_query E query (Some (params q)) false ;;
    count_result <- execute_query E count_query (Some (drop_last_two (params q))) true ;;
    total <- match count_result with
             | Some r => getitem r "total"
             | None => Ok (VInt 0)
             end ;;
    Ok [("calls", rows_value results);
        ("count", len results);
        ("total", total);
        ("limit", VInt limit);
        ("offset", VInt offset);
        ("timestamp", VStr (isoformat E (now E 0)));
        ("status", VStr "success")]).

Definition get_call_by_id (call_id : Z) : result row :=
  try_except "Failed to retrieve call" (
    let query := "SELECT * FROM llm_calls WHERE id = %s" in
    result <- execute_query E query (Some [VInt call_id]) true ;;
    match result with
    | None => Raise (mk_exn PyException ("Call not found: " ++ str_of_Z call_id))
    | Some r =>
        Ok [("call", VDict r);
            ("timestamp", VStr (isoformat E (now E 0)));
            ("status", VStr "success")]
    end).

Definition get_open_calls (limit : Z) : result row :=
  try_except "Failed to retrieve open calls" (
    let limit := if (limit <? 1) || (limit >? 1000) then 100 else limit in
    let query := open_calls_query in
    results <- execute_query E query (Some [VInt limit]) false ;;
    Ok [("calls", rows_value results);
        ("count", len results);
        ("timestamp", VStr (isoformat E (now E 0)));
        ("status", VStr "success")]).

Definition call_performance_filters (start_date : value)
    (ticker recommendation : option string) : filters :=
  let q := no_filters in
  let q := append_param start_date (append_condition "entry_date >= %s" q) in
  let q := if_supplied ticker (fun t q =>
             append_param (VStr (upper t)) (append_condition "ticker = %s" q)) q in
  let q := if_supplied recommendation (fun r q =>
             append_param (VStr (upper r))
               (append_condition "recommendation = %s" q)) q in
  q.

Definition get_call_performance (days : Z) (ticker recommendation : option string)
    : result row :=
  try_except "Failed to retrieve call performance" (
    start_date <- days_ago E days ;;
    let q := call_performance_filters start_date ticker recommendation in
    let where_clause := join " AND " (conditions q) in
    let query := call_performance_query where_clause in
    result <- execute_query E query (Some (params q)) true ;;
    result <- must_be_dict result ;;
    let closed_count := count_of result "closed_calls" in
    let winning_count := count_of result "winning_calls" in
    win_rate <- percentage winning_count closed_count ;;
    win_rate_pct <- py_round2 win_rate ;;
    let result := setitem result "win_rate_pct" win_rate_pct in
    Ok [("performance", VDict result);
        ("days", VInt days);
        ("filters", VDict [("ticker", opt_str ticker);
                           ("recommendation", opt_str recommendation)]);
        ("timestamp", VStr (isoformat E (now E 1)));
        ("status", VStr "success")]).
End LlmCalls.

(* ================================================================= *)
(** ** market_context.py *)

Definition market_context_query (where_clause : string) : string :=
  "
                SELECT * FROM market_context
                WHERE " ++ where_clause ++ "
                ORDER BY timestamp DESC
                LIMIT %s
            ".

Definition latest_market_context_query : string :=
  "
                SELECT * FROM market_context
                ORDER BY timestamp DESC
                LIMIT 1
            ".

Definition batch_fields : list string :=
  ["sector_activity"; "ceo_cfo_buys"; "large_transactions"; "notable_patterns"].

Section MarketContext.
Variable E : Env.

Definition market_context_filters (start_timestamp end_timestamp : option string)
    : filters :=
  let q := no_filters in
  let q := if_supplied start_timestamp (fun t q =>
             append_param (VStr t) (append_condition "timestamp >= %s" q)) q in
  let q := if_supplied end_timestamp (fun t q =>
             append_param (VStr t) (append_condition "timestamp <= %s" q)) q in
  q.

(** The inner [for field in [...]] loop: [found] once a field is non-empty
    and its dump contains [batch_id]; the [break] leaves the later fields
    unread. *)
Fixpoint batch_found (batch_id : string) (record : row) (fields : list string)
    : result bool :=
  match fields with
  | [] => Ok false
  | field :: rest =>
      if truthy (dict_get record field VNone) then
        v <- getitem record field ;;
        dumped <- json_dumps E v ;;
        if contains batch_id dumped then Ok true
        else batch_found batch_id record rest
      else batch_found batch_id record rest
  end.

(** The outer [for result in results] loop building [filtered_results]. *)
Fixpoint filter_by_batch (batch_id : string) (results : list row)
    : result (list row) :=
  match results with
  | [] => Ok []
  | record :: rest =>
      found <- batch_found batch_id record batch_fields ;;
      filtered <- filter_by_batch batch_id rest ;;
      Ok (if found then record :: filtered else filtered)
  end.

Definition get_market_context (start_timestamp end_timestamp batch_id : option string)
    (limit : Z) : result row :=
  try_except "Failed to retrieve market context" (
    let limit := if (limit <? 1) || (limit >? 500) then 50 else limit in
    let q := market_context_filters start_timestamp end_timestamp in
    let where_clause := where_or_true (conditions q) in
    let query := market_context_query where_clause in
    let q := append_param (VInt limit) q in
    results <- execute_query E query (Some (params q)) false ;;
    results <- match batch_id with
               | Some b =>
                   if supplied batch_id && truthy (rows_value results)
                   then filter_by_batch b results
                   else Ok results
               | None => Ok results
               end ;;
    Ok [("market_contexts", rows_value results);
        ("count", len results);
        ("limit", VInt limit);
        ("filters", VDict [("start_timestamp", opt_str start_timestamp);
                           ("end_timestamp", opt_str end_timestamp);
                           ("batch_id", opt_str batch_id)]);
        ("timestamp", VStr (isoformat E (now E 0)));
        ("status", VStr "success")]).

Definition get_latest_market_context : result row :=
  try_except "Failed to retrieve latest market context" (
    let query := latest_market_context_query in
    result <- execute_query E query None true ;;
    match result with
    | None =>
        Ok [("market_context", VNone);
            ("message", VStr "No market context records found");
            ("timestamp", VStr (isoformat E (now E 0)));
            ("status", VStr "success")]
    | Some r =>
        Ok [("market_context", VDict r);
            ("timestamp", VStr (isoformat E (now E 0)));
            ("status", VStr "success")]
    end).

Definition get_market_context_by_id (context_id : Z) : result row :=
  try_except "Failed to retrieve market context" (
    let query := "SELECT * FROM market_context WHERE id = %s" in
    result <- execute_query E query (Some [VInt context_id]) true ;;
    match result with
    | None =>
        Raise (mk_exn PyException
                 ("Market context not found: " ++ str_of_Z context_id))
    | Some r =>
        Ok [("market_context", VDict r);
            ("timestamp", VStr (isoformat E (now E 0)));
            ("status", VStr "success")]
    end).
End MarketContext.

(* ================================================================= *)
(** ** analytics.py *)

Definition portfolio_calls_query : string :=
  "
                SELECT 
                    COUNT(*) as total_calls,
                    COUNT(CASE WHEN is_closed = TRUE THEN 1 END) as closed_calls,
                    COUNT(CASE WHEN is_closed = FALSE THEN 1 END) as open_calls,
                    SUM(pnl_dollars) as total_pnl,
                    AVG(pnl_dollars) as avg_pnl,
                    AVG(price_change_pct) as avg_price_change_pct,
                    COUNT(CASE WHEN pnl_dollars > 0 THEN 1 END) as winning_calls,
                    COUNT(CASE WHEN pnl_dollars < 0 THEN 1 END) as losing_calls
                FROM llm_calls
                WHERE entry_date >= %s
            ".

Definition portfolio_transactions_query : string :=
  "
                SELECT 
                    COUNT(*) as total_transactions,
                    COUNT(DISTINCT ticker) as unique_tickers,
                    COUNT(DISTINCT insider_name) as unique_insiders,
                    SUM(transaction_value) as total_transaction_value,
                    COUNT(CASE WHEN signal_generated = TRUE THEN 1 END) as signals_generated,
                    COUNT(CASE WHEN alert_sent = TRUE THEN 1 END) as alerts_sent
                FROM insider_transactions
                WHERE transaction_date >= %s
            ".

Definition signal_statistics_query : string :=
  "
                SELECT 
                    COUNT(*) as total_transactions,
                    COUNT(CASE WHEN signal_generated = TRUE THEN 1 END) as signals_generated,
                    COUNT(CASE WHEN signal_generated = FALSE THEN 1 END) as signals_pending,
                    COUNT(CASE WHEN alert_sent = TRUE THEN 1 END) as alerts_sent,
                    COUNT(CASE WHEN signal_quality = 'high' THEN 1 END) as high_quality_signals,
                    COUNT(CASE WHEN signal_quality = 'medium' THEN 1 END) as medium_quality_signals,
                    COUNT(CASE WHEN signal_quality = 'low' THEN 1 END) as low_quality_signals,
                    AVG(signal_score) as avg_signal_score,
                    AVG(final_signal_score) as avg_final_signal_score,
                    COUNT(CASE WHEN auto_rejected = TRUE THEN 1 END) as auto_rejected_signals
                FROM insider_transactions
                WHERE transaction_date >= %s
            ".

Definition top_performers_pnl_query : string :=
  "
                    SELECT 
                        ticker,
                        company_name,
                        COUNT(*) as call_count,
                        SUM(pnl_dollars) as total_pnl,
                        AVG(pnl_dollars) as avg_pnl,
                        AVG(price_change_pct) as avg_price_change_pct,
                        COUNT(CASE WHEN pnl_dollars > 0 THEN 1 END) as winning_calls
                    FROM llm_calls
                    WHERE entry_date >= %s AND is_closed = TRUE
                    GROUP BY ticker, company_name
                    ORDER BY total_pnl DESC NULLS LAST
                    LIMIT %s
                ".

Definition top_performers_price_change_query : string :=
  "
                    SELECT 
                        ticker,
                        company_name,
                        COUNT(*) as call_count,
                        AVG(price_change_pct) as avg_price_change_pct,
                        SUM(pnl_dollars) as total_pnl
                    FROM llm_calls
                    WHERE entry_date >= %s AND is_closed = TRUE
                    GROUP BY ticker, company_name
                    ORDER BY avg_price_change_pct DESC NULLS LAST
                    LIMIT %s
                ".

Definition top_performers_transaction_value_query : string :=
  "
                    SELECT 
                        ticker,
                        company_name,
                        COUNT(*) as transaction_count,
                        SUM(transaction_value) as total_transaction_value,
                        AVG(transaction_value) as avg_transaction_value,
                        COUNT(DISTINCT insider_name) as unique_insiders
                    FROM insider_transactions
                    WHERE transaction_date >= %s
                    GROUP BY ticker, company_name
                    ORDER BY total_transaction_value DESC NULLS LAST
                    LIMIT %s
                ".

Section Analytics.
Variable E : Env.

Definition get_portfolio_summary (days : Z) : result row :=
  try_except "Failed to retrieve portfolio summary" (
    start_date <- days_ago E days ;;
    calls_result <- execute_query E portfolio_calls_query (Some [start_date]) true ;;
    transactions_result <-
      execute_query E portfolio_transactions_query (Some [start_date]) true ;;
    calls <- must_be_dict calls_result ;;
    let closed_count := count_of calls "closed_calls" in
    let winning_count := count_of calls "winning_calls" in
    win_rate <- percentage winning_count closed_count ;;
    win_rate_pct <- py_round2 win_rate ;;
    Ok [("portfolio_summary",
           VDict [("llm_calls", option_value calls_result);
                  ("insider_transactions", option_value transactions_result);
                  ("win_rate_pct", win_rate_pct)]);
        ("days", VInt days);
        ("timestamp", VStr (isoformat E (now E 1)));
        ("status", VStr "success")]).

Definition get_signal_statistics (days : Z) : result row :=
  try_except "Failed to retrieve signal statistics" (
    start_date <- days_ago E days ;;
    result <- execute_query E signal_statistics_query (Some [start_date]) true ;;
    result <- must_be_dict result ;;
    let total := count_of result "total_transactions" in
    let signals := count_of result "signals_generated" in
    signal_rate <- percentage signals total ;;
    let alerts := count_of result "alerts_sent" in
    alert_rate <- percentage alerts signals ;;
    signal_generation_rate_pct <- py_round2 signal_rate ;;
    let result := setitem result "signal_generation_rate_pct"
                    signal_generation_rate_pct in
    alert_rate_pct <- py_round2 alert_rate ;;
    let result := setitem result "alert_rate_pct" alert_rate_pct in
    Ok [("statistics", VDict result);
        ("days", VInt days);
        ("timestamp", VStr (isoformat E (now E 1)));
        ("status", VStr "success")]).

Definition get_top_performers (days limit : Z) (metric : string) : result row :=
  try_except "Failed to retrieve top performers" (
    let limit := if (limit <? 1) || (limit >? 50) then 10 else limit in
    start_date <- days_ago E days ;;
    let query :=
      if (metric =? "pnl")%string then top_performers_pnl_query
      else if (metric =? "price_change")%string then top_performers_price_change_query
      else top_performers_transaction_value_query in
    results <- execute_query E query (Some [start_date; VInt limit]) false ;;
    Ok [("top_performers", rows_value results);
        ("metric", VStr metric);
        ("days", VInt days);
        ("limit", VInt limit);
        ("timestamp", VStr (isoformat E (now E 1)));
        ("status", VStr "success")]).
End Analytics.

(* ================================================================= *)
(** ** db.py: the connection pool behind [execute_query]

    The module-level [connection_pool] is process state.  The class
    [ThreadedConnectionPool] belongs to the driver; it is modelled as far
    as [db.py] calls it ([__init__], [getconn], [putconn], [closeall]),
    with connections as numbers; of the state of a connection the model
    keeps whether it is still usable when it is put back. *)

Module Db.

Record pool : Type := mk_pool {
  minconn : nat;
  maxconn : nat;
  closed : bool;
  idle : list nat;
  used : list nat
}.

(** The process: the global [connection_pool], whether the server accepts
    connections, and the number the next connection will get. *)
Record process : Type := mk_process {
  connection_pool : option pool;
  server_up : bool;
  next_conn : nat
}.

Definition set_pool (p : option pool) (w : process) : process :=
  mk_process p (server_up w) (next_conn w).

Definition pool_closed : exn := mk_exn PoolError "connection pool is closed".
Definition pool_exhausted : exn := mk_exn PoolError "connection pool exhausted".
Definition connect_failed : exn :=
  mk_exn OperationalError "connection to server failed".

(** [psycopg2.connect(...)] *)
Definition connect (w : process) : result nat * process :=
  if server_up w
  then (Ok (next_conn w), mk_process (connection_pool w) (server_up w) (S (next_conn w)))
  else (Raise connect_failed, w).

(** [for i in range(minconn): self._connect()] *)
Fixpoint connect_many (n : nat) (opened : list nat) (w : process)
    : result (list nat) * process :=
  match n with
  | O => (Ok opened, w)
  | S n' =>
      match connect w with
      | (Ok c, w') => connect_many n' (opened ++ [c]) w'
      | (Raise e, w') => (Raise e, w')
      end
  end.

(** [ThreadedConnectionPool(minconn, maxconn, ...)] *)
Definition new_pool (min_conn max_conn : nat) (w : process) : result pool * process :=
  match connect_many min_conn [] w with
  | (Ok opened, w') => (Ok (mk_pool min_conn max_conn false opened []), w')
  | (Raise e, w') => (Raise e, w')
  end.

(** [pool.getconn()] *)
Definition getconn (p : pool) (w : process) : result (nat * pool) * process :=
  if closed p then (Raise pool_closed, w)
  else
    match rev (idle p) with
    | c :: rest_rev =>
        (Ok (c, mk_pool (minconn p) (maxconn p) false (rev rest_rev) (used p ++ [c])), w)
    | [] =>
        if (List.length (used p) =? maxconn p)%nat then (Raise pool_exhausted, w)
        else
          match connect w with
          | (Ok c, w') =>
              (Ok (c, mk_pool (minconn p) (maxconn p) false [] (used p ++ [c])), w')
          | (Raise e, w') => (Raise e, w')
          end
    end.

Definition remove_conn (c : nat) (l : list nat) : list nat :=
  filter (fun c' => negb (c' =? c)%nat) l.

(** [pool.putconn(conn)]; [usable] is false of a connection that is closed
    or has lost its server: the pool keeps no such connection. *)
Definition putconn (c : nat) (usable : bool) (p : pool) : result pool :=
  if closed p then Raise pool_closed
  else if negb (existsb (fun c' => (c' =? c)%nat) (used p))
  then Raise (mk_exn PoolError "trying to put unkeyed connection")
  else
    Ok (mk_pool (minconn p) (maxconn p) false
          (if (List.length (idle p) <? minconn p)%nat && usable
           then idle p ++ [c] else idle p)
          (remove_conn c (used p))).

(** [pool.closeall()] *)
Definition closeall (p : pool) : result pool :=
  if closed p then Raise pool_closed
  else Ok (mk_pool (minconn p) (maxconn p) true (idle p) (used p)).

(** [init_db_pool(min_conn=1, max_conn=5)] *)
Definition init_db_pool (min_conn max_conn : nat) (w : process)
    : result unit * process :=
  match connection_pool w with
  | Some _ => (Ok tt, w)
  | None =>
      match new_pool min_conn max_conn w with
      | (Ok p, w') => (Ok tt, set_pool (Some p) w')
      | (Raise e, w') => (Raise e, w')
      end
  end.

(** [close_db_pool()] *)
Definition close_db_pool (w : process) : result unit * process :=
  match connection_pool w with
  | Some p =>
      match closeall p with
      | Ok _ => (Ok tt, set_pool None w)
      | Raise e => (Raise e, w)
      end
  | None => (Ok tt, w)
  end.

(** [get_db_connection()] up to its [yield conn]: the acquisition. *)
Definition acquire (w : process) : result nat * process :=
  match (match connection_pool w with
         | Some _ => (Ok tt, w)
         | None => init_db_pool 1 5 w
         end) with
  | (Raise e, w1) => (Raise e, w1)
  | (Ok _, w1) =>
      match connection_pool w1 with
      | None =>
          (Raise (mk_exn AttributeError
                    "'NoneType' object has no attribute 'getconn'"), w1)
      | Some p =>
          match getconn p w1 with
          | (Ok (c, p'), w2) => (Ok c, set_pool (Some p') w2)
          | (Raise e, w2) => (Raise e, w2)
          end
      end
  end.

(** The [except Exception as e: if conn: conn.rollback(); ...; raise] of
    [get_db_connection], entered when the body raised: [rollback c] is
    what [conn.rollback()] does on the connection.  A rollback that raises
    replaces the exception of the body, and the connection it failed on is
    no longer usable. *)
Definition on_exception {A : Type} (rollback : nat -> result unit) (c : nat)
    (outcome : result A) : result A * bool :=
  match outcome with
  | Ok a => (Ok a, true)
  | Raise e =>
      match rollback c with
      | Ok _ => (Raise e, true)
      | Raise e' => (Raise e', false)
      end
  end.

(** The [except] clause followed by the
    [finally: if conn: connection_pool.putconn(conn)] of
    [get_db_connection]; an exception raised by [putconn] replaces the
    outcome so far. *)
Definition release {A : Type} (rollback : nat -> result unit) (c : nat)
    (outcome : result A) (w : process) : result A * process :=
  let (outcome', usable) := on_exception rollback c outcome in
  match connection_pool w with
  | None =>
      (Raise (mk_exn AttributeError
                "'NoneType' object has no attribute 'putconn'"), w)
  | Some p =>
      match putconn c usable p with
      | Ok p' => (outcome', set_pool (Some p') w)
      | Raise e => (Raise e, w)
      end
  end.

(** [with get_db_connection() as conn: body] *)
Definition with_db_connection {A : Type} (rollback : nat -> result unit)
    (body : nat -> result A) (w : process) : result A * process :=
  match acquire w with
  | (Raise e, w1) => (Raise e, w1)
  | (Ok c, w1) => release rollback c (body c) w1
  end.

(** [execute_query(query, params, fetch_one)]; [server] is what the
    database answers to a statement. *)
Definition execute_query
    (server : string -> option (list value) -> result (list row))
    (rollback : nat -> result unit)
    (query : string) (params : option (list value)) (fetch_one : bool)
    (w : process) : result (fetched fetch_one) * process :=
  with_db_connection rollback
    (fun _ => rows <- server query params ;; Ok (fetch fetch_one rows)) w.

(** The global pool, when set, is open and has nothing checked out:
    the state between two tool calls. *)
Definition at_rest (w : process) : Prop :=
  match connection_pool w with
  | None => True
  | Some p => closed p = false /\ used p = [] /\ (0 < maxconn p)%nat
  end.

End Db.

(* ================================================================= *)
(** ** Positional binding, as the driver performs it

    [cursor.execute(sql, params)] writes the adapted parameters into the
    statement from left to right: the i-th [%s] receives the i-th
    parameter, [%%] is a percent sign, any other use of [%] and any
    surplus or missing parameter is an error. *)

Section Binding.
Variable adapt : value -> string.

(** Bind as many parameters as [s] has placeholders; return the text and
    the parameters left over. *)
Fixpoint mogrify_from (s : string) (args : list value)
    : option (string * list value) :=
  match s with
  | EmptyString => Some (EmptyString, args)
  | String c rest =>
      if Ascii.eqb c "%" then
        match rest with
        | EmptyString => None
        | String d rest' =>
            if Ascii.eqb d "s" then
              match args with
              | a :: args' =>
                  match mogrify_from rest' args' with
                  | Some (out, spare) => Some (adapt a ++ out, spare)
                  | None => None
                  end
              | [] => None
              end
            else if Ascii.eqb d "%" then
              match mogrify_from rest' args with
              | Some (out, spare) => Some (String "%" out, spare)
              | None => None
              end
            else None
        end
      else
        match mogrify_from rest args with
        | Some (out, spare) => Some (String c out, spare)
        | None => None
        end
  end.

(** [cursor.mogrify(s, args)]: every parameter must be used. *)
Definition mogrify (s : string) (args : list value) : option string :=
  match mogrify_from s args with
  | Some (out, []) => Some out
  | _ => None
  end.

(** One predicate with its own values written in. *)
Definition fill (predicate : string * list value) : string :=
  match mogrify_from (fst predicate) (snd predicate) with
  | Some (out, _) => out
  | None => fst predicate
  end.
End Binding.

(** Whether reading [s] stops in the middle of a [%] pair. *)
Fixpoint dangling (s : string) : bool :=
  match s with
  | EmptyString => false
  | String c rest =>
      if Ascii.eqb c "%" then
        match rest with
        | EmptyString => true
        | String _ rest' => dangling rest'
        end
      else dangling rest
  end.

(* ================================================================= *)
(** ** The Filter Builder of the specification

    Its input is the ordered list of a tool's predicates, each with the
    values it binds when its filter is supplied; its output is the
    conjunction of the supplied predicates and their values in the same
    order. *)

Module FilterBuilder.

(** A predicate template and, when its filter is supplied, the values it
    binds. *)
Definition candidate : Type := string * option (list value).

Fixpoint selected (cands : list candidate) : list (string * list value) :=
  match cands with
  | [] => []
  | (template, Some vs) :: rest => (template, vs) :: selected rest
  | (_, None) :: rest => selected rest
  end.

Definition predicates (cands : list candidate) : list string :=
  map fst (selected cands).

Definition parameters (cands : list candidate) : list value :=
  List.concat (map snd (selected cands)).

(** [if arg:] as a value that is present or not. *)
Definition text (arg : option string) (f : string -> value) : option (list value) :=
  match arg with
  | Some s => if supplied arg then Some [f s] else None
  | None => None
  end.

(** [if arg is not None:] *)
Definition flag (arg : option bool) : option (list value) :=
  match arg with
  | Some b => Some [VBool b]
  | None => None
  end.

Definition like (s : string) : value := VStr ("%" ++ s ++ "%").
Definition canonical (s : string) : value := VStr (upper s).

Definition insider_transactions
    (ticker insider_name start_date end_date : option string)
    (signal_generated : option bool) (signal_quality : option string)
    (alert_sent : option bool) : list candidate :=
  [("ticker = %s", text ticker canonical);
   ("insider_name ILIKE %s", text insider_name like);
   ("transaction_date >= %s", text start_date VStr);
   ("transaction_date <= %s", text end_date VStr);
   ("signal_generated = %s", flag signal_generated);
   ("signal_quality = %s", text signal_quality VStr);
   ("alert_sent = %s", flag alert_sent)].

Definition llm_calls (ticker status recommendation : option string)
    (is_closed : option bool) (start_date end_date : option string)
    : list candidate :=
  [("ticker = %s", text ticker canonical);
   ("status = %s", text status canonical);
   ("recommendation = %s", text recommendation canonical);
   ("is_closed = %s", flag is_closed);
   ("entry_date >= %s", text start_date VStr);
   ("entry_date <= %s", text end_date VStr)].

Definition recent_signals (start_date : value) (signal_quality : option string)
    : list candidate :=
  [("signal_generated = TRUE", Some []);
   ("filing_date >= %s", Some [start_date]);
   ("signal_quality = %s", text signal_quality VStr)].

Definition insider_stats (start_date : value) (ticker insider_name : option string)
    : list candidate :=
  [("transaction_date >= %s", Some [start_date]);
   ("ticker = %s", text ticker canonical);
   ("insider_name ILIKE %s", text insider_name like)].

Definition call_performance (start_date : value)
    (ticker recommendation : option string) : list candidate :=
  [("entry_date >= %s", Some [start_date]);
   ("ticker = %s", text ticker canonical);
   ("recommendation = %s", text recommendation canonical)].

Definition market_context (start_timestamp end_timestamp : option string)
    : list candidate :=
  [("timestamp >= %s", text start_timestamp VStr);
   ("timestamp <= %s", text end_timestamp VStr)].

End FilterBuilder.

(** [q] holds exactly the predicates [sel] and their values, in order. *)
Definition tracks (q : filters) (sel : list (string * list value)) : Prop :=
  conditions q = map fst sel /\ params q = List.concat (map snd sel).

(* ================================================================= *)
(** ** What the statement of [get_call_performance] computes

    The aggregate columns the tool reads are the [COUNT(CASE WHEN ...)]
    columns; a comparison with NULL is not true, so the row is not
    counted. *)

Module Sql.

Definition column (r : row) (name : string) : value := dict_get r name VNone.

(** [x = y] is true. *)
Definition eq_true (x y : value) : bool :=
  match x, y with
  | VBool a, VBool b => Bool.eqb a b
  | VInt a, VInt b => a =? b
  | VStr a, VStr b => (a =? b)%string
  | VDate a, VDate b => a =? b
  | _, _ => false
  end.

(** [x >= y] is true. *)
Definition ge_true (x y : value) : bool :=
  match x, y with
  | VInt a, VInt b => b <=? a
  | VDate a, VDate b => b <=? a
  | _, _ => false
  end.

(** [x > 0] is true. *)
Definition positive (x : value) : bool :=
  match x with
  | VInt a => 0 <? a
  | VFloat f => SFltb (S754_zero false) f
  | _ => false
  end.

(** [x < 0] is true. *)
Definition negative (x : value) : bool :=
  match x with
  | VInt a => a <? 0
  | VFloat f => SFltb f (S754_zero false)
  | _ => false
  end.

Definition is_null (x : value) : bool :=
  match x with VNone => true | _ => false end.

(** [COUNT(CASE WHEN p THEN 1 END)] *)
Definition count_when (p : row -> bool) (rows : list row) : value :=
  VInt (Z.of_nat (List.length (filter p rows))).

(** The six count columns of the statement, over the selected calls. *)
Definition call_performance_counts (calls : list row) : row :=
  [("total_calls", count_when (fun _ => true) calls);
   ("closed_calls",
      count_when (fun r => eq_true (column r "is_closed") (VBool true)) calls);
   ("open_calls",
      count_when (fun r => eq_true (column r "is_closed") (VBool false)) calls);
   ("winning_calls", count_when (fun r => positive (column r "pnl_dollars")) calls);
   ("losing_calls", count_when (fun r => negative (column r "pnl_dollars")) calls);
   ("pending_calls", count_when (fun r => is_null (column r "pnl_dollars")) calls)].

(** [entry_date >= start AND ticker = t], the WHERE clause of a call with
    a ticker and no recommendation. *)
Definition in_window_for (start : value) (ticker : string) (r : row) : bool :=
  ge_true (column r "entry_date") start && eq_true (column r "ticker") (VStr ticker).

(** The row [answer] carries the count columns of [calls]. *)
Definition carries_counts (answer : row) (calls : list row) : Prop :=
  forall k v,
    dict_lookup (call_performance_counts calls) k = Some v ->
    dict_lookup answer k = Some v.

(** A closed call settled at [pnl] dollars. *)
Definition closed_call (r : row) (pnl : Z) : Prop :=
  column r "is_closed" = VBool true /\ column r "pnl_dollars" = VInt pnl.

(** An open call: not closed, not yet settled. *)
Definition open_call (r : row) : Prop :=
  column r "is_closed" = VBool false /\ column r "pnl_dollars" = VNone.

End Sql.

(* ================================================================= *)
(** ** Reading a response *)

(** [response[key]] of a tool that returned. *)
Definition field (response : result row) (key : string) : option value :=
  match response with
  | Ok envelope => dict_lookup envelope key
  | Raise _ => None
  end.

(** [response[outer][inner]] *)
Definition field2 (response : result row) (outer inner : string) : option value :=
  match field response outer with
  | Some (VDict d) => dict_lookup d inner
  | _ => None
  end.


(** [round(numerator / denominator * 100, 2)] on two counts. *)
Definition rate_pct (numerator denominator : Z) : result value :=
  ratio <- py_truediv (VInt numerator) (VInt denominator) ;;
  pct <- py_mul_int ratio 100 ;;
  py_round2 pct.

(** The membership test of the batch filter as the tool applies it: some
    non-empty field among the four whose dump contains [batch_id]. *)
Definition mentions_batch (E : Env) (batch_id : string) (r : row) : bool :=
  existsb (fun f =>
             truthy (dict_get r f VNone) && contains batch_id (json_encode E (dict_get r f VNone)))
          batch_fields.

(** The membership test as the specification words it: some field among the four
    whose dump contains [batch_id]. *)
Definition dump_mentions_batch (E : Env) (batch_id : string) (r : row) : bool :=
  existsb (fun f => contains batch_id (json_encode E (dict_get r f VNone))) batch_fields.

(** All four batch fields of the row are JSON documents. *)
Definition documents (r : row) : bool :=
  forallb (fun f => serializable (dict_get r f VNone)) batch_fields.

(* ================================================================= *)
(** ** Predicates of the statements below *)

(** A predicate that binds exactly its own values, whatever follows in the
    parameter sequence. *)
Definition binds_own (adapt : value -> string) (p : string * list value) : Prop :=
  dangling (fst p) = false /\
  count_placeholders (fst p) = List.length (snd p) /\
  forall extra,
    mogrify_from adapt (fst p) (snd p ++ extra)%list = Some (fill adapt p, extra).

(** A candidate is sound when, once selected, it binds its own values. *)
Definition sound (adapt : value -> string) (c : FilterBuilder.candidate) : Prop :=
  forall vs, snd c = Some vs -> binds_own adapt (fst c, vs).

(** The clause [w] and the filters [q] come from the candidates [cands]:
    the same predicates and values in the same order, as many placeholders
    as parameters, and the driver writes every value into the predicate it
    was appended with. *)
Definition bound_in_order (adapt : value -> string) (w : string) (q : filters)
    (cands : list FilterBuilder.candidate) : Prop :=
  conditions q = FilterBuilder.predicates cands /\
  params q = FilterBuilder.parameters cands /\
  w = where_or_true (FilterBuilder.predicates cands) /\
  count_placeholders w = List.length (params q) /\
  mogrify adapt w (params q)
  = Some (where_or_true (map (fill adapt) (FilterBuilder.selected cands))).

(** The total a paginated tool reports, as the count statement alone
    determines it: [count_result['total'] if count_result else 0]. *)
Definition count_total (E : Env) (count_query : string) (filter_params : list value)
    : result value :=
  count_result <- execute_query E count_query (Some filter_params) true ;;
  match count_result with
  | Some r => getitem r "total"
  | None => Ok (VInt 0)
  end.

(** The exception of a lookup tool that found no record: the tool's own
    [raise Exception(f"{thing} not found: {identifier}")] after the
    [except] clause has wrapped it. *)
Definition not_found (failure thing identifier : string) : exn :=
  mk_exn PyException (failure ++ ": " ++ thing ++ " not found: " ++ identifier).

(** The response of a lookup tool that found [r]. *)
Definition found (E : Env) (key : string) (r : row) : row :=
  [(key, VDict r);
   ("timestamp", VStr (isoformat E (now E 0)));
   ("status", VStr "success")].

(* ================================================================= *)
(** ** A small database to run the tools against *)

Module Demo.

Definition transaction : row :=
  [("id", VInt 7); ("transaction_id", VStr "0001045810-24-000012");
   ("ticker", VStr "TSLA"); ("signal_generated", VBool true)].

Definition call (id : Z) (ticker : string) (closed : bool) (pnl : value) : row :=
  [("id", VInt id); ("ticker", VStr ticker); ("is_closed", VBool closed);
   ("entry_date", VDate 738900); ("pnl_dollars", pnl)].

(** Three settled calls and an open one on AAPL, an open one on MSFT. *)
Definition calls : list row :=
  [call 1 "AAPL" true (VInt 100); call 2 "MSFT" false VNone;
   call 3 "AAPL" true (VInt (-50)); call 4 "AAPL" false VNone;
   call 5 "AAPL" true (VInt 25)].

(** A snapshot that names batch B42 in its sector activity. *)
Definition tagged_context : row :=
  [("id", VInt 1); ("timestamp", VStr "2024-04-24T09:30:00"); ("batch_size", VInt 12);
   ("sector_activity", VDict [("batch", VStr "B42"); ("tech", VInt 3)]);
   ("ceo_cfo_buys", VList [VStr "NVDA"]);
   ("large_transactions", VList []);
   ("notable_patterns", VNone)].

(** A snapshot of a quiet day: no CEO or CFO bought anything. *)
Definition quiet_context : row :=
  [("id", VInt 2); ("timestamp", VStr "2024-04-23T09:30:00"); ("batch_size", VInt 1);
   ("sector_activity", VDict [("tech", VInt 1)]);
   ("ceo_cfo_buys", VInt 0);
   ("large_transactions", VList []);
   ("notable_patterns", VNone)].

Definition contexts : list row := [tagged_context; quiet_context].

Definition noon : datetime := mk_datetime 739000 43200000000.

(** Seven transactions match whatever is asked and one page holds one of
    them; the call statistics are counted over [calls]. *)
Definition server (sql : string) (args : option (list value)) : result (list row) :=
  if contains "COUNT(*) as total FROM" sql then Ok [[("total", VInt 7)]]
  else if contains "as closed_calls" sql then
    match args with
    | Some [start; VStr ticker] =>
        Ok [Sql.call_performance_counts
              (filter (Sql.in_window_for start ticker) calls)]
    | _ => Ok [Sql.call_performance_counts calls]
    end
  else if contains "as signals_generated" sql then
    Ok [[("total_transactions", VInt 0); ("signals_generated", VNone);
         ("alerts_sent", VInt 0)]]
  else if contains "FROM llm_calls" sql then Ok [call 1 "AAPL" true (VInt 100)]
  else if contains "FROM market_context" sql then Ok contexts
  else Ok [transaction].

Definition env : Env :=
  mk_env server (fun _ => noon) (fun _ => "2024-04-24T12:00:00") (fun _ => "0.0").

(** The same clock over a database without rows. *)
Definition empty_env : Env :=
  mk_env (fun _ _ => Ok []) (fun _ => noon) (fun _ => "2024-04-24T12:00:00")
    (fun _ => "0.0").

(** A database in which no primary key matches but the external
    identifier does. *)
Definition external_only_env : Env :=
  mk_env (fun sql _ => if contains "WHERE id = %s" sql then Ok [] else Ok [transaction])
    (fun _ => noon) (fun _ => "2024-04-24T12:00:00") (fun _ => "0.0").

End Demo.

(* ================================================================= *)
(** ** The rest of the tool surface *)

Definition calls_by_batch_query : string :=
  "
                SELECT * FROM llm_calls
                WHERE batch_id = %s
                ORDER BY rank ASC, call_date DESC
            ".

Definition market_context_summary_query : string :=
  "
                SELECT 
                    COUNT(*) as total_records,
                    MIN(timestamp) as earliest_timestamp,
                    MAX(timestamp) as latest_timestamp,
                    AVG(batch_size) as avg_batch_size,
                    SUM(batch_size) as total_batch_size
                FROM market_context
                WHERE timestamp >= %s
            ".

Definition ticker_transactions_query : string :=
  "
                SELECT 
                    COUNT(*) as transaction_count,
                    COUNT(DISTINCT insider_name) as unique_insiders,
                    SUM(transaction_value) as total_transaction_value,
                    AVG(transaction_value) as avg_transaction_value,
                    SUM(shares) as total_shares,
                    COUNT(CASE WHEN signal_generated = TRUE THEN 1 END) as signals_generated,
                    COUNT(CASE WHEN signal_quality = 'high' THEN 1 END) as high_quality_signals,
                    MAX(transaction_date) as latest_transaction_date
                FROM insider_transactions
                WHERE ticker = %s AND transaction_date >= %s
            ".

Definition ticker_calls_query : string :=
  "
                SELECT 
                    COUNT(*) as call_count,
                    COUNT(CASE WHEN is_closed = TRUE THEN 1 END) as closed_calls,
                    COUNT(CASE WHEN is_closed = FALSE THEN 1 END) as open_calls,
                    AVG(price_change_pct) as avg_price_change_pct,
                    SUM(pnl_dollars) as total_pnl,
                    AVG(pnl_dollars) as avg_pnl,
                    MAX(entry_date) as latest_call_date
                FROM llm_calls
                WHERE ticker = %s AND entry_date >= %s
            ".

Definition ticker_recent_transactions_query : string :=
  "
                SELECT * FROM insider_transactions
                WHERE ticker = %s AND transaction_date >= %s
                ORDER BY transaction_date DESC
                LIMIT 10
            ".

Definition ticker_recent_calls_query : string :=
  "
                SELECT * FROM llm_calls
                WHERE ticker = %s AND entry_date >= %s
                ORDER BY entry_date DESC
                LIMIT 10
            ".

Section MoreTools.
Variable E : Env.

(** [get_calls_by_batch] of llm_calls.py. *)
Definition get_calls_by_batch (batch_id : string) : result row :=
  try_except "Failed to retrieve calls by batch" (
    let query := calls_by_batch_query in
    results <- execute_query E query (Some [VStr batch_id]) false ;;
    Ok [("calls", rows_value results);
        ("count", len results);
        ("batch_id", VStr batch_id);
        ("timestamp", VStr (isoformat E (now E 0)));
        ("status", VStr "success")]).

(** [get_market_context_summary] of market_context.py; its window starts
    at [(datetime.now() - timedelta(days=days)).isoformat()]. *)
Definition get_market_context_summary (days : Z) : result row :=
  try_except "Failed to retrieve market context summary" (
    delta <- timedelta days ;;
    dt <- datetime_sub (now E 0) delta ;;
    let start_timestamp := VStr (isoformat E dt) in
    let query := market_context_summary_query in
    result <- execute_query E query (Some [start_timestamp]) true ;;
    Ok [("summary", option_value result);
        ("days", VInt days);
        ("timestamp", VStr (isoformat E (now E 1)));
        ("status", VStr "success")]).

(** [get_ticker_analysis] of analytics.py. *)
Definition get_ticker_analysis (ticker : string) (days : Z) : result row :=
  try_except "Failed to retrieve ticker analysis" (
    let ticker := upper ticker in
    start_date <- days_ago E days ;;
    transactions_result <-
      execute_query E ticker_transactions_query (Some [VStr ticker; start_date]) true ;;
    calls_result <-
      execute_query E ticker_calls_query (Some [VStr ticker; start_date]) true ;;
    recent_transactions <-
      execute_query E ticker_recent_transactions_query
        (Some [VStr ticker; start_date]) false ;;
    recent_calls <-
      execute_query E ticker_recent_calls_query (Some [VStr ticker; start_date]) false ;;
    Ok [("ticker", VStr ticker);
        ("analysis", VDict [("insider_transactions", option_value transactions_result);
                            ("llm_calls", option_value calls_result)]);
        ("recent_transactions", rows_value recent_transactions);
        ("recent_calls", rows_value recent_calls);
        ("days", VInt days);
        ("timestamp", VStr (isoformat E (now E 1)));
        ("status", VStr "success")]).
End MoreTools.

(* ================================================================= *)
(** ** main.py and the probe of db.py *)

(** [validate_api_key(api_key)]; [configured] is the value of the
    environment variable API_KEY, if set. *)
Definition validate_api_key (configured api_key : option string) : bool :=
  match configured with
  | Some required =>
      if supplied configured then
        match api_key with
        | Some given => (given =? required)%string
        | None => false
        end
      else true
  | None => true
  end.

(** [test_connection()] of db.py: any exception of the acquisition, of the
    statement or of the release is logged and turned into [False]. *)
Definition test_connection
    (server : string -> option (list value) -> result (list row))
    (rollback : nat -> result unit)
    (w : Db.process) : bool * Db.process :=
  match Db.with_db_connection rollback
          (fun _ => _ <- server "SELECT 1" None ;; Ok true) w with
  | (Ok b, w') => (b, w')
  | (Raise _, w') => (false, w')
  end.

(** [health_check()]; [port] is the module-level port of the server.  The
    [except] branch of the tool is the outcome of a probe that raised. *)
Definition health_report (E : Env) (port : Z) (probe : result bool) : row :=
  match probe with
  | Ok connected =>
      let db_status := if connected then "connected" else "disconnected" in
      [("status", VStr (if (db_status =? "connected")%string
                        then "healthy" else "degraded"));
       ("timestamp", VStr (isoformat E (now E 0)));
       ("server", VStr "investment-tracking-mcp");
       ("port", VInt port);
       ("database", VStr db_status);
       ("version", VStr "1.0.0")]
  | Raise e =>
      [("status", VStr "unhealthy");
       ("timestamp", VStr (isoformat E (now E 0)));
       ("server", VStr "investment-tracking-mcp");
       ("port", VInt port);
       ("database", VStr "error");
       ("error", VStr (exn_str e));
       ("version", VStr "1.0.0")]
  end.

Definition health_check (E : Env)
    (server : string -> option (list value) -> result (list row))
    (rollback : nat -> result unit)
    (port : Z) (w : Db.process) : row * Db.process :=
  let (connected, w') := test_connection server rollback w in
  (health_report E port (Ok connected), w').

(* ================================================================= *)
(** ** Predicates of the further statements *)

(** A filter argument is present: [if arg:] for text, [is not None] for a
    flag. *)
Definition given {A : Type} (arg : option A) : bool :=
  match arg with Some _ => true | None => false end.

(** The tool raised the wrapped form of [e]. *)
Definition wrapped (what : string) (e : exn) : exn :=
  mk_exn PyException (what ++ ": " ++ exn_str e).

(** The message of [timedelta] on a day count it cannot hold. *)
Definition days_out_of_range (days : Z) : string :=
  "days=" ++ str_of_Z days ++ "; must have magnitude <= 999999999".

(** A server that answers every statement with [rows], and one that
    refuses every statement. *)
Definition answering (rows : list row)
    : string -> option (list value) -> result (list row) :=
  fun _ _ => Ok rows.

Definition refusing (e : exn) : string -> option (list value) -> result (list row) :=
  fun _ _ => Raise e.

(** An empty string read as no argument at all. *)
Definition blank_is_absent (arg : option string) : option string :=
  if supplied arg then arg else None.

(** The predicate of a filter, when the filter is present. *)
Definition when_present (present : bool) (predicate : string) : list string :=
  if present then [predicate] else [].

(** [datetime.now() - timedelta(days=days)], the start of a window. *)
Definition window_start (E : Env) (days : Z) : result datetime :=
  delta <- timedelta days ;;
  datetime_sub (now E 0) delta.

(** [if limit < 1 or limit > cap: limit = default] *)
Definition effective_limit (cap default limit : Z) : Z :=
  if (limit <? 1) || (limit >? cap) then default else limit.

(** The decision of the batch filter on one record; a record whose dump
    fails is not decided. *)
Definition kept_by_batch (E : Env) (batch_id : string) (record : row) : bool :=
  match batch_found E batch_id record batch_fields with
  | Ok found => found
  | Raise _ => false
  end.

(** A table of insider transactions with one record, filed under
    [transaction_id], and the server that looks records up in it by
    either key. *)
Definition keyed_row (transaction_id : string) : row :=
  [("id", VInt 7); ("transaction_id", VStr transaction_id); ("ticker", VStr "TSLA")].

Definition keyed_server (transaction_id : string)
    : string -> option (list value) -> result (list row) :=
  fun sql args =>
    if (sql =? "SELECT * FROM insider_transactions WHERE transaction_id = %s")%string
    then
      match args with
      | Some [VStr given_id] =>
          if (given_id =? transaction_id)%string then Ok [keyed_row transaction_id]
          else Ok []
      | _ => Ok []
      end
    else if (sql =? "SELECT * FROM insider_transactions WHERE id = %s")%string
    then
      match args with
      | Some [VInt 7] => Ok [keyed_row transaction_id]
      | _ => Ok []
      end
    else Ok [].

Definition keyed_env (transaction_id : string) : Env :=
  mk_env (keyed_server transaction_id) (fun _ => Demo.noon)
    (fun _ => "2024-04-24T12:00:00") (fun _ => "0.0").

(** The batch step of [get_market_context] on the rows fetched:
    [if batch_id and results: ...]. *)
Definition batch_step (E : Env) (batch_id : option string) (results : list row)
    : result (list row) :=
  match batch_id with
  | Some b =>
      if supplied batch_id && truthy (rows_value results)
      then filter_by_batch E b results
      else Ok results
  | None => Ok results
  end.

(** The statement [get_top_performers] runs for a metric. *)
Definition top_performers_query (metric : string) : string :=
  if (metric =? "pnl")%string then top_performers_pnl_query
  else if (metric =? "price_change")%string then top_performers_price_change_query
  else top_performers_transaction_value_query.

(** The response of a paginated tool: the page, the total and the limit
    and offset in force. *)
Definition page_response (E : Env) (payload : string) (rows : list row)
    (total : value) (limit offset : Z) : row :=
  [(payload, rows_value rows);
   ("count", len rows);
   ("total", total);
   ("limit", VInt limit);
   ("offset", VInt offset);
   ("timestamp", VStr (isoformat E (now E 0)));
   ("status", VStr "success")].

(** The response of [get_open_calls] and [get_unprocessed_transactions]. *)
Definition list_response (E : Env) (payload : string) (rows : list row) : row :=
  [(payload, rows_value rows);
   ("count", len rows);
   ("timestamp", VStr (isoformat E (now E 0)));
   ("status", VStr "success")].

(* ================================================================= *)
(** ** The rate of the specification

    "The percentage rounded to 2 decimals": the double written with two
    decimals, [cents / 100], for a whole number of hundredths nearest to
    [100 * n / d]; at a tie either neighbour is a nearest one. *)







(* ================================================================= *)
(** ** Reading the aggregate statements

    The statements of the statistics tools are text of the repository; the
    server that runs them is not.  [Select] reads such a statement (one
    [SELECT] of aggregates over one table under a conjunction of
    comparisons) and says what it returns on a table: the count of all
    rows counts the selected rows, [COUNT(CASE WHEN c THEN 1 END)] those on which [c]
    is true, a comparison with NULL is not true, and the other aggregates
    ([AVG], [SUM], [MIN], [MAX]) are the server's. *)

Module Select.

Inductive operand : Type :=
| Placeholder
| Literal (v : value).

Inductive operator : Type := CmpEq | CmpGe | CmpLe | CmpGt | CmpLt.

Inductive condition : Type :=
| Compare (column : string) (op : operator) (rhs : operand)
| IsNull (column : string).

Inductive expression : Type :=
| CountAll
| CountWhen (c : condition)
| Apply (function column : string).

Record statement : Type := mk_statement {
  columns : list (expression * string);
  table : string;
  where_conditions : list condition
}.

Definition is_space (c : ascii) : bool :=
  let n := nat_of_ascii c in
  (n =? 32)%nat || (n =? 10)%nat || (n =? 9)%nat || (n =? 13)%nat.

Definition is_bracket (c : ascii) : bool :=
  let n := nat_of_ascii c in
  (n =? 40)%nat || (n =? 41)%nat || (n =? 44)%nat.

Definition flush (word : string) (rest : list string) : list string :=
  match word with
  | EmptyString => rest
  | _ => word :: rest
  end.

(** The words of a statement: blanks separate, brackets and commas stand
    alone. *)
Fixpoint tokenize (s word : string) : list string :=
  match s with
  | EmptyString => flush word []
  | String c rest =>
      if is_space c then flush word (tokenize rest EmptyString)
      else if is_bracket c
      then flush word (String c EmptyString :: tokenize rest EmptyString)
      else tokenize rest (word ++ String c EmptyString)
  end.

Definition is_name_char (c : ascii) : bool :=
  let n := nat_of_ascii c in
  ((97 <=? n)%nat && (n <=? 122)%nat) || is_decimal c || (n =? 95)%nat.

Fixpoint all_name_chars (s : string) : bool :=
  match s with
  | EmptyString => true
  | String c rest => is_name_char c && all_name_chars rest
  end.

(** A column, table or alias name as the statements write them. *)
Definition is_name (t : string) : bool :=
  match t with
  | EmptyString => false
  | String c _ => negb (is_decimal c) && all_name_chars t && negb (t =? "as")%string
  end.

Definition parse_operator (t : string) : option operator :=
  if (t =? "=")%string then Some CmpEq
  else if (t =? ">=")%string then Some CmpGe
  else if (t =? "<=")%string then Some CmpLe
  else if (t =? ">")%string then Some CmpGt
  else if (t =? "<")%string then Some CmpLt
  else None.

Definition parse_operand (t : string) : option operand :=
  if (t =? "%s")%string then Some Placeholder
  else if (t =? "TRUE")%string then Some (Literal (VBool true))
  else if (t =? "FALSE")%string then Some (Literal (VBool false))
  else if isdecimal t then Some (Literal (VInt (int_of_digits 0 t)))
  else None.

Definition expect (word : string) (toks : list string) : option (list string) :=
  match toks with
  | t :: rest => if (t =? word)%string then Some rest else None
  | [] => None
  end.

Definition parse_name (toks : list string) : option (string * list string) :=
  match toks with
  | t :: rest => if is_name t then Some (t, rest) else None
  | [] => None
  end.

(** [column IS NULL] or [column op operand] *)
Definition parse_condition (toks : list string) : option (condition * list string) :=
  match parse_name toks with
  | Some (column, t :: rest) =>
      if (t =? "IS")%string then
        match expect "NULL" rest with
        | Some rest' => Some (IsNull column, rest')
        | None => None
        end
      else
        match parse_operator t, rest with
        | Some op, r :: rest' =>
            match parse_operand r with
            | Some rhs => Some (Compare column op rhs, rest')
            | None => None
            end
        | _, _ => None
        end
  | _ => None
  end.

Definition is_aggregate (t : string) : bool :=
  (t =? "AVG")%string || (t =? "SUM")%string || (t =? "MIN")%string
  || (t =? "MAX")%string.

(** The count of all rows, [COUNT(CASE WHEN c THEN 1 END)] or
    [FN(column)]. *)
Definition parse_expression (toks : list string) : option (expression * list string) :=
  match toks with
  | fn :: rest =>
      match expect "(" rest with
      | Some inner =>
          if (fn =? "COUNT")%string then
            match inner with
            | t :: inner' =>
                if (t =? "*")%string then
                  match expect ")" inner' with
                  | Some rest' => Some (CountAll, rest')
                  | None => None
                  end
                else if (t =? "CASE")%string then
                  match expect "WHEN" inner' with
                  | Some after_when =>
                      match parse_condition after_when with
                      | Some (c, after_c) =>
                          match expect "THEN" after_c with
                          | Some t1 =>
                              match expect "1" t1 with
                              | Some t2 =>
                                  match expect "END" t2 with
                                  | Some t3 =>
                                      match expect ")" t3 with
                                      | Some rest' => Some (CountWhen c, rest')
                                      | None => None
                                      end
                                  | None => None
                                  end
                              | None => None
                              end
                          | None => None
                          end
                      | None => None
                      end
                  | None => None
                  end
                else None
            | [] => None
            end
          else if is_aggregate fn then
            match parse_name inner with
            | Some (column, after) =>
                match expect ")" after with
                | Some rest' => Some (Apply fn column, rest')
                | None => None
                end
            | None => None
            end
          else None
      | None => None
      end
  | [] => None
  end.

(** [expression as alias] *)
Definition parse_column (toks : list string)
    : option ((expression * string) * list string) :=
  match parse_expression toks with
  | Some (e, rest) =>
      match expect "as" rest with
      | Some rest' =>
          match parse_name rest' with
          | Some (alias, rest'') => Some ((e, alias), rest'')
          | None => None
          end
      | None => None
      end
  | None => None
  end.

(** Columns separated by commas; [fuel] bounds their number. *)
Fixpoint parse_columns (fuel : nat) (toks : list string)
    : option (list (expression * string) * list string) :=
  match fuel with
  | O => None
  | S fuel' =>
      match parse_column toks with
      | Some (col, rest) =>
          match expect "," rest with
          | Some rest' =>
              match parse_columns fuel' rest' with
              | Some (cols, rest'') => Some (col :: cols, rest'')
              | None => None
              end
          | None => Some ([col], rest)
          end
      | None => None
      end
  end.

(** Conditions joined by [AND], to the end of the statement. *)
Fixpoint parse_conditions (fuel : nat) (toks : list string) : option (list condition) :=
  match fuel with
  | O => None
  | S fuel' =>
      match parse_condition toks with
      | Some (c, []) => Some [c]
      | Some (c, rest) =>
          match expect "AND" rest with
          | Some rest' =>
              match parse_conditions fuel' rest' with
              | Some cs => Some (c :: cs)
              | None => None
              end
          | None => None
          end
      | None => None
      end
  end.

(** [SELECT columns FROM table WHERE conditions] *)
Definition parse (sql : string) : option statement :=
  let toks := tokenize sql EmptyString in
  match expect "SELECT" toks with
  | Some after_select =>
      match parse_columns (List.length toks) after_select with
      | Some (cols, after_cols) =>
          match expect "FROM" after_cols with
          | Some after_from =>
              match parse_name after_from with
              | Some (name, after_table) =>
                  match expect "WHERE" after_table with
                  | Some after_where =>
                      match parse_conditions (List.length toks) after_where with
                      | Some conds => Some (mk_statement cols name conds)
                      | None => None
                      end
                  | None => None
                  end
              | None => None
              end
          | None => None
          end
      | None => None
      end
  | None => None
  end.

(** Positional binding: each placeholder takes the next parameter, in the
    order of the text. *)
Definition bind_condition (c : condition) (args : list value)
    : option (condition * list value) :=
  match c with
  | Compare column op Placeholder =>
      match args with
      | a :: rest => Some (Compare column op (Literal a), rest)
      | [] => None
      end
  | _ => Some (c, args)
  end.

Fixpoint bind_conditions (cs : list condition) (args : list value)
    : option (list condition * list value) :=
  match cs with
  | [] => Some ([], args)
  | c :: rest =>
      match bind_condition c args with
      | Some (c', args') =>
          match bind_conditions rest args' with
          | Some (rest', args'') => Some (c' :: rest', args'')
          | None => None
          end
      | None => None
      end
  end.

Fixpoint bind_columns (cols : list (expression * string)) (args : list value)
    : option (list (expression * string) * list value) :=
  match cols with
  | [] => Some ([], args)
  | (CountWhen c, alias) :: rest =>
      match bind_condition c args with
      | Some (c', args') =>
          match bind_columns rest args' with
          | Some (rest', args'') => Some ((CountWhen c', alias) :: rest', args'')
          | None => None
          end
      | None => None
      end
  | col :: rest =>
      match bind_columns rest args with
      | Some (rest', args') => Some (col :: rest', args')
      | None => None
      end
  end.

(** The statement with its parameters written in; every parameter must be
    used. *)
Definition bind_statement (st : statement) (args : list value) : option statement :=
  match bind_columns (columns st) args with
  | Some (cols, args') =>
      match bind_conditions (where_conditions st) args' with
      | Some (conds, []) => Some (mk_statement cols (table st) conds)
      | _ => None
      end
  | None => None
  end.

(** [x > y] is true. *)
Definition gt_true (x y : value) : bool :=
  match x, y with
  | VInt a, VInt b => b <? a
  | VFloat f, VInt b => SFltb (int_as_float false b) f
  | VDate a, VDate b => b <? a
  | _, _ => false
  end.

(** [x < y] is true. *)
Definition lt_true (x y : value) : bool :=
  match x, y with
  | VInt a, VInt b => a <? b
  | VFloat f, VInt b => SFltb f (int_as_float false b)
  | VDate a, VDate b => a <? b
  | _, _ => false
  end.

Definition holds (op : operator) (x y : value) : bool :=
  match op with
  | CmpEq => Sql.eq_true x y
  | CmpGe => Sql.ge_true x y
  | CmpLe => Sql.ge_true y x
  | CmpGt => gt_true x y
  | CmpLt => lt_true x y
  end.

(** The condition is true of the row; an unbound placeholder is not. *)
Definition is_true (c : condition) (r : row) : bool :=
  match c with
  | Compare column op (Literal v) => holds op (Sql.column r column) v
  | Compare _ _ Placeholder => false
  | IsNull column => Sql.is_null (Sql.column r column)
  end.

(** The rows the WHERE clause keeps. *)
Definition kept (conds : list condition) (rows : list row) : list row :=
  filter (fun r => forallb (fun c => is_true c r) conds) rows.

Definition evaluate (aggregate : string -> list value -> value) (e : expression)
    (rows : list row) : value :=
  match e with
  | CountAll => VInt (Z.of_nat (List.length rows))
  | CountWhen c => VInt (Z.of_nat (List.length (filter (is_true c) rows)))
  | Apply fn column => aggregate fn (map (fun r => Sql.column r column) rows)
  end.

(** What the statement returns on the table: one row of aggregates. *)
Definition answer (aggregate : string -> list value -> value) (st : statement)
    (rows : list row) : row :=
  map (fun col => (snd col, evaluate aggregate (fst col) (kept (where_conditions st) rows)))
    (columns st).

(** The statement [sql] with the parameters [args] on a database holding
    the table [name] with the rows [rows]. *)
Definition run (aggregate : string -> list value -> value)
    (name : string) (rows : list row) (sql : string) (args : list value)
    : option (list row) :=
  match parse sql with
  | Some st =>
      match bind_statement st args with
      | Some closed =>
          if (table closed =? name)%string then Some [answer aggregate closed rows]
          else None
      | None => None
      end
  | None => None
  end.

(** A server that holds this one table and reads the aggregate
    statements; anything else is refused. *)
Definition server (aggregate : string -> list value -> value)
    (name : string) (rows : list row)
    : string -> option (list value) -> result (list row) :=
  fun sql args =>
    match args with
    | Some args' =>
        match run aggregate name rows sql args' with
        | Some answered => Ok answered
        | None => Raise (mk_exn DatabaseError "statement not read")
        end
    | None => Raise (mk_exn DatabaseError "statement not read")
    end.

End Select.

(** A server holding the calls of [Demo] in [llm_calls], under the clock
    of [Demo]; its averages and sums are left NULL. *)
Definition calls_env : Env :=
  mk_env (Select.server (fun _ _ => VNone) "llm_calls" Demo.calls)
    (fun _ => Demo.noon) (fun _ => "2024-04-24T12:00:00") (fun _ => "0.0").


(* ================================================================= *)
(** * Properties *)

(** ** Strings and lists *)

Lemma append_nil_r (s : string) : s ++ "" = s.
Proof. induction s as [|c s IH]; simpl; congruence. Qed.

Lemma append_assoc (a b c : string) : (a ++ b) ++ c = a ++ (b ++ c).
Proof. induction a as [|x a IH]; simpl; congruence. Qed.

(** Induction that follows a scan reading one or two characters at a time. *)
Lemma scan_ind (P : string -> Prop) :
  P "" ->
  (forall c, P (String c "")) ->
  (forall c d s, P s -> P (String d s) -> P (String c (String d s))) ->
  forall s, P s.
Proof.
  intros H0 H1 H2 s.
  assert (H : P s /\ forall c, P (String c s)).
  { induction s as [|d s [IHs IHc]]; split; auto. }
  exact (proj1 H).
Qed.

Lemma drop_last_two_app {A : Type} (l : list A) (x y : A) :
  drop_last_two (l ++ [x; y]) = l.
Proof.
  unfold drop_last_two.
  rewrite length_app; simpl.
  replace (List.length l + 2 - 2)%nat with (List.length l + 0)%nat by lia.
  rewrite firstn_app_2; simpl.
  apply app_nil_r.
Qed.

Lemma dict_lookup_setitem_same (d : row) (k : string) (v : value) :
  dict_lookup (setitem d k v) k = Some v.
Proof.
  induction d as [|[k' v'] d IH]; simpl.
  - now rewrite String.eqb_refl.
  - destruct (k' =? k)%string eqn:Hk; simpl; rewrite Hk; auto.
Qed.

Lemma dict_lookup_setitem_other (d : row) (k k' : string) (v : value) :
  (k =? k')%string = false ->
  dict_lookup (setitem d k v) k' = dict_lookup d k'.
Proof.
  intros Hkk'.
  induction d as [|[k0 v0] d IH]; simpl.
  - now rewrite Hkk'.
  - destruct (k0 =? k)%string eqn:Hk; simpl.
    + apply String.eqb_eq in Hk; subst k0. now rewrite Hkk'.
    + now rewrite IH.
Qed.

(** ** Placeholders and positional binding *)

Lemma count_placeholders_app (a b : string) :
  dangling a = false ->
  count_placeholders (a ++ b) = (count_placeholders a + count_placeholders b)%nat.
Proof.
  revert a. apply (scan_ind (fun a => dangling a = false -> _)).
  - reflexivity.
  - intros c; simpl. destruct (Ascii.eqb c "%"); [discriminate | reflexivity].
  - intros c d s IHs IHd; simpl.
    destruct (Ascii.eqb c "%").
    + destruct (Ascii.eqb d "s"); intros H; rewrite (IHs H); reflexivity.
    + exact IHd.
Qed.

Lemma dangling_app (a b : string) :
  dangling a = false -> dangling (a ++ b) = dangling b.
Proof.
  revert a. apply (scan_ind (fun a => dangling a = false -> _)).
  - reflexivity.
  - intros c; simpl. destruct (Ascii.eqb c "%"); [discriminate | reflexivity].
  - intros c d s IHs IHd; simpl.
    destruct (Ascii.eqb c "%"); [exact IHs | exact IHd].
Qed.

Section BindingFacts.
Variable adapt : value -> string.

Lemma mogrify_from_step (c : ascii) (rest : string) (args : list value) :
  mogrify_from adapt (String c rest) args =
    if Ascii.eqb c "%" then
      match rest with
      | EmptyString => None
      | String d rest' =>
          if Ascii.eqb d "s" then
            match args with
            | a :: args' =>
                match mogrify_from adapt rest' args' with
                | Some (out, spare) => Some (adapt a ++ out, spare)
                | None => None
                end
            | [] => None
            end
          else if Ascii.eqb d "%" then
            match mogrify_from adapt rest' args with
            | Some (out, spare) => Some (String "%" out, spare)
            | None => None
            end
          else None
      end
    else
      match mogrify_from adapt rest args with
      | Some (out, spare) => Some (String c out, spare)
      | None => None
      end.
Proof. reflexivity. Qed.

Lemma mogrify_from_app (a b : string) :
  forall args out spare,
    mogrify_from adapt a args = Some (out, spare) ->
    mogrify_from adapt (a ++ b) args =
      match mogrify_from adapt b spare with
      | Some (out', spare') => Some (out ++ out', spare')
      | None => None
      end.
Proof.
  revert a.
  apply (scan_ind (fun a => forall args out spare,
    mogrify_from adapt a args = Some (out, spare) ->
    mogrify_from adapt (a ++ b) args =
      match mogrify_from adapt b spare with
      | Some (out', spare') => Some (out ++ out', spare')
      | None => None
      end)).
  - intros args out spare H; simpl in H. inversion H; subst; simpl.
    destruct (mogrify_from adapt b spare) as [[o s]|]; reflexivity.
  - intros c args out spare H; simpl in *.
    destruct (Ascii.eqb c "%"); [discriminate|].
    inversion H; subst; simpl.
    destruct (mogrify_from adapt b spare) as [[o s]|]; reflexivity.
  - intros c d s IHs IHd args out spare H.
    change (String c (String d s) ++ b) with (String c (String d (s ++ b))).
    rewrite (mogrify_from_step c (String d s)) in H.
    rewrite (mogrify_from_step c (String d (s ++ b))).
    destruct (Ascii.eqb c "%").
    + destruct (Ascii.eqb d "s").
      * destruct args as [|x args]; [discriminate|].
        destruct (mogrify_from adapt s args) as [[o1 s1]|] eqn:Hs; [|discriminate].
        inversion H; subst.
        rewrite (IHs _ _ _ Hs).
        destruct (mogrify_from adapt b spare) as [[o s2]|]; [|reflexivity].
        now rewrite append_assoc.
      * destruct (Ascii.eqb d "%"); [|discriminate].
        destruct (mogrify_from adapt s args) as [[o1 s1]|] eqn:Hs; [|discriminate].
        inversion H; subst.
        rewrite (IHs _ _ _ Hs).
        destruct (mogrify_from adapt b spare) as [[o s2]|]; reflexivity.
    + change (String d (s ++ b)) with (String d s ++ b).
      destruct (mogrify_from adapt (String d s) args) as [[o1 s1]|] eqn:Hs;
        [|discriminate].
      inversion H; subst.
      rewrite (IHd _ _ _ Hs).
      destruct (mogrify_from adapt b spare) as [[o s2]|]; reflexivity.
Qed.

Lemma count_placeholders_join (sel : list (string * list value)) :
  Forall (binds_own adapt) sel ->
  dangling (join " AND " (map fst sel)) = false /\
  count_placeholders (join " AND " (map fst sel))
    = List.length (List.concat (map snd sel)).
Proof.
  induction 1 as [|[t vs] sel [Hd [Hc _]] Hall [IHd IHc]]; [split; reflexivity|].
  simpl in Hd, Hc.
  destruct sel as [|p sel].
  - simpl. rewrite app_nil_r. auto.
  - change (join " AND " (map fst ((t, vs) :: p :: sel)))
      with (t ++ " AND " ++ join " AND " (map fst (p :: sel))).
    change (List.concat (map snd ((t, vs) :: p :: sel)))
      with (vs ++ List.concat (map snd (p :: sel)))%list.
    split.
    + rewrite (dangling_app _ _ Hd). exact IHd.
    + rewrite (count_placeholders_app _ _ Hd), length_app, Hc.
      f_equal. exact IHc.
Qed.

Lemma mogrify_from_join (sel : list (string * list value)) :
  Forall (binds_own adapt) sel ->
  forall extra,
    mogrify_from adapt (join " AND " (map fst sel))
                 (List.concat (map snd sel) ++ extra)%list
    = Some (join " AND " (map (fill adapt) sel), extra).
Proof.
  induction 1 as [|[t vs] sel [_ [_ Hb]] Hall IH]; intros extra; [reflexivity|].
  simpl in Hb.
  destruct sel as [|p sel].
  - simpl. rewrite app_nil_r. apply Hb.
  - change (join " AND " (map fst ((t, vs) :: p :: sel)))
      with (t ++ " AND " ++ join " AND " (map fst (p :: sel))).
    change (List.concat (map snd ((t, vs) :: p :: sel)))
      with (vs ++ List.concat (map snd (p :: sel)))%list.
    change (join " AND " (map (fill adapt) ((t, vs) :: p :: sel)))
      with (fill adapt (t, vs) ++ " AND " ++ join " AND " (map (fill adapt) (p :: sel))).
    rewrite <- app_assoc.
    rewrite (mogrify_from_app _ _ _ _ _ (Hb _)).
    change (" AND " ++ join " AND " (map fst (p :: sel)))
      with (String " " (String "A" (String "N" (String "D" (String " "
              (join " AND " (map fst (p :: sel)))))))).
    cbn [mogrify_from Ascii.eqb Bool.eqb].
    rewrite (IH extra). reflexivity.
Qed.
End BindingFacts.

(** ** The two lists of a tool grow together *)

Lemma tracks_nil : tracks no_filters [].
Proof. split; reflexivity. Qed.

Lemma tracks_append (q : filters) sel (c : string) (v : value) :
  tracks q sel ->
  tracks (append_param v (append_condition c q)) (sel ++ [(c, [v])]).
Proof.
  intros [Hc Hp]; split; simpl.
  - now rewrite Hc, map_app.
  - now rewrite Hp, map_app, concat_app.
Qed.

Lemma tracks_text (q : filters) sel (c : string) (arg : option string)
    (f : string -> value) :
  tracks q sel ->
  tracks (if_supplied arg (fun s q => append_param (f s) (append_condition c q)) q)
         (sel ++ FilterBuilder.selected [(c, FilterBuilder.text arg f)]).
Proof.
  intros H. unfold if_supplied, FilterBuilder.text.
  destruct arg as [s|]; simpl.
  - destruct (negb (s =? "")%string); simpl.
    + now apply tracks_append.
    + now rewrite app_nil_r.
  - now rewrite app_nil_r.
Qed.

Lemma tracks_flag (q : filters) sel (c : string) (arg : option bool) :
  tracks q sel ->
  tracks (if_not_none arg (fun b q => append_param (VBool b) (append_condition c q)) q)
         (sel ++ FilterBuilder.selected [(c, FilterBuilder.flag arg)]).
Proof.
  intros H. unfold if_not_none, FilterBuilder.flag.
  destruct arg as [b|]; simpl.
  - now apply tracks_append.
  - now rewrite app_nil_r.
Qed.

Lemma selected_app (a b : list FilterBuilder.candidate) :
  FilterBuilder.selected (a ++ b)
  = (FilterBuilder.selected a ++ FilterBuilder.selected b)%list.
Proof.
  induction a as [|[t [vs|]] a IH]; simpl; congruence.
Qed.

Ltac regroup H :=
  cbn [app] in H; repeat rewrite <- selected_app in H; cbn [app] in H.

Lemma insider_transactions_tracks
    ticker insider_name start_date end_date signal_generated signal_quality alert_sent :
  tracks (insider_transactions_filters ticker insider_name start_date end_date
            signal_generated signal_quality alert_sent)
         (FilterBuilder.selected
            (FilterBuilder.insider_transactions ticker insider_name start_date
               end_date signal_generated signal_quality alert_sent)).
Proof.
  pose proof tracks_nil as H.
  apply (tracks_text _ _ "ticker = %s" ticker FilterBuilder.canonical) in H.
  apply (tracks_text _ _ "insider_name ILIKE %s" insider_name FilterBuilder.like) in H.
  apply (tracks_text _ _ "transaction_date >= %s" start_date VStr) in H.
  apply (tracks_text _ _ "transaction_date <= %s" end_date VStr) in H.
  apply (tracks_flag _ _ "signal_generated = %s" signal_generated) in H.
  apply (tracks_text _ _ "signal_quality = %s" signal_quality VStr) in H.
  apply (tracks_flag _ _ "alert_sent = %s" alert_sent) in H.
  regroup H. exact H.
Qed.

Lemma llm_calls_tracks ticker status recommendation is_closed start_date end_date :
  tracks (llm_calls_filters ticker status recommendation is_closed start_date end_date)
         (FilterBuilder.selected
            (FilterBuilder.llm_calls ticker status recommendation is_closed
               start_date end_date)).
Proof.
  pose proof tracks_nil as H.
  apply (tracks_text _ _ "ticker = %s" ticker FilterBuilder.canonical) in H.
  apply (tracks_text _ _ "status = %s" status FilterBuilder.canonical) in H.
  apply (tracks_text _ _ "recommendation = %s" recommendation FilterBuilder.canonical) in H.
  apply (tracks_flag _ _ "is_closed = %s" is_closed) in H.
  apply (tracks_text _ _ "entry_date >= %s" start_date VStr) in H.
  apply (tracks_text _ _ "entry_date <= %s" end_date VStr) in H.
  regroup H. exact H.
Qed.

Lemma recent_signals_tracks start_date signal_quality :
  tracks (recent_signals_filters start_date signal_quality)
         (FilterBuilder.selected (FilterBuilder.recent_signals start_date signal_quality)).
Proof.
  assert (H : tracks (mk_filters ["signal_generated = TRUE"] [])
                     [("signal_generated = TRUE", [])]) by (split; reflexivity).
  apply (tracks_append _ _ "filing_date >= %s" start_date) in H.
  apply (tracks_text _ _ "signal_quality = %s" signal_quality VStr) in H.
  exact H.
Qed.

Lemma insider_stats_tracks start_date ticker insider_name :
  tracks (insider_stats_filters start_date ticker insider_name)
         (FilterBuilder.selected
            (FilterBuilder.insider_stats start_date ticker insider_name)).
Proof.
  pose proof tracks_nil as H.
  apply (tracks_append _ _ "transaction_date >= %s" start_date) in H.
  apply (tracks_text _ _ "ticker = %s" ticker FilterBuilder.canonical) in H.
  apply (tracks_text _ _ "insider_name ILIKE %s" insider_name FilterBuilder.like) in H.
  regroup H. exact H.
Qed.

Lemma call_performance_tracks start_date ticker recommendation :
  tracks (call_performance_filters start_date ticker recommendation)
         (FilterBuilder.selected
            (FilterBuilder.call_performance start_date ticker recommendation)).
Proof.
  pose proof tracks_nil as H.
  apply (tracks_append _ _ "entry_date >= %s" start_date) in H.
  apply (tracks_text _ _ "ticker = %s" ticker FilterBuilder.canonical) in H.
  apply (tracks_text _ _ "recommendation = %s" recommendation FilterBuilder.canonical) in H.
  regroup H. exact H.
Qed.

Lemma market_context_tracks start_timestamp end_timestamp :
  tracks (market_context_filters start_timestamp end_timestamp)
         (FilterBuilder.selected
            (FilterBuilder.market_context start_timestamp end_timestamp)).
Proof.
  pose proof tracks_nil as H.
  apply (tracks_text _ _ "timestamp >= %s" start_timestamp VStr) in H.
  apply (tracks_text _ _ "timestamp <= %s" end_timestamp VStr) in H.
  regroup H. exact H.
Qed.

(** ** Every predicate of the tools binds its own values *)

Section Templates.
Variable adapt : value -> string.

Lemma selected_sound (cands : list FilterBuilder.candidate) :
  Forall (sound adapt) cands -> Forall (binds_own adapt) (FilterBuilder.selected cands).
Proof.
  induction 1 as [|[t [vs|]] cands Hc Hall IH]; simpl;
    [constructor | constructor; [now apply Hc | assumption] | assumption].
Qed.

Lemma sound_text (t : string) (arg : option string) (f : string -> value) :
  (forall v, binds_own adapt (t, [v])) -> sound adapt (t, FilterBuilder.text arg f).
Proof.
  intros Ht vs; unfold FilterBuilder.text; simpl.
  destruct arg as [s|]; [|discriminate].
  destruct (supplied (Some s)); [|discriminate].
  intros H; inversion H; subst. apply Ht.
Qed.

Lemma sound_flag (t : string) (arg : option bool) :
  (forall v, binds_own adapt (t, [v])) -> sound adapt (t, FilterBuilder.flag arg).
Proof.
  intros Ht vs; unfold FilterBuilder.flag; simpl.
  destruct arg as [b|]; [|discriminate].
  intros H; inversion H; subst. apply Ht.
Qed.

Lemma sound_fixed (t : string) (vs : list value) :
  binds_own adapt (t, vs) -> sound adapt (t, Some vs).
Proof. intros Ht vs' H; inversion H; subst. exact Ht. Qed.

Lemma builder_sound (q : filters) (cands : list FilterBuilder.candidate) :
  tracks q (FilterBuilder.selected cands) ->
  Forall (sound adapt) cands ->
  bound_in_order adapt (where_or_true (conditions q)) q cands.
Proof.
  intros [Hc Hp] Hs. apply selected_sound in Hs.
  unfold bound_in_order, FilterBuilder.predicates, FilterBuilder.parameters.
  destruct (count_placeholders_join adapt _ Hs) as [_ Hcount].
  pose proof (mogrify_from_join adapt _ Hs []) as Hbind.
  rewrite app_nil_r in Hbind.
  rewrite Hc, Hp.
  split; [reflexivity|]. split; [reflexivity|]. split; [reflexivity|]. split.
  - destruct (FilterBuilder.selected cands) as [|p sel]; [reflexivity | exact Hcount].
  - unfold mogrify.
    destruct (FilterBuilder.selected cands) as [|p sel]; [reflexivity|].
    cbn [where_or_true map] in *. now rewrite Hbind.
Qed.

(** A tool whose list of conditions is never empty joins it directly. *)
Lemma where_or_true_join (q : filters) (sel : list (string * list value)) :
  tracks q sel -> sel <> [] ->
  join " AND " (conditions q) = where_or_true (conditions q).
Proof.
  intros [Hc _] Hne. rewrite Hc.
  destruct sel; [congruence | reflexivity].
Qed.
End Templates.

Ltac one_slot :=
  intros ?; repeat split; intros; reflexivity.

Ltac sound_candidates :=
  repeat first
    [ apply Forall_nil
    | apply Forall_cons
    | apply sound_text; one_slot
    | apply sound_flag; one_slot
    | apply sound_fixed; repeat split; intros; reflexivity ].

(** C1. For every subset of the optional filters of the six list tools, the
    WHERE clause has exactly as many [%s] placeholders as the parameter
    sequence built with it has elements, the conditions and the parameters
    are those of the supplied filters in their fixed order, and positional
    binding writes every parameter into the predicate it was appended
    with. *)
Theorem where_clause_placeholders_match_params (adapt : value -> string) :
  (forall ticker insider_name start_date end_date signal_generated signal_quality
          alert_sent,
     let q := insider_transactions_filters ticker insider_name start_date end_date
                signal_generated signal_quality alert_sent in
     bound_in_order adapt (where_or_true (conditions q)) q
       (FilterBuilder.insider_transactions ticker insider_name start_date end_date
          signal_generated signal_quality alert_sent))
  /\ (forall ticker status recommendation is_closed start_date end_date,
     let q := llm_calls_filters ticker status recommendation is_closed
                start_date end_date in
     bound_in_order adapt (where_or_true (conditions q)) q
       (FilterBuilder.llm_calls ticker status recommendation is_closed
          start_date end_date))
  /\ (forall start_date signal_quality,
     let q := recent_signals_filters start_date signal_quality in
     bound_in_order adapt (join " AND " (conditions q)) q
       (FilterBuilder.recent_signals start_date signal_quality))
  /\ (forall start_date ticker insider_name,
     let q := insider_stats_filters start_date ticker insider_name in
     bound_in_order adapt (join " AND " (conditions q)) q
       (FilterBuilder.insider_stats start_date ticker insider_name))
  /\ (forall start_date ticker recommendation,
     let q := call_performance_filters start_date ticker recommendation in
     bound_in_order adapt (join " AND " (conditions q)) q
       (FilterBuilder.call_performance start_date ticker recommendation))
  /\ (forall start_timestamp end_timestamp,
     let q := market_context_filters start_timestamp end_timestamp in
     bound_in_order adapt (where_or_true (conditions q)) q
       (FilterBuilder.market_context start_timestamp end_timestamp)).
Proof.
  split; [|split; [|split; [|split; [|split]]]]; intros; subst q.
  - apply builder_sound; [apply insider_transactions_tracks | sound_candidates].
  - apply builder_sound; [apply llm_calls_tracks | sound_candidates].
  - rewrite (where_or_true_join _ _ (recent_signals_tracks _ _)) by discriminate.
    apply builder_sound; [apply recent_signals_tracks | sound_candidates].
  - rewrite (where_or_true_join _ _ (insider_stats_tracks _ _ _)) by discriminate.
    apply builder_sound; [apply insider_stats_tracks | sound_candidates].
  - rewrite (where_or_true_join _ _ (call_performance_tracks _ _ _)) by discriminate.
    apply builder_sound; [apply call_performance_tracks | sound_candidates].
  - apply builder_sound; [apply market_context_tracks | sound_candidates].
Qed.

(** The statements as executed: each carries as many placeholders as the
    parameter tuple passed with it. *)
Lemma count_placeholders_wrap (before w after : string) :
  dangling before = false -> dangling w = false ->
  count_placeholders (before ++ w ++ after)
  = (count_placeholders before + count_placeholders w + count_placeholders after)%nat.
Proof.
  intros Hb Hw.
  rewrite (count_placeholders_app _ _ Hb), (count_placeholders_app _ _ Hw). lia.
Qed.

(** Counting placeholders does not depend on how values are adapted; the
    adapter is instantiated with [type_name]. *)
Lemma where_or_true_closed (sel : list (string * list value)) :
  Forall (binds_own type_name) sel ->
  dangling (where_or_true (map fst sel)) = false
  /\ count_placeholders (where_or_true (map fst sel))
     = List.length (List.concat (map snd sel)).
Proof.
  intros H. destruct sel as [|p sel]; [split; reflexivity|].
  exact (count_placeholders_join type_name _ H).
Qed.

Ltac statement_count Htracks :=
  let Hc := fresh "Hc" in
  let Hp := fresh "Hp" in
  let Hd := fresh "Hd" in
  let Hn := fresh "Hn" in
  destruct Htracks as [Hc Hp];
  match goal with
  | |- context [where_or_true (conditions ?q)] =>
      assert (Hd : dangling (where_or_true (conditions q)) = false
                   /\ count_placeholders (where_or_true (conditions q))
                      = List.length (params q))
        by (rewrite Hc, Hp;
            apply where_or_true_closed, (selected_sound type_name);
            sound_candidates)
  | |- context [join " AND " (conditions ?q)] =>
      assert (Hd : dangling (join " AND " (conditions q)) = false
                   /\ count_placeholders (join " AND " (conditions q))
                      = List.length (params q))
        by (rewrite Hc, Hp;
            apply (count_placeholders_join type_name), (selected_sound type_name);
            sound_candidates)
  end;
  destruct Hd as [Hd Hn].

Lemma executed_statements_match_their_params :
  (forall ticker insider_name start_date end_date signal_generated signal_quality
          alert_sent limit offset,
     let q := insider_transactions_filters ticker insider_name start_date end_date
                signal_generated signal_quality alert_sent in
     count_placeholders (insider_transactions_query (where_or_true (conditions q)))
     = List.length (params (append_param offset (append_param limit q)))
     /\ count_placeholders
          (insider_transactions_count_query (where_or_true (conditions q)))
        = List.length (params q))
  /\ (forall ticker status recommendation is_closed start_date end_date limit offset,
     let q := llm_calls_filters ticker status recommendation is_closed
                start_date end_date in
     count_placeholders (llm_calls_query (where_or_true (conditions q)))
     = List.length (params (append_param offset (append_param limit q)))
     /\ count_placeholders (llm_calls_count_query (where_or_true (conditions q)))
        = List.length (params q))
  /\ (forall start_date signal_quality limit,
     let q := recent_signals_filters start_date signal_quality in
     count_placeholders (recent_signals_query (join " AND " (conditions q)))
     = List.length (params (append_param limit q)))
  /\ (forall start_date ticker insider_name,
     let q := insider_stats_filters start_date ticker insider_name in
     count_placeholders (insider_stats_query (join " AND " (conditions q)))
     = List.length (params q))
  /\ (forall start_date ticker recommendation,
     let q := call_performance_filters start_date ticker recommendation in
     count_placeholders (call_performance_query (join " AND " (conditions q)))
     = List.length (params q))
  /\ (forall start_timestamp end_timestamp limit,
     let q := market_context_filters start_timestamp end_timestamp in
     count_placeholders (market_context_query (where_or_true (conditions q)))
     = List.length (params (append_param limit q))).
Proof.
  split; [|split; [|split; [|split; [|split]]]]; intros.
  - pose proof (insider_transactions_tracks ticker insider_name start_date end_date
                  signal_generated signal_quality alert_sent) as Ht.
    fold q in Ht. statement_count Ht.
    unfold insider_transactions_query, insider_transactions_count_query.
    rewrite !count_placeholders_wrap by (first [exact Hd | reflexivity]). rewrite Hn.
    cbn [append_param params]. rewrite !length_app. cbn. split; lia.
  - pose proof (llm_calls_tracks ticker status recommendation is_closed
                  start_date end_date) as Ht.
    fold q in Ht. statement_count Ht.
    unfold llm_calls_query, llm_calls_count_query.
    rewrite !count_placeholders_wrap by (first [exact Hd | reflexivity]). rewrite Hn.
    cbn [append_param params]. rewrite !length_app. cbn. split; lia.
  - pose proof (recent_signals_tracks start_date signal_quality) as Ht.
    fold q in Ht. statement_count Ht.
    unfold recent_signals_query.
    rewrite count_placeholders_wrap by (first [exact Hd | reflexivity]). rewrite Hn.
    cbn [append_param params]. rewrite length_app. cbn. lia.
  - pose proof (insider_stats_tracks start_date ticker insider_name) as Ht.
    fold q in Ht. statement_count Ht.
    unfold insider_stats_query.
    rewrite count_placeholders_wrap by (first [exact Hd | reflexivity]). rewrite Hn. cbn. lia.
  - pose proof (call_performance_tracks start_date ticker recommendation) as Ht.
    fold q in Ht. statement_count Ht.
    unfold call_performance_query.
    rewrite count_placeholders_wrap by (first [exact Hd | reflexivity]). rewrite Hn. cbn. lia.
  - pose proof (market_context_tracks start_timestamp end_timestamp) as Ht.
    fold q in Ht. statement_count Ht.
    unfold market_context_query.
    rewrite count_placeholders_wrap by (first [exact Hd | reflexivity]). rewrite Hn.
    cbn [append_param params]. rewrite length_app. cbn. lia.
Qed.

Example insider_transactions_filters_tsla :
  let q := insider_transactions_filters (Some "tsla") (Some "cook") None (Some "")
             (Some false) None None in
  where_or_true (conditions q)
    = "ticker = %s AND insider_name ILIKE %s AND signal_generated = %s"
  /\ params q = [VStr "TSLA"; VStr "%cook%"; VBool false]
  /\ mogrify type_name (where_or_true (conditions q)) (params q)
     = Some "ticker = str AND insider_name ILIKE str AND signal_generated = bool".
Proof. repeat split. Qed.

(** ** Reading a tool from its outcome *)

Lemma bind_Ok {A B : Type} (m : result A) (k : A -> result B) (b : B) :
  bind m k = Ok b -> exists a, m = Ok a /\ k a = Ok b.
Proof. destruct m as [a|e]; simpl; [eauto | discriminate]. Qed.

Lemma try_except_Ok {A : Type} (what : string) (body : result A) (a : A) :
  try_except what body = Ok a -> body = Ok a.
Proof. destruct body; simpl; [auto | discriminate]. Qed.

Ltac bind_inv H :=
  let a := fresh "a" in
  let Ha := fresh "Ha" in
  apply bind_Ok in H; destruct H as [a [Ha H]].

Lemma pagination_params (q : filters) (limit offset : value) :
  drop_last_two (params (append_param offset (append_param limit q))) = params q.
Proof.
  simpl. rewrite <- app_assoc. apply drop_last_two_app.
Qed.

(** ** Pagination *)

Lemma insider_transactions_total (E : Env)
    ticker insider_name start_date end_date signal_generated signal_quality alert_sent
    limit offset envelope :
  get_insider_transactions E ticker insider_name start_date end_date signal_generated
    signal_quality alert_sent limit offset = Ok envelope ->
  let q := insider_transactions_filters ticker insider_name start_date end_date
             signal_generated signal_quality alert_sent in
  exists total,
    count_total E (insider_transactions_count_query (where_or_true (conditions q)))
      (params q) = Ok total
    /\ dict_lookup envelope "total" = Some total.
Proof.
  intros H q. apply try_except_Ok in H. cbv zeta in H.
  fold q in H. rewrite pagination_params in H.
  bind_inv H. bind_inv H. bind_inv H.
  inversion H; subst; clear H.
  exists a1. split; [|reflexivity].
  unfold count_total. rewrite Ha0. exact Ha1.
Qed.

Lemma llm_calls_total (E : Env)
    ticker status recommendation is_closed start_date end_date limit offset envelope :
  get_llm_calls E ticker status recommendation is_closed start_date end_date
    limit offset = Ok envelope ->
  let q := llm_calls_filters ticker status recommendation is_closed
             start_date end_date in
  exists total,
    count_total E (llm_calls_count_query (where_or_true (conditions q)))
      (params q) = Ok total
    /\ dict_lookup envelope "total" = Some total.
Proof.
  intros H q. apply try_except_Ok in H. cbv zeta in H.
  fold q in H. rewrite pagination_params in H.
  bind_inv H. bind_inv H. bind_inv H.
  inversion H; subst; clear H.
  exists a1. split; [|reflexivity].
  unfold count_total. rewrite Ha0. exact Ha1.
Qed.

(** C2. In both paginated tools the count statement receives the filter
    parameters and nothing else: the reported total is what the count
    statement answers for the WHERE clause and the filter parameters
    alone, so two calls with the same filters report the same total
    whatever their limits and offsets. *)
Theorem total_is_invariant_to_limit_and_offset (E : Env) :
  (forall ticker insider_name start_date end_date signal_generated signal_quality
          alert_sent limit offset limit' offset' envelope envelope',
     get_insider_transactions E ticker insider_name start_date end_date
       signal_generated signal_quality alert_sent limit offset = Ok envelope ->
     get_insider_transactions E ticker insider_name start_date end_date
       signal_generated signal_quality alert_sent limit' offset' = Ok envelope' ->
     let q := insider_transactions_filters ticker insider_name start_date end_date
                signal_generated signal_quality alert_sent in
     (forall l o, drop_last_two (params (append_param o (append_param l q))) = params q)
     /\ exists total,
          count_total E
            (insider_transactions_count_query (where_or_true (conditions q)))
            (params q) = Ok total
          /\ dict_lookup envelope "total" = Some total
          /\ dict_lookup envelope' "total" = Some total)
  /\
  (forall ticker status recommendation is_closed start_date end_date
          limit offset limit' offset' envelope envelope',
     get_llm_calls E ticker status recommendation is_closed start_date end_date
       limit offset = Ok envelope ->
     get_llm_calls E ticker status recommendation is_closed start_date end_date
       limit' offset' = Ok envelope' ->
     let q := llm_calls_filters ticker status recommendation is_closed
                start_date end_date in
     (forall l o, drop_last_two (params (append_param o (append_param l q))) = params q)
     /\ exists total,
          count_total E (llm_calls_count_query (where_or_true (conditions q)))
            (params q) = Ok total
          /\ dict_lookup envelope "total" = Some total
          /\ dict_lookup envelope' "total" = Some total).
Proof.
  split.
  - intros until envelope'. intros H H' q.
    destruct (insider_transactions_total _ _ _ _ _ _ _ _ _ _ _ H) as [t [Ht Hl]].
    destruct (insider_transactions_total _ _ _ _ _ _ _ _ _ _ _ H') as [t' [Ht' Hl']].
    fold q in Ht, Ht'. rewrite Ht in Ht'. inversion Ht'; subst t'.
    split; [intros; apply pagination_params|].
    exists t. auto.
  - intros until envelope'. intros H H' q.
    destruct (llm_calls_total _ _ _ _ _ _ _ _ _ _ H) as [t [Ht Hl]].
    destruct (llm_calls_total _ _ _ _ _ _ _ _ _ _ H') as [t' [Ht' Hl']].
    fold q in Ht, Ht'. rewrite Ht in Ht'. inversion Ht'; subst t'.
    split; [intros; apply pagination_params|].
    exists t. auto.
Qed.

Lemma total_is_invariant_witness :
  exists envelope envelope',
    get_insider_transactions Demo.env (Some "tsla") None None None None None None 2000 0
      = Ok envelope
    /\ get_insider_transactions Demo.env (Some "tsla") None None None None None None 5 40
      = Ok envelope'
    /\ dict_lookup envelope "total" = Some (VInt 7)
    /\ dict_lookup envelope' "total" = Some (VInt 7).
Proof.
  pose (e1 := match get_insider_transactions Demo.env (Some "tsla") None None None
                      None None None 2000 0 with Ok e => e | Raise _ => [] end).
  pose (e2 := match get_insider_transactions Demo.env (Some "tsla") None None None
                      None None None 5 40 with Ok e => e | Raise _ => [] end).
  assert (H1 : get_insider_transactions Demo.env (Some "tsla") None None None None
                 None None 2000 0 = Ok e1) by (vm_compute; reflexivity).
  assert (H2 : get_insider_transactions Demo.env (Some "tsla") None None None None
                 None None 5 40 = Ok e2) by (vm_compute; reflexivity).
  exists e1, e2. split; [exact H1|]. split; [exact H2|].
  destruct (proj1 (total_is_invariant_to_limit_and_offset Demo.env)
              _ _ _ _ _ _ _ _ _ _ _ _ _ H1 H2) as [_ [total [Ht [Hl Hl']]]].
  vm_compute in Ht. inversion Ht; subst total. split; assumption.
Defined.

(** ** Limits *)

Lemma out_of_range (cap limit : Z) :
  limit < 1 \/ cap < limit -> (limit <? 1) || (limit >? cap) = true.
Proof.
  intros [H|H].
  - apply Z.ltb_lt in H. now rewrite H.
  - rewrite Z.gtb_ltb. apply Z.ltb_lt in H. rewrite H. apply orb_true_r.
Qed.

(** ** Derived rates *)

Lemma execute_query_one (E : Env) (query : string) (args : option (list value))
    (rows : list row) :
  cursor_run E query args = Ok rows ->
  execute_query E query args true = Ok (fetchone rows).
Proof. intros H; unfold execute_query; now rewrite H. Qed.

Lemma execute_query_all (E : Env) (query : string) (args : option (list value))
    (rows : list row) :
  cursor_run E query args = Ok rows ->
  execute_query E query args false = Ok rows.
Proof. intros H; unfold execute_query; now rewrite H. Qed.


Lemma count_of_int (r : row) (key : string) (z : Z) :
  dict_lookup r key = Some (VInt z) -> count_of r key = VInt z.
Proof.
  unfold count_of, dict_get, py_or; intros H; rewrite H; simpl.
  destruct (z =? 0) eqn:Hz; simpl; [|reflexivity].
  apply Z.eqb_eq in Hz. now subst.
Qed.

(** The guard: whatever the numerator is, a zero denominator gives the
    integer 0 and nothing is divided. *)
Lemma percentage_zero_denominator (numerator : value) :
  percentage numerator (VInt 0) = Ok (VInt 0).
Proof. reflexivity. Qed.


Lemma get_call_performance_rate (E : Env) days ticker recommendation start rows r p :
  days_ago E days = Ok start ->
  let q := call_performance_filters start ticker recommendation in
  cursor_run E (call_performance_query (join " AND " (conditions q)))
    (Some (params q)) = Ok rows ->
  fetchone rows = Some r ->
  bind (percentage (count_of r "winning_calls") (count_of r "closed_calls")) py_round2
    = Ok p ->
  get_call_performance E days ticker recommendation
  = Ok [("performance", VDict (setitem r "win_rate_pct" p));
        ("days", VInt days);
        ("filters", VDict [("ticker", opt_str ticker);
                           ("recommendation", opt_str recommendation)]);
        ("timestamp", VStr (isoformat E (now E 1)));
        ("status", VStr "success")].
Proof.
  intros Hs q Hrun Hrow Hrate.
  unfold get_call_performance. rewrite Hs. cbn [bind]. fold q.
  rewrite (execute_query_one _ _ _ _ Hrun), Hrow. cbn [bind must_be_dict].
  apply bind_Ok in Hrate. destruct Hrate as [rate [H1 H2]].
  rewrite H1. cbn [bind]. rewrite H2. reflexivity.
Qed.












Example rate_two_thirds : rate_pct 2 3 = Ok (VFloat (decimal2 6667)).
Proof. vm_compute. reflexivity. Qed.

Example rate_one_eighth : rate_pct 1 8 = Ok (VFloat (decimal2 1250)).
Proof. vm_compute. reflexivity. Qed.

Example rate_tie_goes_to_even : rate_pct 1 800 = Ok (VFloat (decimal2 12)).
Proof. vm_compute. reflexivity. Qed.

Example rate_of_nothing_won : rate_pct 0 5 = Ok (VFloat (S754_zero false)).
Proof. vm_compute. reflexivity. Qed.

(** ** The AAPL example *)

Lemma count_when_permutation (p : row -> bool) (l l' : list row) :
  Permutation l l' -> Sql.count_when p l = Sql.count_when p l'.
Proof.
  unfold Sql.count_when. intros H. do 2 f_equal.
  induction H as [|x l l' _ IH|x y l|l l' l'' _ IH1 _ IH2]; simpl.
  - reflexivity.
  - destruct (p x); simpl; congruence.
  - destruct (p x), (p y); reflexivity.
  - congruence.
Qed.

(** [winning_calls] counts every call with a positive [pnl_dollars]; when
    calls that are not closed are unsettled, as their life cycle has it,
    these are the winning closed calls. *)
Lemma winning_calls_are_closed (calls : list row) :
  (forall r, In r calls ->
     Sql.eq_true (Sql.column r "is_closed") (VBool true) = false ->
     Sql.column r "pnl_dollars" = VNone) ->
  Sql.count_when (fun r => Sql.positive (Sql.column r "pnl_dollars")) calls
  = Sql.count_when
      (fun r => Sql.positive (Sql.column r "pnl_dollars")
                && Sql.eq_true (Sql.column r "is_closed") (VBool true)) calls.
Proof.
  unfold Sql.count_when. intros H. do 2 f_equal.
  induction calls as [|r calls IH]; [reflexivity|].
  cbn [filter].
  assert (Hr : Sql.positive (Sql.column r "pnl_dollars")
               = Sql.positive (Sql.column r "pnl_dollars")
                 && Sql.eq_true (Sql.column r "is_closed") (VBool true)).
  { destruct (Sql.eq_true (Sql.column r "is_closed") (VBool true)) eqn:Hc.
    - now rewrite andb_true_r.
    - rewrite (H r (or_introl eq_refl) Hc). reflexivity. }
  rewrite <- Hr.
  destruct (Sql.positive (Sql.column r "pnl_dollars")); cbn [List.length];
    rewrite IH; auto; intros r' Hin; apply H; now right.
Qed.

Lemma filter_length_permutation {A : Type} (p : A -> bool) (l l' : list A) :
  Permutation l l' -> List.length (filter p l) = List.length (filter p l').
Proof.
  induction 1 as [|x l l' _ IH|x y l|l l' l'' _ IH1 _ IH2]; cbn [filter].
  - reflexivity.
  - destruct (p x); cbn [List.length]; congruence.
  - destruct (p x), (p y); reflexivity.
  - congruence.
Qed.

(** The WHERE clause of a call with a ticker and no recommendation, read
    with its two parameters, keeps the calls of the ticker in the
    window. *)
Lemma kept_in_window (start : value) (ticker : string) (rows : list row) :
  Select.kept
    [Select.Compare "entry_date" Select.CmpGe (Select.Literal start);
     Select.Compare "ticker" Select.CmpEq (Select.Literal (VStr ticker))] rows
  = filter (Sql.in_window_for start ticker) rows.
Proof.
  unfold Select.kept. apply filter_ext. intros r.
  cbn [forallb Select.is_true Select.holds]. unfold Sql.in_window_for.
  now rewrite andb_true_r.
Qed.

(** What the performance statement returns for a ticker, as [Select]
    reads its text: the counts over the calls of the ticker in the
    window. *)
Lemma performance_statement_for_ticker
    (aggregate : string -> list value -> value) (rows : list row)
    (start : value) (ticker : string) :
  exists answered,
    Select.run aggregate "llm_calls" rows
      (call_performance_query "entry_date >= %s AND ticker = %s")
      [start; VStr ticker] = Some [answered]
    /\ answered <> []
    /\ forall selected,
         selected = filter (Sql.in_window_for start ticker) rows ->
         dict_lookup answered "total_calls"
         = Some (VInt (Z.of_nat (List.length selected)))
         /\ dict_lookup answered "closed_calls"
            = Some (VInt (Z.of_nat (List.length
                 (filter (fun r => Sql.eq_true (Sql.column r "is_closed") (VBool true))
                    selected))))
         /\ dict_lookup answered "open_calls"
            = Some (VInt (Z.of_nat (List.length
                 (filter (fun r => Sql.eq_true (Sql.column r "is_closed") (VBool false))
                    selected))))
         /\ dict_lookup answered "winning_calls"
            = Some (VInt (Z.of_nat (List.length
                 (filter (fun r => Select.gt_true (Sql.column r "pnl_dollars") (VInt 0))
                    selected))))
         /\ dict_lookup answered "losing_calls"
            = Some (VInt (Z.of_nat (List.length
                 (filter (fun r => Select.lt_true (Sql.column r "pnl_dollars") (VInt 0))
                    selected)))).
Proof.
  unfold Select.run.
  destruct (Select.parse (call_performance_query "entry_date >= %s AND ticker = %s"))
    as [st|] eqn:Hparse; vm_compute in Hparse; [|discriminate].
  inversion Hparse; subst st; clear Hparse.
  cbn [Select.bind_statement Select.bind_columns Select.bind_conditions
       Select.bind_condition Select.columns Select.where_conditions Select.table].
  change (("llm_calls" =? "llm_calls")%string) with true. cbv iota.
  eexists. split; [reflexivity|].
  unfold Select.answer.
  cbn [map fst snd Select.columns Select.where_conditions Select.evaluate].
  split; [discriminate|].
  intros selected ->. rewrite kept_in_window.
  repeat split.
Qed.

(** C3. Three closed AAPL calls settled at 100, -50 and 25 dollars and one
    open, unsettled call are the calls of [llm_calls] in the window of the
    last 365 days, on a server that answers the statement of the tool as
    the statement reads: [get_call_performance(days=365, ticker="AAPL")]
    reports 3 closed, 2 winning, 1 losing and 1 open call and a win rate
    of 66.67. *)
Theorem call_performance_of_three_closed_one_open
    (E : Env) (aggregate : string -> list value -> value)
    (llm_calls : list row) (c1 c2 c3 o : row) :
  let start := VDate (dt_ordinal (now E 0) - 365) in
  let selected := filter (Sql.in_window_for start "AAPL") llm_calls in
  let response := get_call_performance E 365 (Some "AAPL") None in
  1 <= dt_ordinal (now E 0) - 365 <= 3652059 ->
  (forall sql args answered,
     Select.run aggregate "llm_calls" llm_calls sql args = Some answered ->
     cursor_run E sql (Some args) = Ok answered) ->
  Permutation selected [c1; c2; c3; o] ->
  Sql.closed_call c1 100 -> Sql.closed_call c2 (-50) -> Sql.closed_call c3 25 ->
  Sql.open_call o ->
  field2 response "performance" "closed_calls" = Some (VInt 3)
  /\ field2 response "performance" "winning_calls" = Some (VInt 2)
  /\ field2 response "performance" "losing_calls" = Some (VInt 1)
  /\ field2 response "performance" "open_calls" = Some (VInt 1)
  /\ field2 response "performance" "win_rate_pct" = Some (VFloat (decimal2 6667))
  /\ rate_pct 2 3 = Ok (VFloat (decimal2 6667)).
Proof.
  intros start selected response Hrange Hserver Hperm
    [A1 B1] [A2 B2] [A3 B3] [A4 B4].
  assert (Hs : days_ago E 365 = Ok start).
  { unfold days_ago, datetime_sub.
    change (timedelta 365) with (@Ok Z 365). cbn [bind].
    destruct Hrange as [Hlo Hhi].
    apply Z.leb_le in Hlo, Hhi. rewrite Hlo, Hhi. reflexivity. }
  destruct (performance_statement_for_ticker aggregate llm_calls start "AAPL")
    as [answered [Hrun [Hrow Hcounts]]].
  apply Hserver in Hrun.
  destruct (Hcounts selected eq_refl) as [_ [Hclosed [Hopen [Hwin Hlose]]]].
  rewrite (filter_length_permutation _ _ _ Hperm) in Hclosed.
  rewrite (filter_length_permutation _ _ _ Hperm) in Hopen.
  rewrite (filter_length_permutation _ _ _ Hperm) in Hwin.
  rewrite (filter_length_permutation _ _ _ Hperm) in Hlose.
  cbn [filter] in Hclosed, Hopen, Hwin, Hlose.
  rewrite A1, A2, A3, A4 in Hclosed, Hopen.
  rewrite B1, B2, B3, B4 in Hwin, Hlose.
  cbn in Hclosed, Hopen, Hwin, Hlose.
  assert (Hfetch : fetchone [answered] = Some answered).
  { destruct answered; [congruence | reflexivity]. }
  assert (Hrate : bind (percentage (count_of answered "winning_calls")
                          (count_of answered "closed_calls")) py_round2
                  = Ok (VFloat (decimal2 6667))).
  { rewrite (count_of_int _ _ _ Hwin), (count_of_int _ _ _ Hclosed).
    vm_compute. reflexivity. }
  subst response.
  rewrite (get_call_performance_rate E 365 (Some "AAPL") None start [answered] answered
             _ Hs Hrun Hfetch Hrate).
  cbn [field2 field dict_lookup String.eqb Ascii.eqb Bool.eqb].
  rewrite !dict_lookup_setitem_other by reflexivity.
  split; [exact Hclosed|]. split; [exact Hwin|].
  split; [exact Hlose|]. split; [exact Hopen|].
  split; [apply dict_lookup_setitem_same|].
  vm_compute. reflexivity.
Qed.

Lemma call_performance_example_witness :
  field2 (get_call_performance calls_env 365 (Some "AAPL") None)
    "performance" "closed_calls" = Some (VInt 3)
  /\ field2 (get_call_performance calls_env 365 (Some "AAPL") None)
       "performance" "winning_calls" = Some (VInt 2)
  /\ field2 (get_call_performance calls_env 365 (Some "AAPL") None)
       "performance" "win_rate_pct" = Some (VFloat (decimal2 6667)).
Proof.
  assert (H : let response := get_call_performance calls_env 365 (Some "AAPL") None in
              field2 response "performance" "closed_calls" = Some (VInt 3)
              /\ field2 response "performance" "winning_calls" = Some (VInt 2)
              /\ field2 response "performance" "losing_calls" = Some (VInt 1)
              /\ field2 response "performance" "open_calls" = Some (VInt 1)
              /\ field2 response "performance" "win_rate_pct"
                 = Some (VFloat (decimal2 6667))
              /\ rate_pct 2 3 = Ok (VFloat (decimal2 6667))).
  { apply (call_performance_of_three_closed_one_open calls_env (fun _ _ => VNone)
             Demo.calls
             (Demo.call 1 "AAPL" true (VInt 100))
             (Demo.call 3 "AAPL" true (VInt (-50)))
             (Demo.call 5 "AAPL" true (VInt 25))
             (Demo.call 4 "AAPL" false VNone)).
    - vm_compute. split; discriminate.
    - intros sql args answered Hrun.
      cbn [calls_env cursor_run Select.server]. now rewrite Hrun.
    - vm_compute. apply perm_skip, perm_skip, perm_swap.
    - split; reflexivity.
    - split; reflexivity.
    - split; reflexivity.
    - split; reflexivity. }
  cbv zeta in H. destruct H as [Hc [Hw [_ [_ [Hr _]]]]].
  split; [exact Hc|]. split; [exact Hw | exact Hr].
Defined.

(** ** Lookups by identifier *)

Lemma fetchone_cons (r : row) (rest : list row) :
  r <> [] -> fetchone (r :: rest) = Some r.
Proof. destruct r; [congruence | reflexivity]. Qed.

Lemma get_call_by_id_outcome (E : Env) (call_id : Z) (rows : list row) :
  cursor_run E "SELECT * FROM llm_calls WHERE id = %s" (Some [VInt call_id]) = Ok rows ->
  get_call_by_id E call_id
  = match fetchone rows with
    | Some r => Ok (found E "call" r)
    | None => Raise (not_found "Failed to retrieve call" "Call" (str_of_Z call_id))
    end.
Proof.
  intros H. unfold get_call_by_id.
  rewrite (execute_query_one _ _ _ _ H). cbn [bind].
  destruct (fetchone rows); reflexivity.
Qed.

Lemma get_market_context_by_id_outcome (E : Env) (context_id : Z) (rows : list row) :
  cursor_run E "SELECT * FROM market_context WHERE id = %s" (Some [VInt context_id])
    = Ok rows ->
  get_market_context_by_id E context_id
  = match fetchone rows with
    | Some r => Ok (found E "market_context" r)
    | None => Raise (not_found "Failed to retrieve market context" "Market context"
                       (str_of_Z context_id))
    end.
Proof.
  intros H. unfold get_market_context_by_id.
  rewrite (execute_query_one _ _ _ _ H). cbn [bind].
  destruct (fetchone rows); reflexivity.
Qed.

Lemma transaction_by_external_id_outcome (E : Env) (transaction_id : string)
    (rows : list row) :
  cursor_run E "SELECT * FROM insider_transactions WHERE transaction_id = %s"
    (Some [VStr transaction_id]) = Ok rows ->
  try_except "Failed to retrieve transaction"
    (transaction_by_external_id E transaction_id)
  = match fetchone rows with
    | Some r => Ok (found E "transaction" r)
    | None => Raise (not_found "Failed to retrieve transaction" "Transaction"
                       transaction_id)
    end.
Proof.
  intros H. unfold transaction_by_external_id.
  rewrite (execute_query_one _ _ _ _ H). cbn [bind].
  destruct (fetchone rows); reflexivity.
Qed.

Lemma get_transaction_by_id_other (E : Env) (transaction_id : string) :
  isdigit transaction_id = false ->
  get_transaction_by_id E transaction_id
  = try_except "Failed to retrieve transaction"
      (transaction_by_external_id E transaction_id).
Proof. intros H. unfold get_transaction_by_id. now rewrite H. Qed.

Lemma all_decimal_leading (s : string) :
  all_decimal s = true -> leading_decimals s = String.length s.
Proof.
  induction s as [|c s IH]; [reflexivity|].
  cbn [all_decimal leading_decimals String.length]. intros H.
  apply andb_true_iff in H. destruct H as [Hc Hs].
  rewrite Hc. f_equal. exact (IH Hs).
Qed.

Lemma all_decimal_all_digits (s : string) :
  all_decimal s = true -> all_digits s = true.
Proof.
  induction s as [|c s IH]; [reflexivity|].
  cbn [all_decimal all_digits]. intros H.
  apply andb_true_iff in H. destruct H as [Hc Hs].
  unfold is_digit. rewrite Hc, (IH Hs). reflexivity.
Qed.

Lemma int_readable_isdigit (s : string) :
  int_readable s = true -> isdigit s = true.
Proof.
  unfold int_readable, isdecimal, isdigit. intros H.
  apply andb_true_iff in H. destruct H as [H _].
  destruct s as [|c s]; [discriminate|]. now apply all_decimal_all_digits.
Qed.

Lemma py_int_readable (s : string) :
  int_readable s = true -> py_int s = Ok (int_of_digits 0 s).
Proof.
  unfold int_readable, py_int. intros H.
  apply andb_true_iff in H. destruct H as [Hd Hl].
  assert (Hall : all_decimal s = true).
  { unfold isdecimal in Hd. destruct s; [discriminate | exact Hd]. }
  rewrite (all_decimal_leading _ Hall), Hd.
  apply Nat.leb_le in Hl.
  assert (Hlt : (int_max_str_digits <? String.length s)%nat = false).
  { apply Nat.ltb_ge. exact Hl. }
  now rewrite Hlt.
Qed.

Lemma py_int_unreadable (s : string) :
  int_readable s = false -> exists e, py_int s = Raise e /\ exn_cls e = ValueError.
Proof.
  unfold int_readable, py_int. intros H.
  destruct (int_max_str_digits <? leading_decimals s)%nat eqn:Hlim;
    [eexists; split; reflexivity|].
  destruct (isdecimal s) eqn:Hd; [|eexists; split; reflexivity].
  exfalso. cbn [andb] in H.
  assert (Hall : all_decimal s = true).
  { unfold isdecimal in Hd. destruct s; [discriminate | exact Hd]. }
  rewrite (all_decimal_leading _ Hall) in Hlim.
  apply Nat.ltb_ge in Hlim. apply Nat.leb_gt in H. lia.
Qed.

Lemma get_transaction_by_id_numeric (E : Env) (transaction_id : string)
    (rows : list row) :
  int_readable transaction_id = true ->
  cursor_run E "SELECT * FROM insider_transactions WHERE id = %s"
    (Some [VInt (int_of_digits 0 transaction_id)])
    = Ok rows ->
  get_transaction_by_id E transaction_id
  = match fetchone rows with
    | Some r => Ok (found E "transaction" r)
    | None => try_except "Failed to retrieve transaction"
                (transaction_by_external_id E transaction_id)
    end.
Proof.
  intros Hd H. unfold get_transaction_by_id.
  rewrite (int_readable_isdigit _ Hd), (py_int_readable _ Hd). cbn [bind].
  rewrite (execute_query_one _ _ _ _ H). cbn [bind].
  destruct (fetchone rows); reflexivity.
Qed.

(** A digit string that [int] refuses: the tool raises the wrapped
    [ValueError] and runs no statement. *)
Lemma get_transaction_by_id_unreadable (E : Env) (transaction_id : string) :
  isdigit transaction_id = true -> int_readable transaction_id = false ->
  exists e,
    py_int transaction_id = Raise e
    /\ exn_cls e = ValueError
    /\ get_transaction_by_id E transaction_id
       = Raise (mk_exn PyException ("Failed to retrieve transaction: " ++ exn_str e)).
Proof.
  intros Hd Hr. destruct (py_int_unreadable _ Hr) as [e [He Hc]].
  exists e. split; [exact He|]. split; [exact Hc|].
  unfold get_transaction_by_id. rewrite Hd, He. reflexivity.
Qed.

(** The lookup tools on every identifier the interpreter can read: the
    record the statement finds, in a success envelope, or the not-found
    exception of the tool.  [get_transaction_by_id] goes through the
    primary key for a string of decimal digits that [int] reads, and
    through [transaction_id] when that finds no row or the identifier is
    not a digit string. *)
Lemma lookup_tools_on_readable_identifiers (E : Env) :
  (forall call_id rows,
     cursor_run E "SELECT * FROM llm_calls WHERE id = %s" (Some [VInt call_id])
       = Ok rows ->
     (forall r rest, rows = r :: rest -> r <> [] ->
        get_call_by_id E call_id = Ok (found E "call" r))
     /\ (rows = [] ->
        get_call_by_id E call_id
        = Raise (not_found "Failed to retrieve call" "Call" (str_of_Z call_id))))
  /\ (forall context_id rows,
     cursor_run E "SELECT * FROM market_context WHERE id = %s"
       (Some [VInt context_id]) = Ok rows ->
     (forall r rest, rows = r :: rest -> r <> [] ->
        get_market_context_by_id E context_id = Ok (found E "market_context" r))
     /\ (rows = [] ->
        get_market_context_by_id E context_id
        = Raise (not_found "Failed to retrieve market context" "Market context"
                   (str_of_Z context_id))))
  /\ (forall transaction_id rows,
     isdigit transaction_id = false ->
     cursor_run E "SELECT * FROM insider_transactions WHERE transaction_id = %s"
       (Some [VStr transaction_id])
       = Ok rows ->
     (forall r rest, rows = r :: rest -> r <> [] ->
        get_transaction_by_id E transaction_id = Ok (found E "transaction" r))
     /\ (rows = [] ->
        get_transaction_by_id E transaction_id
        = Raise (not_found "Failed to retrieve transaction" "Transaction"
                   transaction_id)))
  /\ (forall transaction_id by_id,
     int_readable transaction_id = true ->
     cursor_run E "SELECT * FROM insider_transactions WHERE id = %s"
       (Some [VInt (int_of_digits 0 transaction_id)]) = Ok by_id ->
     (forall r rest, by_id = r :: rest -> r <> [] ->
        get_transaction_by_id E transaction_id = Ok (found E "transaction" r))
     /\ (forall by_external,
           by_id = [] ->
           cursor_run E "SELECT * FROM insider_transactions WHERE transaction_id = %s"
             (Some [VStr transaction_id])
             = Ok by_external ->
           (forall r rest, by_external = r :: rest -> r <> [] ->
              get_transaction_by_id E transaction_id = Ok (found E "transaction" r))
           /\ (by_external = [] ->
              get_transaction_by_id E transaction_id
              = Raise (not_found "Failed to retrieve transaction" "Transaction"
                         transaction_id)))).
Proof.
  split; [|split; [|split]].
  - intros call_id rows H. rewrite (get_call_by_id_outcome _ _ _ H). split.
    + intros r rest -> Hr. now rewrite (fetchone_cons _ _ Hr).
    + intros ->. reflexivity.
  - intros context_id rows H. rewrite (get_market_context_by_id_outcome _ _ _ H). split.
    + intros r rest -> Hr. now rewrite (fetchone_cons _ _ Hr).
    + intros ->. reflexivity.
  - intros transaction_id rows Hd H.
    rewrite (get_transaction_by_id_other _ _ Hd),
      (transaction_by_external_id_outcome _ _ _ H). split.
    + intros r rest -> Hr. now rewrite (fetchone_cons _ _ Hr).
    + intros ->. reflexivity.
  - intros transaction_id by_id Hd H1.
    rewrite (get_transaction_by_id_numeric _ _ _ Hd H1). split.
    + intros r rest -> Hr. now rewrite (fetchone_cons _ _ Hr).
    + intros by_external -> H2. cbn [fetchone].
      rewrite (transaction_by_external_id_outcome _ _ _ H2). split.
      * intros r rest -> Hr. now rewrite (fetchone_cons _ _ Hr).
      * intros ->. reflexivity.
Qed.

Lemma lookup_tools_on_the_demo_store :
  get_call_by_id Demo.env 1
  = Ok (found Demo.env "call" (Demo.call 1 "AAPL" true (VInt 100)))
  /\ get_call_by_id Demo.empty_env 7
     = Raise (mk_exn PyException "Failed to retrieve call: Call not found: 7")
  /\ get_transaction_by_id Demo.empty_env "0001045810-24-000012"
     = Raise (mk_exn PyException
                "Failed to retrieve transaction: Transaction not found: 0001045810-24-000012").
Proof.
  destruct (lookup_tools_on_readable_identifiers Demo.env) as [Hcall _].
  destruct (lookup_tools_on_readable_identifiers Demo.empty_env)
    as [Hnone [_ [Htx _]]].
  split; [|split].
  - apply (proj1 (Hcall 1 [Demo.call 1 "AAPL" true (VInt 100)] eq_refl) _ [] eq_refl).
    discriminate.
  - apply (proj2 (Hnone 7 [] eq_refl) eq_refl).
  - apply (proj2 (Htx "0001045810-24-000012" [] eq_refl eq_refl) eq_refl).
Defined.

(** C7. [get_transaction_by_id] does not keep the contract of the lookup
    tools on the identifier made of the superscript two: [isdigit()]
    accepts it, [int()] does not, and the tool raises the wrapped
    [ValueError] without running a statement, on every server; on the
    server whose table holds a record with this [transaction_id] the
    lookup by [transaction_id] alone returns the record. *)
Theorem superscript_identifier_is_never_looked_up :
  isdigit superscript_two = true
  /\ (forall E : Env,
        get_transaction_by_id E superscript_two
        = Raise (mk_exn PyException
                   ("Failed to retrieve transaction: "
                    ++ "invalid literal for int() with base 10: '"
                    ++ superscript_two ++ "'")))
  /\ try_except "Failed to retrieve transaction"
       (transaction_by_external_id (keyed_env superscript_two) superscript_two)
     = Ok (found (keyed_env superscript_two) "transaction"
             (keyed_row superscript_two)).
Proof.
  split; [reflexivity|]. split; [|reflexivity].
  intros E. unfold get_transaction_by_id.
  change (isdigit superscript_two) with true.
  reflexivity.
Qed.

(** The fallback of [get_transaction_by_id] on the identifiers [int]
    reads: the primary key first, then [transaction_id] with the string as
    given; the tool raises exactly when neither statement finds a row. *)
Lemma readable_identifier_falls_back_to_external_id
    (E : Env) (transaction_id : string) (by_id by_external : list row) :
  int_readable transaction_id = true ->
  cursor_run E "SELECT * FROM insider_transactions WHERE id = %s"
    (Some [VInt (int_of_digits 0 transaction_id)]) = Ok by_id ->
  cursor_run E "SELECT * FROM insider_transactions WHERE transaction_id = %s"
    (Some [VStr transaction_id])
    = Ok by_external ->
  get_transaction_by_id E transaction_id
  = match fetchone by_id, fetchone by_external with
    | Some r, _ => Ok (found E "transaction" r)
    | None, Some r => Ok (found E "transaction" r)
    | None, None =>
        Raise (not_found "Failed to retrieve transaction" "Transaction" transaction_id)
    end
  /\ ((exists e, get_transaction_by_id E transaction_id = Raise e)
      <-> fetchone by_id = None /\ fetchone by_external = None).
Proof.
  intros Hd H1 H2.
  rewrite (get_transaction_by_id_numeric _ _ _ Hd H1),
    (transaction_by_external_id_outcome _ _ _ H2).
  split; [reflexivity|].
  destruct (fetchone by_id), (fetchone by_external); split;
    try (intros [e He]; discriminate);
    try (intros [Ha Hb]; discriminate);
    eauto.
Qed.

Lemma readable_identifier_on_the_demo_store :
  int_readable "0042" = true
  /\ get_transaction_by_id Demo.external_only_env "0042"
     = Ok (found Demo.external_only_env "transaction" Demo.transaction)
  /\ get_transaction_by_id Demo.empty_env "0042"
     = Raise (mk_exn PyException
                "Failed to retrieve transaction: Transaction not found: 0042").
Proof.
  split; [reflexivity|]. split.
  - exact (proj1 (readable_identifier_falls_back_to_external_id
                    Demo.external_only_env "0042" [] [Demo.transaction]
                    eq_refl eq_refl eq_refl)).
  - exact (proj1 (readable_identifier_falls_back_to_external_id
                    Demo.empty_env "0042" [] [] eq_refl eq_refl eq_refl)).
Defined.

(** C9. A purely numeric identifier of 4301 digits: [int()] refuses it at
    the interpreter's limit of 4300 digits, so the tool raises without
    having asked for the primary key or for [transaction_id], on every
    server, although on the server whose table holds the record the lookup
    by [transaction_id] finds it; the same happens for every digit string
    that [int] does not read. *)
Theorem long_numeric_identifier_is_never_looked_up :
  isdigit long_identifier = true
  /\ (forall E : Env,
        get_transaction_by_id E long_identifier
        = Raise (mk_exn PyException
                   ("Failed to retrieve transaction: "
                    ++ "Exceeds the limit (4300 digits) for integer string conversion: "
                    ++ "value has 4301 digits; "
                    ++ "use sys.set_int_max_str_digits() to increase the limit")))
  /\ try_except "Failed to retrieve transaction"
       (transaction_by_external_id (keyed_env long_identifier) long_identifier)
     = Ok (found (keyed_env long_identifier) "transaction"
             (keyed_row long_identifier))
  /\ (forall (E : Env) transaction_id,
        isdigit transaction_id = true -> int_readable transaction_id = false ->
        exists e,
          py_int transaction_id = Raise e
          /\ get_transaction_by_id E transaction_id
             = Raise (mk_exn PyException
                        ("Failed to retrieve transaction: " ++ exn_str e))).
Proof.
  assert (Hd : isdigit long_identifier = true) by (vm_compute; reflexivity).
  assert (Hi : py_int long_identifier
               = Raise (mk_exn ValueError
                   ("Exceeds the limit (4300 digits) for integer string conversion: "
                    ++ "value has 4301 digits; "
                    ++ "use sys.set_int_max_str_digits() to increase the limit")))
    by (vm_compute; reflexivity).
  split; [exact Hd|]. split; [|split].
  - intros E. unfold get_transaction_by_id. rewrite Hd, Hi. reflexivity.
  - vm_compute. reflexivity.
  - intros E transaction_id H1 H2.
    destruct (get_transaction_by_id_unreadable E _ H1 H2) as [e [He [_ Ht]]].
    exists e. split; assumption.
Qed.

Lemma long_numeric_identifier_witness :
  exists e,
    py_int (String "1" superscript_two) = Raise e
    /\ get_transaction_by_id Demo.external_only_env (String "1" superscript_two)
       = Raise (mk_exn PyException ("Failed to retrieve transaction: " ++ exn_str e)).
Proof.
  exact (proj2 (proj2 (proj2 long_numeric_identifier_is_never_looked_up))
           Demo.external_only_env (String "1" superscript_two) eq_refl eq_refl).
Defined.

(** C10. With no row in [market_context], [get_latest_market_context]
    returns a success envelope whose [market_context] is [None] and which
    carries a message, where the lookup by identifier raises. *)
Theorem latest_market_context_of_empty_store (E : Env) :
  cursor_run E latest_market_context_query None = Ok [] ->
  get_latest_market_context E
  = Ok [("market_context", VNone);
        ("message", VStr "No market context records found");
        ("timestamp", VStr (isoformat E (now E 0)));
        ("status", VStr "success")]
  /\ (forall context_id,
        cursor_run E "SELECT * FROM market_context WHERE id = %s"
          (Some [VInt context_id]) = Ok [] ->
        get_market_context_by_id E context_id
        = Raise (not_found "Failed to retrieve market context" "Market context"
                   (str_of_Z context_id))).
Proof.
  intros H. split.
  - unfold get_latest_market_context.
    rewrite (execute_query_one _ _ _ _ H). reflexivity.
  - intros context_id Hid.
    now rewrite (get_market_context_by_id_outcome _ _ _ Hid).
Qed.

Lemma latest_market_context_witness :
  field (get_latest_market_context Demo.empty_env) "status" = Some (VStr "success")
  /\ field (get_latest_market_context Demo.empty_env) "market_context" = Some VNone
  /\ get_market_context_by_id Demo.empty_env 3
     = Raise (mk_exn PyException
                "Failed to retrieve market context: Market context not found: 3").
Proof.
  destruct (latest_market_context_of_empty_store Demo.empty_env eq_refl) as [H Hid].
  rewrite H. split; [reflexivity|]. split; [reflexivity|].
  exact (Hid 3 eq_refl).
Defined.

(** ** The batch filter of [get_market_context] *)

Lemma json_dumps_document (E : Env) (v : value) :
  serializable v = true -> json_dumps E v = Ok (json_encode E v).
Proof. intros H. unfold json_dumps. now rewrite H. Qed.

Lemma getitem_truthy (r : row) (key : string) :
  truthy (dict_get r key VNone) = true ->
  getitem r key = Ok (dict_get r key VNone).
Proof.
  unfold getitem, dict_get.
  destruct (dict_lookup r key); [reflexivity | discriminate].
Qed.

Lemma batch_found_documents (E : Env) (batch_id : string) (r : row)
    (fields : list string) :
  forallb (fun f => serializable (dict_get r f VNone)) fields = true ->
  batch_found E batch_id r fields
  = Ok (existsb (fun f => truthy (dict_get r f VNone)
                          && contains batch_id (json_encode E (dict_get r f VNone)))
          fields).
Proof.
  induction fields as [|f fields IH]; [reflexivity|].
  cbn [forallb batch_found existsb]. intros H.
  apply andb_true_iff in H. destruct H as [Hf Hrest].
  destruct (truthy (dict_get r f VNone)) eqn:Ht; cbn [andb orb].
  - rewrite (getitem_truthy _ _ Ht). cbn [bind].
    rewrite (json_dumps_document _ _ Hf). cbn [bind].
    destruct (contains batch_id (json_encode E (dict_get r f VNone)));
      [reflexivity | now apply IH].
  - now apply IH.
Qed.

Lemma filter_by_batch_documents (E : Env) (batch_id : string) (rows : list row) :
  forallb documents rows = true ->
  filter_by_batch E batch_id rows = Ok (filter (mentions_batch E batch_id) rows).
Proof.
  induction rows as [|r rows IH]; [reflexivity|].
  cbn [forallb filter_by_batch filter]. intros H.
  apply andb_true_iff in H. destruct H as [Hr Hrest].
  unfold documents in Hr.
  rewrite (batch_found_documents _ _ _ _ Hr). cbn [bind].
  rewrite (IH Hrest). cbn [bind]. reflexivity.
Qed.

(** C8, as the code has it.  With a non-empty [batch_id] the tool returns
    exactly the rows of the statement's result in which some field among
    the four is non-empty (not null, false, zero or an empty document) and
    has a JSON dump containing [batch_id]; the statement itself carries
    only the timestamp filters and the limit. *)
Theorem market_context_batch_filter
    (E : Env) (start_timestamp end_timestamp : option string) (batch_id : string)
    (limit : Z) (rows : list row) :
  let q := market_context_filters start_timestamp end_timestamp in
  let bound := if (limit <? 1) || (limit >? 500) then 50 else limit in
  let kept := filter (mentions_batch E batch_id) rows in
  batch_id <> "" ->
  cursor_run E (market_context_query (where_or_true (conditions q)))
    (Some (params q ++ [VInt bound])%list) = Ok rows ->
  forallb documents rows = true ->
  get_market_context E start_timestamp end_timestamp (Some batch_id) limit
  = Ok [("market_contexts", rows_value kept);
        ("count", len kept);
        ("limit", VInt bound);
        ("filters", VDict [("start_timestamp", opt_str start_timestamp);
                           ("end_timestamp", opt_str end_timestamp);
                           ("batch_id", VStr batch_id)]);
        ("timestamp", VStr (isoformat E (now E 0)));
        ("status", VStr "success")].
Proof.
  intros q bound kept Hb Hrun Hdocs.
  unfold get_market_context. fold q. fold bound.
  cbn [append_param params conditions].
  rewrite (execute_query_all _ _ _ _ Hrun). cbn [bind].
  assert (Hs : supplied (Some batch_id) = true).
  { unfold supplied. destruct (batch_id =? "")%string eqn:He; [|reflexivity].
    apply String.eqb_eq in He. contradiction. }
  rewrite Hs. cbn [andb].
  destruct rows as [|r rows]; [reflexivity|].
  cbn [rows_value map truthy].
  rewrite (filter_by_batch_documents _ _ _ Hdocs). reflexivity.
Qed.

Lemma market_context_batch_filter_witness :
  field (get_market_context Demo.env None None (Some "B42") 50) "market_contexts"
  = Some (rows_value [Demo.tagged_context]).
Proof.
  rewrite (market_context_batch_filter Demo.env None None "B42" 50 Demo.contexts).
  - vm_compute. reflexivity.
  - discriminate.
  - vm_compute. reflexivity.
  - vm_compute. reflexivity.
Defined.

(** C8, as the specification words it, fails: on the quiet snapshot the dump of
    [ceo_cfo_buys] is the text 0, which contains the batch identifier 0,
    yet the tool skips the field because 0 is empty, and returns no row. *)
Lemma market_context_batch_filter_counterexample :
  cursor_run Demo.env (market_context_query "1=1") (Some [VInt 50]) = Ok Demo.contexts
  /\ forallb documents Demo.contexts = true
  /\ filter (dump_mentions_batch Demo.env "0") Demo.contexts = [Demo.quiet_context]
  /\ field (get_market_context Demo.env None None (Some "0") 50) "market_contexts"
     = Some (rows_value [])
  /\ field (get_market_context Demo.env None None (Some "0") 50) "market_contexts"
     <> Some (rows_value (filter (dump_mentions_batch Demo.env "0") Demo.contexts)).
Proof.
  repeat split; try (vm_compute; reflexivity).
  vm_compute. discriminate.
Qed.

(** ** The connection pool *)

Lemma init_db_pool_from_nothing (w : Db.process) :
  Db.connection_pool w = None ->
  Db.init_db_pool 1 5 w
  = if Db.server_up w
    then (Ok tt,
          Db.mk_process (Some (Db.mk_pool 1 5 false [Db.next_conn w] []))
            (Db.server_up w) (S (Db.next_conn w)))
    else (Raise Db.connect_failed, w).
Proof.
  intros H. unfold Db.init_db_pool, Db.new_pool, Db.connect_many, Db.connect.
  rewrite H. destruct (Db.server_up w); reflexivity.
Qed.

Lemma close_db_pool_clears (w w' : Db.process) :
  Db.close_db_pool w = (Ok tt, w') ->
  Db.connection_pool w' = None
  /\ Db.server_up w' = Db.server_up w /\ Db.next_conn w' = Db.next_conn w.
Proof.
  unfold Db.close_db_pool.
  destruct (Db.connection_pool w) as [p|] eqn:Hp.
  - destruct (Db.closeall p); intros H; inversion H; subst; auto.
  - intros H; inversion H; subst; auto.
Qed.

(** C4, as the code has it.  [close_db_pool] clears the global pool; the
    next acquisition finds no pool, builds a new one with the default
    bounds and hands out its connection when the server accepts
    connections, and otherwise fails with the error of the connection
    attempt.  It never fails because the pool is closed. *)
Theorem acquire_after_close_reinitialises (w w' : Db.process) :
  Db.close_db_pool w = (Ok tt, w') ->
  Db.connection_pool w' = None
  /\ Db.acquire w'
     = (if Db.server_up w
        then (Ok (Db.next_conn w),
              Db.mk_process (Some (Db.mk_pool 1 5 false [] [Db.next_conn w]))
                true (S (Db.next_conn w)))
        else (Raise Db.connect_failed, w'))
  /\ fst (Db.acquire w') <> Raise Db.pool_closed.
Proof.
  intros H. destruct (close_db_pool_clears _ _ H) as [Hp [Hup Hn]].
  assert (Hacq : Db.acquire w'
     = (if Db.server_up w
        then (Ok (Db.next_conn w),
              Db.mk_process (Some (Db.mk_pool 1 5 false [] [Db.next_conn w]))
                true (S (Db.next_conn w)))
        else (Raise Db.connect_failed, w'))).
  { unfold Db.acquire. rewrite Hp, (init_db_pool_from_nothing _ Hp), Hup, Hn.
    destruct (Db.server_up w); reflexivity. }
  split; [exact Hp|]. split; [exact Hacq|].
  rewrite Hacq. destruct (Db.server_up w); discriminate.
Qed.

Lemma acquire_after_close_witness :
  let w := snd (Db.init_db_pool 1 5 (Db.mk_process None true 0)) in
  Db.close_db_pool w = (Ok tt, Db.mk_process None true 1)
  /\ fst (Db.acquire (Db.mk_process None true 1)) = Ok 1%nat.
Proof.
  cbv zeta. split; [reflexivity|].
  destruct (acquire_after_close_reinitialises
              (snd (Db.init_db_pool 1 5 (Db.mk_process None true 0)))
              (Db.mk_process None true 1) eq_refl) as [_ [H _]].
  rewrite H. reflexivity.
Defined.

(** C4, as the specification words it, fails: a process that initialised its pool
    and shut it down acquires a connection again. *)
Lemma acquire_after_close_counterexample :
  let started := snd (Db.init_db_pool 1 5 (Db.mk_process None true 0)) in
  let stopped := snd (Db.close_db_pool started) in
  fst (Db.close_db_pool started) = Ok tt
  /\ fst (Db.acquire stopped) = Ok 1%nat
  /\ ~ (exists msg, fst (Db.acquire stopped) = Raise (mk_exn PoolError msg)).
Proof.
  cbv zeta. split; [reflexivity|]. split; [reflexivity|].
  intros [msg H]. vm_compute in H. discriminate.
Qed.

(** The only way to meet a closed pool is to have one in the global
    variable, which no function of [db.py] leaves there. *)
Lemma acquire_on_closed_pool (w : Db.process) (p : Db.pool) :
  Db.connection_pool w = Some p -> Db.closed p = true ->
  Db.acquire w = (Raise Db.pool_closed, w).
Proof.
  intros Hp Hc. unfold Db.acquire. rewrite Hp. cbn iota. rewrite Hp.
  unfold Db.getconn. now rewrite Hc.
Qed.

(** What the [except] clause of [get_db_connection] makes of the outcome
    of the body. *)
Lemma on_exception_outcome {A : Type} (rollback : nat -> result unit) (c : nat)
    (outcome : result A) :
  fst (Db.on_exception rollback c outcome)
  = match outcome with
    | Ok a => Ok a
    | Raise e => match rollback c with Ok _ => Raise e | Raise e' => Raise e' end
    end.
Proof.
  unfold Db.on_exception. destruct outcome as [a|e]; [reflexivity|].
  destruct (rollback c); reflexivity.
Qed.

(** From a pool at rest and a reachable server the acquisition hands out
    a connection and leaves it as the only one checked out. *)
Lemma acquire_at_rest (w : Db.process) :
  Db.at_rest w -> Db.server_up w = true ->
  exists c p1 w1,
    Db.acquire w = (Ok c, w1)
    /\ Db.connection_pool w1 = Some p1
    /\ Db.closed p1 = false /\ Db.used p1 = [c] /\ (0 < Db.maxconn p1)%nat
    /\ Db.server_up w1 = true.
Proof.
  destruct w as [[[lo hi cl idle used]|] up n]; unfold Db.at_rest;
    cbn [Db.connection_pool Db.server_up Db.closed Db.used Db.maxconn].
  - intros [-> [-> Hhi]] ->.
    unfold Db.acquire, Db.getconn.
    cbn [Db.connection_pool Db.closed Db.idle Db.used].
    destruct (rev idle) as [|c rest_rev].
    + destruct hi as [|hi]; [lia|].
      cbn [List.length Nat.eqb Db.maxconn Db.connect Db.server_up Db.next_conn
           Db.connection_pool Db.minconn Db.used app Db.set_pool].
      eexists _, _, _. split; [reflexivity|].
      cbn. repeat split. exact Hhi.
    + cbn [Db.minconn Db.maxconn Db.used app Db.set_pool Db.server_up Db.next_conn].
      eexists _, _, _. split; [reflexivity|].
      cbn. repeat split. exact Hhi.
  - intros _ ->. cbn. eexists _, _, _. split; [reflexivity|].
    cbn. repeat split. cbn. lia.
Qed.

(** Handing back the only connection checked out leaves the pool at
    rest, whatever the body and the rollback did. *)
Lemma release_to_rest {A : Type} (rollback : nat -> result unit) (c : nat)
    (outcome : result A) (w1 : Db.process) (p1 : Db.pool) :
  Db.connection_pool w1 = Some p1 ->
  Db.closed p1 = false -> Db.used p1 = [c] -> (0 < Db.maxconn p1)%nat ->
  fst (Db.release rollback c outcome w1) = fst (Db.on_exception rollback c outcome)
  /\ Db.at_rest (snd (Db.release rollback c outcome w1))
  /\ Db.connection_pool (snd (Db.release rollback c outcome w1)) <> None
  /\ Db.server_up (snd (Db.release rollback c outcome w1)) = Db.server_up w1.
Proof.
  intros Hp Hc Hu Hm. unfold Db.release.
  destruct (Db.on_exception rollback c outcome) as [outcome' usable].
  rewrite Hp. unfold Db.putconn. rewrite Hc, Hu.
  cbn [existsb negb orb Db.remove_conn filter]. rewrite Nat.eqb_refl.
  cbn [negb orb fst snd]. unfold Db.at_rest.
  cbn [Db.set_pool Db.connection_pool Db.closed Db.used Db.maxconn Db.server_up].
  repeat split; try assumption. discriminate.
Qed.

Lemma with_db_connection_at_rest {A : Type} (rollback : nat -> result unit)
    (body : nat -> result A) (w : Db.process) :
  Db.at_rest w -> Db.server_up w = true ->
  exists c,
    fst (Db.with_db_connection rollback body w)
    = fst (Db.on_exception rollback c (body c))
    /\ Db.at_rest (snd (Db.with_db_connection rollback body w))
    /\ Db.connection_pool (snd (Db.with_db_connection rollback body w)) <> None
    /\ Db.server_up (snd (Db.with_db_connection rollback body w)) = true.
Proof.
  intros Hrest Hup.
  destruct (acquire_at_rest w Hrest Hup) as [c [p1 [w1 [Ha [Hp [Hc [Hu [Hm Hs]]]]]]]].
  exists c. unfold Db.with_db_connection. rewrite Ha.
  destruct (release_to_rest rollback c (body c) w1 p1 Hp Hc Hu Hm)
    as [H1 [H2 [H3 H4]]].
  split; [exact H1|]. split; [exact H2|]. split; [exact H3|].
  rewrite H4. exact Hs.
Qed.

(** Between two tool calls the pool is at rest; a query then gets the
    answer of the server, or the exception of a rollback that failed after
    the statement did, and leaves the pool at rest. *)
Lemma execute_query_at_rest
    (server : string -> option (list value) -> result (list row))
    (rollback : nat -> result unit)
    (query : string) (args : option (list value)) (fetch_one : bool) (w : Db.process) :
  Db.at_rest w -> Db.server_up w = true ->
  exists c,
    fst (Db.execute_query server rollback query args fetch_one w)
    = match server query args with
      | Ok rows => Ok (fetch fetch_one rows)
      | Raise e => match rollback c with Ok _ => Raise e | Raise e' => Raise e' end
      end
    /\ Db.at_rest (snd (Db.execute_query server rollback query args fetch_one w)).
Proof.
  intros Hrest Hup. unfold Db.execute_query.
  destruct (with_db_connection_at_rest rollback
              (fun _ : nat => rows <- server query args ;; Ok (fetch fetch_one rows))
              w Hrest Hup) as [c [H1 [H2 _]]].
  exists c. split; [|exact H2].
  rewrite H1, on_exception_outcome.
  destruct (server query args); reflexivity.
Qed.

(* ================================================================= *)
(** * Further properties of the code *)

(** ** db.py: acquisition and release *)

(** X1. Scoped acquisition.  From a pool at rest and a reachable server,
    [with get_db_connection() as conn: body] hands the connection back on
    every exit and leaves the pool at rest.  Its outcome is the value the
    body returned, or the exception the body raised when the rollback of
    the [except] clause succeeds; a rollback that raises replaces the
    exception of the body. *)
Theorem connection_is_released_on_every_exit
    {A : Type} (rollback : nat -> result unit) (body : nat -> result A)
    (w : Db.process) :
  Db.at_rest w -> Db.server_up w = true ->
  exists c,
    fst (Db.with_db_connection rollback body w)
    = match body c with
      | Ok a => Ok a
      | Raise e => match rollback c with Ok _ => Raise e | Raise e' => Raise e' end
      end
    /\ Db.at_rest (snd (Db.with_db_connection rollback body w))
    /\ Db.connection_pool (snd (Db.with_db_connection rollback body w)) <> None.
Proof.
  intros Hrest Hup.
  destruct (with_db_connection_at_rest rollback body w Hrest Hup)
    as [c [H1 [H2 [H3 _]]]].
  exists c. rewrite <- on_exception_outcome. auto.
Qed.

Lemma connection_is_released_witness :
  let w := Db.mk_process (Some (Db.mk_pool 1 5 false [0%nat] [])) true 1 in
  let failing := fun _ : nat => @Raise unit (mk_exn DatabaseError "syntax error") in
  let lost := fun _ : nat =>
                @Raise unit (mk_exn OperationalError "connection already closed") in
  Db.at_rest w
  /\ fst (Db.with_db_connection (fun _ => Ok tt) failing w)
     = Raise (mk_exn DatabaseError "syntax error")
  /\ snd (Db.with_db_connection (fun _ => Ok tt) failing w) = w
  /\ fst (Db.with_db_connection lost failing w)
     = Raise (mk_exn OperationalError "connection already closed")
  /\ snd (Db.with_db_connection lost failing w)
     = Db.mk_process (Some (Db.mk_pool 1 5 false [] [])) true 1.
Proof.
  cbv zeta.
  assert (Hrest : Db.at_rest
            (Db.mk_process (Some (Db.mk_pool 1 5 false [0%nat] [])) true 1)).
  { cbn. repeat split. lia. }
  destruct (connection_is_released_on_every_exit (fun _ => Ok tt)
              (fun _ : nat => @Raise unit (mk_exn DatabaseError "syntax error"))
              _ Hrest eq_refl) as [c [H _]].
  destruct (connection_is_released_on_every_exit
              (fun _ : nat =>
                 @Raise unit (mk_exn OperationalError "connection already closed"))
              (fun _ : nat => @Raise unit (mk_exn DatabaseError "syntax error"))
              _ Hrest eq_refl) as [c' [H' _]].
  split; [exact Hrest|]. split; [exact H|]. split; [reflexivity|].
  split; [exact H' | reflexivity].
Defined.

(** X2. A lazy initialisation that cannot reach the server raises the
    connection error and leaves the process as it was, without a pool: the
    same call initialises the pool and runs its body as soon as the server
    accepts connections. *)
Theorem failed_initialisation_is_retried
    {A : Type} (rollback : nat -> result unit) (body : nat -> result A) (n : nat) :
  Db.with_db_connection rollback body (Db.mk_process None false n)
  = (Raise Db.connect_failed, Db.mk_process None false n)
  /\ fst (Db.with_db_connection rollback body (Db.mk_process None true n))
     = match body n with
       | Ok a => Ok a
       | Raise e => match rollback n with Ok _ => Raise e | Raise e' => Raise e' end
       end
  /\ Db.at_rest (snd (Db.with_db_connection rollback body (Db.mk_process None true n)))
  /\ Db.connection_pool
       (snd (Db.with_db_connection rollback body (Db.mk_process None true n)))
     <> None.
Proof.
  split; [reflexivity|].
  rewrite <- on_exception_outcome.
  unfold Db.with_db_connection.
  change (Db.acquire (Db.mk_process None true n))
    with (@Ok nat n,
          Db.mk_process (Some (Db.mk_pool 1 5 false [] [n])) true (S n)).
  destruct (release_to_rest rollback n (body n)
              (Db.mk_process (Some (Db.mk_pool 1 5 false [] [n])) true (S n))
              (Db.mk_pool 1 5 false [] [n]) eq_refl eq_refl eq_refl)
    as [H1 [H2 [H3 _]]]; [cbn; lia|].
  auto.
Qed.

Lemma init_db_pool_sets_pool (lo hi : nat) (w w1 : Db.process) :
  Db.init_db_pool lo hi w = (Ok tt, w1) -> Db.connection_pool w1 <> None.
Proof.
  unfold Db.init_db_pool.
  destruct (Db.connection_pool w) as [p|] eqn:Hp.
  - intros H; inversion H; subst. rewrite Hp. discriminate.
  - destruct (Db.new_pool lo hi w) as [[p|e] w']; intros H; inversion H; subst.
    cbn. discriminate.
Qed.

(** X3. The pool is created once and closed once: a second
    [init_db_pool], whatever bounds it is given, and a second
    [close_db_pool] change nothing. *)
Theorem pool_lifecycle_is_idempotent (w w1 : Db.process) :
  (forall lo hi lo' hi',
     Db.init_db_pool lo hi w = (Ok tt, w1) ->
     Db.init_db_pool lo' hi' w1 = (Ok tt, w1))
  /\ (Db.close_db_pool w = (Ok tt, w1) -> Db.close_db_pool w1 = (Ok tt, w1)).
Proof.
  split.
  - intros lo hi lo' hi' H. apply init_db_pool_sets_pool in H.
    unfold Db.init_db_pool. destruct (Db.connection_pool w1); [reflexivity|congruence].
  - intros H. destruct (close_db_pool_clears _ _ H) as [Hp _].
    unfold Db.close_db_pool. now rewrite Hp.
Qed.

Lemma pool_lifecycle_witness :
  let fresh := Db.mk_process None true 0 in
  let started := snd (Db.init_db_pool 1 5 fresh) in
  Db.init_db_pool 1 5 fresh = (Ok tt, started)
  /\ Db.init_db_pool 2 9 started = (Ok tt, started)
  /\ Db.close_db_pool (snd (Db.close_db_pool started))
     = (Ok tt, snd (Db.close_db_pool started)).
Proof.
  cbv zeta. split; [reflexivity|]. split.
  - exact (proj1 (pool_lifecycle_is_idempotent (Db.mk_process None true 0)
                    (snd (Db.init_db_pool 1 5 (Db.mk_process None true 0))))
                 1%nat 5%nat 2%nat 9%nat eq_refl).
  - exact (proj2 (pool_lifecycle_is_idempotent
                    (snd (Db.init_db_pool 1 5 (Db.mk_process None true 0)))
                    (snd (Db.close_db_pool
                            (snd (Db.init_db_pool 1 5 (Db.mk_process None true 0))))))
                 eq_refl).
Defined.

(** ** The probe and the health check *)

Lemma test_connection_at_rest
    (server : string -> option (list value) -> result (list row))
    (rollback : nat -> result unit) (w : Db.process) :
  Db.at_rest w -> Db.server_up w = true ->
  fst (test_connection server rollback w)
  = match server "SELECT 1" None with Ok _ => true | Raise _ => false end
  /\ Db.at_rest (snd (test_connection server rollback w)).
Proof.
  intros Hrest Hup. unfold test_connection.
  destruct (with_db_connection_at_rest rollback
              (fun _ : nat => _ <- server "SELECT 1" None ;; Ok true) w Hrest Hup)
    as [c [Hout [Hafter _]]].
  destruct (Db.with_db_connection _ _ w) as [out w'].
  cbn [fst snd] in *. subst out. rewrite on_exception_outcome.
  destruct (server "SELECT 1" None); cbn [bind fst snd]; [auto|].
  destruct (rollback c); auto.
Qed.

(** X4. [health_check] reports what the probe of [test_connection] found:
    with a pool at rest and a reachable server, healthy/connected when the
    probe statement is answered and degraded/disconnected when it raises,
    and in both cases the pool is at rest again; with no pool and an
    unreachable server, degraded.  As the probe catches every exception,
    that of a failed rollback included, the status is never that of the
    tool's own [except] branch. *)
Theorem health_check_reports_the_probe
    (E : Env) (server : string -> option (list value) -> result (list row))
    (rollback : nat -> result unit) (port : Z) (w : Db.process) :
  Db.at_rest w -> Db.server_up w = true ->
  let report := fst (health_check E server rollback port w) in
  dict_lookup report "status"
  = Some (VStr (match server "SELECT 1" None with
                | Ok _ => "healthy" | Raise _ => "degraded" end))
  /\ dict_lookup report "database"
     = Some (VStr (match server "SELECT 1" None with
                   | Ok _ => "connected" | Raise _ => "disconnected" end))
  /\ Db.at_rest (snd (health_check E server rollback port w))
  /\ (forall n,
        dict_lookup
          (fst (health_check E server rollback port (Db.mk_process None false n)))
          "status" = Some (VStr "degraded"))
  /\ (forall w0,
        dict_lookup (fst (health_check E server rollback port w0)) "status"
        <> Some (VStr "unhealthy")).
Proof.
  intros Hrest Hup report. subst report.
  destruct (test_connection_at_rest server rollback w Hrest Hup) as [Hout Hafter].
  assert (Hnever : forall w0,
            dict_lookup (fst (health_check E server rollback port w0)) "status"
            <> Some (VStr "unhealthy")).
  { intros w0. unfold health_check.
    destruct (test_connection server rollback w0) as [[|] w1]; cbn; discriminate. }
  unfold health_check.
  destruct (test_connection server rollback w) as [connected w'].
  cbn [fst snd] in *. subst connected.
  destruct (server "SELECT 1" None); cbn; auto.
Qed.

Lemma health_check_witness :
  let w := Db.mk_process None true 0 in
  let lost := fun _ : nat =>
                @Raise unit (mk_exn OperationalError "connection already closed") in
  dict_lookup (fst (health_check Demo.env (refusing Db.connect_failed) lost 8000 w))
    "status" = Some (VStr "degraded")
  /\ dict_lookup
       (fst (health_check Demo.env (answering [[("?column?", VInt 1)]]) lost 8000 w))
       "database" = Some (VStr "connected").
Proof.
  cbv zeta.
  assert (Hrest : Db.at_rest (Db.mk_process None true 0)) by exact I.
  split.
  - exact (proj1 (health_check_reports_the_probe Demo.env
                    (refusing Db.connect_failed) _ 8000 _ Hrest eq_refl)).
  - exact (proj1 (proj2 (health_check_reports_the_probe Demo.env
                           (answering [[("?column?", VInt 1)]]) _ 8000 _ Hrest eq_refl))).
Defined.

(** X5. [validate_api_key] accepts every caller when no key is configured
    (the variable is unset or empty), and otherwise exactly the callers
    that present the configured key. *)
Theorem api_key_is_checked_only_when_configured (configured api_key : option string) :
  validate_api_key configured api_key = true
  <-> (supplied configured = false \/ (supplied configured = true /\ api_key = configured)).
Proof.
  unfold validate_api_key.
  destruct configured as [required|]; cbn [supplied].
  - destruct (negb (required =? "")%string) eqn:Hs.
    + destruct api_key as [key|].
      * split.
        -- intros H. apply String.eqb_eq in H. subst. auto.
        -- intros [H|[_ H]]; [discriminate|]. inversion H. apply String.eqb_refl.
      * split; [discriminate|]. intros [H|[_ H]]; discriminate.
    + split; auto.
  - split; auto.
Qed.

(** ** The list tools *)

Lemma try_except_Raise {A : Type} (what : string) (e : exn) :
  @try_except A what (Raise e) = Raise (wrapped what e).
Proof. reflexivity. Qed.

Ltac open_tool H :=
  apply try_except_Ok in H; cbv zeta in H;
  repeat (let a := fresh "a" in
          let Ha := fresh "Ha" in
          apply bind_Ok in H; destruct H as [a [Ha H]]);
  inversion H; subst; clear H.

(** X6. In every list tool the [count] of the response is the number of
    records in its payload; in [get_market_context] these are the records
    left by the batch filter. *)
Theorem count_is_the_length_of_the_payload (E : Env) :
  (forall ticker insider_name start_date end_date signal_generated signal_quality
          alert_sent limit offset envelope,
     get_insider_transactions E ticker insider_name start_date end_date
       signal_generated signal_quality alert_sent limit offset = Ok envelope ->
     exists rows, dict_lookup envelope "transactions" = Some (rows_value rows)
                  /\ dict_lookup envelope "count" = Some (len rows))
  /\ (forall days signal_quality limit envelope,
     get_recent_signals E days signal_quality limit = Ok envelope ->
     exists rows, dict_lookup envelope "signals" = Some (rows_value rows)
                  /\ dict_lookup envelope "count" = Some (len rows))
  /\ (forall limit envelope,
     get_unprocessed_transactions E limit = Ok envelope ->
     exists rows, dict_lookup envelope "transactions" = Some (rows_value rows)
                  /\ dict_lookup envelope "count" = Some (len rows))
  /\ (forall ticker status recommendation is_closed start_date end_date limit offset
             envelope,
     get_llm_calls E ticker status recommendation is_closed start_date end_date
       limit offset = Ok envelope ->
     exists rows, dict_lookup envelope "calls" = Some (rows_value rows)
                  /\ dict_lookup envelope "count" = Some (len rows))
  /\ (forall limit envelope,
     get_open_calls E limit = Ok envelope ->
     exists rows, dict_lookup envelope "calls" = Some (rows_value rows)
                  /\ dict_lookup envelope "count" = Some (len rows))
  /\ (forall batch_id envelope,
     get_calls_by_batch E batch_id = Ok envelope ->
     exists rows, dict_lookup envelope "calls" = Some (rows_value rows)
                  /\ dict_lookup envelope "count" = Some (len rows))
  /\ (forall start_timestamp end_timestamp batch_id limit envelope,
     get_market_context E start_timestamp end_timestamp batch_id limit = Ok envelope ->
     exists rows, dict_lookup envelope "market_contexts" = Some (rows_value rows)
                  /\ dict_lookup envelope "count" = Some (len rows)).
Proof.
  repeat match goal with |- _ /\ _ => split end;
    intros until envelope; intros H; open_tool H;
    eexists; split; reflexivity.
Qed.

Lemma count_is_the_length_witness :
  exists rows,
    field (get_market_context Demo.env None None (Some "B42") 100) "market_contexts"
    = Some (rows_value rows)
    /\ field (get_market_context Demo.env None None (Some "B42") 100) "count"
       = Some (len rows).
Proof.
  destruct (get_market_context Demo.env None None (Some "B42") 100)
    as [envelope|e] eqn:H; [|vm_compute in H; discriminate].
  exact (proj2 (proj2 (proj2 (proj2 (proj2 (proj2
           (count_is_the_length_of_the_payload Demo.env))))))
           None None (Some "B42") 100 envelope H).
Defined.

(** ** Windows of days *)

Lemma days_ago_of_window (E : Env) (days : Z) :
  days_ago E days = (dt <- window_start E days ;; Ok (date dt)).
Proof.
  unfold days_ago, window_start. destruct (timedelta days); reflexivity.
Qed.

Lemma window_start_beyond_c_int (E : Env) (days : Z) :
  days < -2147483648 \/ 2147483647 < days ->
  window_start E days
  = Raise (mk_exn OverflowError "Python int too large to convert to C int").
Proof.
  intros H. unfold window_start, timedelta.
  assert (Hc : (days <? -2147483648) || (2147483647 <? days) = true).
  { apply orb_true_iff. destruct H as [H|H]; [left | right]; now apply Z.ltb_lt. }
  now rewrite Hc.
Qed.

Lemma fits_c_int (days : Z) :
  -2147483648 <= days <= 2147483647 ->
  (days <? -2147483648) || (2147483647 <? days) = false.
Proof.
  intros [Hlo Hhi]. apply orb_false_iff. split; apply Z.ltb_ge; lia.
Qed.

Lemma window_start_overflow (E : Env) (days : Z) :
  -2147483648 <= days <= 2147483647 ->
  999999999 < Z.abs days ->
  window_start E days = Raise (mk_exn OverflowError (days_out_of_range days)).
Proof.
  intros Hc H. unfold window_start, timedelta. rewrite (fits_c_int _ Hc).
  assert (Hle : (Z.abs days <=? 999999999) = false) by (apply Z.leb_gt; exact H).
  now rewrite Hle.
Qed.

Lemma window_start_before_year_one (E : Env) (days : Z) :
  Z.abs days <= 999999999 ->
  dt_ordinal (now E 0) - days < 1 ->
  window_start E days = Raise (mk_exn OverflowError "date value out of range").
Proof.
  intros Hm H. unfold window_start, timedelta, datetime_sub.
  rewrite fits_c_int by lia.
  apply Z.leb_le in Hm. rewrite Hm. cbn [bind].
  assert (Hlo : (1 <=? dt_ordinal (now E 0) - days) = false) by (apply Z.leb_gt; exact H).
  now rewrite Hlo.
Qed.

(** X7. A tool that looks back [days] days computes the start of its
    window first: when that fails, the tool raises its wrapped error
    whatever the database holds.  The error is that of a day count beyond
    a C [int], of a day count of a magnitude above 999999999, or of a
    start before year 1. *)
Theorem window_errors_stop_the_tool (E : Env) (days : Z) (e : exn) :
  window_start E days = Raise e ->
  (forall signal_quality limit,
     get_recent_signals E days signal_quality limit
     = Raise (wrapped "Failed to retrieve recent signals" e))
  /\ (forall ticker insider_name,
     get_insider_stats E ticker insider_name days
     = Raise (wrapped "Failed to retrieve insider statistics" e))
  /\ (forall ticker recommendation,
     get_call_performance E days ticker recommendation
     = Raise (wrapped "Failed to retrieve call performance" e))
  /\ get_market_context_summary E days
     = Raise (wrapped "Failed to retrieve market context summary" e)
  /\ get_portfolio_summary E days
     = Raise (wrapped "Failed to retrieve portfolio summary" e)
  /\ (forall ticker,
     get_ticker_analysis E ticker days
     = Raise (wrapped "Failed to retrieve ticker analysis" e))
  /\ get_signal_statistics E days
     = Raise (wrapped "Failed to retrieve signal statistics" e)
  /\ (forall limit metric,
     get_top_performers E days limit metric
     = Raise (wrapped "Failed to retrieve top performers" e))
  /\ (days < -2147483648 \/ 2147483647 < days ->
      e = mk_exn OverflowError "Python int too large to convert to C int")
  /\ (-2147483648 <= days <= 2147483647 -> 999999999 < Z.abs days ->
      e = mk_exn OverflowError (days_out_of_range days))
  /\ (Z.abs days <= 999999999 -> dt_ordinal (now E 0) - days < 1 ->
      e = mk_exn OverflowError "date value out of range").
Proof.
  intros H.
  assert (Hd : days_ago E days = Raise e) by (rewrite days_ago_of_window, H; reflexivity).
  repeat match goal with |- _ /\ _ => split end; intros;
    try (unfold get_recent_signals, get_insider_stats, get_call_performance,
           get_portfolio_summary, get_ticker_analysis, get_signal_statistics,
           get_top_performers; rewrite Hd; reflexivity).
  - unfold get_market_context_summary. unfold window_start in H.
    destruct (timedelta days) as [delta|e']; cbn [bind] in *.
    + rewrite H. reflexivity.
    + inversion H; subst. reflexivity.
  - rewrite window_start_beyond_c_int in H by assumption. now inversion H.
  - rewrite window_start_overflow in H by assumption. now inversion H.
  - rewrite window_start_before_year_one in H by assumption. now inversion H.
Qed.

Lemma window_errors_witness :
  get_signal_statistics Demo.env 1000000000
  = Raise (mk_exn PyException
             "Failed to retrieve signal statistics: days=1000000000; must have magnitude <= 999999999")
  /\ get_portfolio_summary Demo.env 800000
     = Raise (mk_exn PyException
                "Failed to retrieve portfolio summary: date value out of range")
  /\ get_market_context_summary Demo.env 2147483648
     = Raise (mk_exn PyException
                "Failed to retrieve market context summary: Python int too large to convert to C int").
Proof.
  split; [|split].
  - exact (proj1 (proj2 (proj2 (proj2 (proj2 (proj2 (proj2
             (window_errors_stop_the_tool Demo.env 1000000000 _ eq_refl)))))))).
  - exact (proj1 (proj2 (proj2 (proj2 (proj2
             (window_errors_stop_the_tool Demo.env 800000 _ eq_refl)))))).
  - exact (proj1 (proj2 (proj2 (proj2
             (window_errors_stop_the_tool Demo.env 2147483648 _ eq_refl))))).
Defined.

(** ** Filters: case, blanks and the statement text *)

Lemma upper_char_idempotent (c : ascii) : upper (upper_char c) = upper_char c.
Proof. destruct c as [[] [] [] [] [] [] [] []]; reflexivity. Qed.

Lemma upper_app (a b : string) : upper (a ++ b) = upper a ++ upper b.
Proof.
  induction a as [|c a IH]; [reflexivity|].
  cbn [append upper]. now rewrite IH, append_assoc.
Qed.

Lemma upper_idempotent (s : string) : upper (upper s) = upper s.
Proof.
  induction s as [|c s IH]; [reflexivity|].
  cbn [upper]. now rewrite upper_app, upper_char_idempotent, IH.
Qed.

Lemma upper_eq_empty (s : string) : (upper s =? "")%string = (s =? "")%string.
Proof.
  destruct s as [|c s]; [reflexivity|].
  cbn [upper]. unfold upper_char.
  repeat match goal with |- context [if ?b then _ else _] => destruct b end;
    reflexivity.
Qed.

Lemma if_supplied_upper (arg : option string) (condition : string) (q : filters) :
  if_supplied (option_map upper arg)
    (fun s q => append_param (VStr (upper s)) (append_condition condition q)) q
  = if_supplied arg
      (fun s q => append_param (VStr (upper s)) (append_condition condition q)) q.
Proof.
  destruct arg as [s|]; [|reflexivity].
  cbn [option_map if_supplied supplied].
  now rewrite upper_eq_empty, upper_idempotent.
Qed.

Lemma if_supplied_blank (arg : option string) (body : string -> filters -> filters)
    (q : filters) :
  if_supplied (blank_is_absent arg) body q = if_supplied arg body q.
Proof.
  destruct arg as [s|]; [|reflexivity].
  unfold blank_is_absent. destruct (supplied (Some s)) eqn:Hs.
  - reflexivity.
  - cbn [if_supplied]. now rewrite Hs.
Qed.

Lemma insider_transactions_filters_upper
    (ticker insider_name start_date end_date : option string)
    (signal_generated : option bool) (signal_quality : option string)
    (alert_sent : option bool) :
  insider_transactions_filters (option_map upper ticker) insider_name start_date
    end_date signal_generated signal_quality alert_sent
  = insider_transactions_filters ticker insider_name start_date end_date
      signal_generated signal_quality alert_sent.
Proof. unfold insider_transactions_filters. now rewrite if_supplied_upper. Qed.

Lemma llm_calls_filters_upper (ticker status recommendation : option string)
    (is_closed : option bool) (start_date end_date : option string) :
  llm_calls_filters (option_map upper ticker) (option_map upper status)
    (option_map upper recommendation) is_closed start_date end_date
  = llm_calls_filters ticker status recommendation is_closed start_date end_date.
Proof. unfold llm_calls_filters. now rewrite !if_supplied_upper. Qed.

Lemma insider_stats_filters_upper (start_date : value)
    (ticker insider_name : option string) :
  insider_stats_filters start_date (option_map upper ticker) insider_name
  = insider_stats_filters start_date ticker insider_name.
Proof. unfold insider_stats_filters. now rewrite if_supplied_upper. Qed.

Lemma call_performance_filters_upper (start_date : value)
    (ticker recommendation : option string) :
  call_performance_filters start_date (option_map upper ticker)
    (option_map upper recommendation)
  = call_performance_filters start_date ticker recommendation.
Proof. unfold call_performance_filters. now rewrite !if_supplied_upper. Qed.

(** X8. Tickers, statuses and recommendations are matched in upper case:
    a call with a ticker, status or recommendation in any case is the call
    with its upper-case form.  The two paginated tools and
    [get_ticker_analysis] return the same response; [get_insider_stats]
    and [get_call_performance], which echo their arguments, return the
    same statistics. *)
Theorem tickers_are_matched_in_upper_case (E : Env) :
  (forall ticker insider_name start_date end_date signal_generated signal_quality
          alert_sent limit offset,
     get_insider_transactions E (option_map upper ticker) insider_name start_date
       end_date signal_generated signal_quality alert_sent limit offset
     = get_insider_transactions E ticker insider_name start_date end_date
         signal_generated signal_quality alert_sent limit offset)
  /\ (forall ticker status recommendation is_closed start_date end_date limit offset,
     get_llm_calls E (option_map upper ticker) (option_map upper status)
       (option_map upper recommendation) is_closed start_date end_date limit offset
     = get_llm_calls E ticker status recommendation is_closed start_date end_date
         limit offset)
  /\ (forall ticker days,
     get_ticker_analysis E (upper ticker) days = get_ticker_analysis E ticker days)
  /\ (forall ticker insider_name days,
     field (get_insider_stats E (option_map upper ticker) insider_name days) "statistics"
     = field (get_insider_stats E ticker insider_name days) "statistics")
  /\ (forall ticker recommendation days,
     field (get_call_performance E days (option_map upper ticker)
              (option_map upper recommendation)) "performance"
     = field (get_call_performance E days ticker recommendation) "performance").
Proof.
  repeat match goal with |- _ /\ _ => split end; intros.
  - unfold get_insider_transactions.
    now rewrite insider_transactions_filters_upper.
  - unfold get_llm_calls. now rewrite llm_calls_filters_upper.
  - unfold get_ticker_analysis. cbv zeta. now rewrite upper_idempotent.
  - unfold get_insider_stats.
    destruct (days_ago E days) as [start|e]; [|reflexivity].
    cbn [bind]. cbv zeta. rewrite insider_stats_filters_upper.
    destruct (execute_query E _ _ true); reflexivity.
  - unfold get_call_performance.
    destruct (days_ago E days) as [start|e]; [|reflexivity].
    cbn [bind]. cbv zeta. rewrite call_performance_filters_upper.
    destruct (execute_query E _ _ true) as [r|e]; [|reflexivity].
    cbn [bind].
    destruct (must_be_dict r) as [d|e]; [|reflexivity].
    cbn [bind].
    destruct (percentage _ _) as [p|e]; [|reflexivity].
    cbn [bind].
    destruct (py_round2 p) as [v|e]; reflexivity.
Qed.

(** X9. An empty string given for a text filter is no filter: the tool
    answers as if the argument had been left out.  For [get_market_context]
    this includes an empty [batch_id], up to the echo of the arguments. *)
Theorem empty_text_filters_are_ignored (E : Env) :
  (forall ticker insider_name start_date end_date signal_generated signal_quality
          alert_sent limit offset,
     get_insider_transactions E (blank_is_absent ticker) (blank_is_absent insider_name)
       (blank_is_absent start_date) (blank_is_absent end_date) signal_generated
       (blank_is_absent signal_quality) alert_sent limit offset
     = get_insider_transactions E ticker insider_name start_date end_date
         signal_generated signal_quality alert_sent limit offset)
  /\ (forall ticker status recommendation is_closed start_date end_date limit offset,
     get_llm_calls E (blank_is_absent ticker) (blank_is_absent status)
       (blank_is_absent recommendation) is_closed (blank_is_absent start_date)
       (blank_is_absent end_date) limit offset
     = get_llm_calls E ticker status recommendation is_closed start_date end_date
         limit offset)
  /\ (forall days signal_quality limit,
     get_recent_signals E days (blank_is_absent signal_quality) limit
     = get_recent_signals E days signal_quality limit)
  /\ (forall start_timestamp end_timestamp batch_id limit key,
     key <> "filters" ->
     field (get_market_context E (blank_is_absent start_timestamp)
              (blank_is_absent end_timestamp) (blank_is_absent batch_id) limit) key
     = field (get_market_context E start_timestamp end_timestamp batch_id limit) key).
Proof.
  repeat match goal with |- _ /\ _ => split end; intros.
  - unfold get_insider_transactions, insider_transactions_filters.
    now rewrite !if_supplied_blank.
  - unfold get_llm_calls, llm_calls_filters. now rewrite !if_supplied_blank.
  - unfold get_recent_signals. cbv zeta.
    destruct (days_ago E days) as [start|e]; [|reflexivity].
    cbn [bind]. unfold recent_signals_filters. now rewrite !if_supplied_blank.
  - assert (Hk : (("filters" =? key)%string = false)).
    { apply String.eqb_neq. congruence. }
    unfold get_market_context, market_context_filters.
    rewrite !if_supplied_blank. cbv zeta.
    destruct (execute_query E _ _ false) as [rows|e]; [|reflexivity].
    cbn [bind].
    assert (Hb : match blank_is_absent batch_id with
                 | Some b =>
                     if supplied (blank_is_absent batch_id) && truthy (rows_value rows)
                     then filter_by_batch E b rows else Ok rows
                 | None => Ok rows
                 end
                 = match batch_id with
                   | Some b =>
                       if supplied batch_id && truthy (rows_value rows)
                       then filter_by_batch E b rows else Ok rows
                   | None => Ok rows
                   end).
    { destruct batch_id as [b|]; [|reflexivity].
      unfold blank_is_absent. destruct (supplied (Some b)) eqn:Hs.
      - now rewrite Hs.
      - reflexivity. }
    rewrite Hb.
    destruct (match batch_id with Some _ => _ | None => _ end) as [kept|e];
      [|reflexivity].
    cbn [bind try_except field dict_lookup].
    repeat (destruct (_ =? key)%string; [reflexivity|]).
    rewrite Hk. reflexivity.
Qed.

Lemma empty_text_filters_witness :
  field (get_market_context Demo.env (Some "") None (Some "") 10) "market_contexts"
  = field (get_market_context Demo.env None None None 10) "market_contexts".
Proof.
  apply (proj2 (proj2 (proj2 (empty_text_filters_are_ignored Demo.env)))
           (Some "") None (Some "") 10 "market_contexts").
  discriminate.
Defined.

(** X10. The text of a WHERE clause depends only on which filters are
    present, never on their values: the conditions are the fixed predicates
    of the present filters, in the order of the source, after the
    predicates the tool always applies. *)
Theorem conditions_depend_only_on_presence :
  (forall ticker insider_name start_date end_date signal_generated signal_quality
          alert_sent,
     conditions (insider_transactions_filters ticker insider_name start_date end_date
                   signal_generated signal_quality alert_sent)
     = (when_present (supplied ticker) "ticker = %s"
        ++ when_present (supplied insider_name) "insider_name ILIKE %s"
        ++ when_present (supplied start_date) "transaction_date >= %s"
        ++ when_present (supplied end_date) "transaction_date <= %s"
        ++ when_present (given signal_generated) "signal_generated = %s"
        ++ when_present (supplied signal_quality) "signal_quality = %s"
        ++ when_present (given alert_sent) "alert_sent = %s")%list)
  /\ (forall ticker status recommendation is_closed start_date end_date,
     conditions (llm_calls_filters ticker status recommendation is_closed
                   start_date end_date)
     = (when_present (supplied ticker) "ticker = %s"
        ++ when_present (supplied status) "status = %s"
        ++ when_present (supplied recommendation) "recommendation = %s"
        ++ when_present (given is_closed) "is_closed = %s"
        ++ when_present (supplied start_date) "entry_date >= %s"
        ++ when_present (supplied end_date) "entry_date <= %s")%list)
  /\ (forall start_date signal_quality,
     conditions (recent_signals_filters start_date signal_quality)
     = ("signal_generated = TRUE" :: "filing_date >= %s"
        :: when_present (supplied signal_quality) "signal_quality = %s")%list)
  /\ (forall start_date ticker insider_name,
     conditions (insider_stats_filters start_date ticker insider_name)
     = ("transaction_date >= %s"
        :: when_present (supplied ticker) "ticker = %s"
        ++ when_present (supplied insider_name) "insider_name ILIKE %s")%list)
  /\ (forall start_date ticker recommendation,
     conditions (call_performance_filters start_date ticker recommendation)
     = ("entry_date >= %s"
        :: when_present (supplied ticker) "ticker = %s"
        ++ when_present (supplied recommendation) "recommendation = %s")%list)
  /\ (forall start_timestamp end_timestamp,
     conditions (market_context_filters start_timestamp end_timestamp)
     = (when_present (supplied start_timestamp) "timestamp >= %s"
        ++ when_present (supplied end_timestamp) "timestamp <= %s")%list).
Proof.
  repeat match goal with |- _ /\ _ => split end; intros;
    unfold insider_transactions_filters, llm_calls_filters, recent_signals_filters,
      insider_stats_filters, call_performance_filters, market_context_filters,
      if_supplied, if_not_none;
    repeat match goal with
           | |- context [supplied ?a] => is_var a; destruct a
           | |- context [given ?a] => is_var a; destruct a
           end;
    repeat match goal with
           | |- context [supplied (Some ?s)] => destruct (supplied (Some s))
           end;
    reflexivity.
Qed.

(** ** Errors of the database *)

Lemma days_ago_Ok (E : Env) (days : Z) (dt : datetime) :
  window_start E days = Ok dt -> days_ago E days = Ok (date dt).
Proof. intros H. now rewrite days_ago_of_window, H. Qed.

(** X11. [get_top_performers] knows the metrics "pnl" and "price_change";
    any other metric, also one that differs only in case, ranks by
    transaction value: apart from the echo of the metric the response is
    that of the metric "transaction_value". *)
Theorem unknown_metric_ranks_by_transaction_value
    (E : Env) (days limit : Z) (metric key : string) :
  metric <> "pnl" -> metric <> "price_change" -> key <> "metric" ->
  field (get_top_performers E days limit metric) key
  = field (get_top_performers E days limit "transaction_value") key.
Proof.
  intros Hp Hc Hk.
  apply String.eqb_neq in Hp. apply String.eqb_neq in Hc.
  assert (Hk' : ("metric" =? key)%string = false) by (apply String.eqb_neq; congruence).
  unfold get_top_performers. cbv zeta. rewrite Hp, Hc.
  destruct (days_ago E days) as [start|e]; [|reflexivity].
  cbn [bind String.eqb Ascii.eqb Bool.eqb].
  destruct (execute_query E _ _ false) as [rows|e]; [|reflexivity].
  cbn [bind try_except field dict_lookup].
  destruct ("top_performers" =? key)%string; [reflexivity|].
  rewrite Hk'. reflexivity.
Qed.

Lemma unknown_metric_witness :
  field (get_top_performers Demo.env 30 5 "PNL") "top_performers"
  = field (get_top_performers Demo.env 30 5 "transaction_value") "top_performers".
Proof.
  apply unknown_metric_ranks_by_transaction_value; discriminate.
Defined.

Lemma execute_query_refused (E : Env) (e : exn) :
  (forall query args, cursor_run E query args = Raise e) ->
  forall query args fetch_one, execute_query E query args fetch_one = Raise e.
Proof. intros H query args fetch_one. unfold execute_query. now rewrite H. Qed.

(** X12. When the database refuses every statement with [e], every tool
    raises [Exception("<its failure text>: <str(e)>")]: no tool returns a
    partial or empty success.  The tools over a window of days are taken at
    a window that can be computed, and [get_transaction_by_id] at an
    identifier that is not a digit string or one that [int] reads. *)
Theorem refused_statements_fail_every_tool (E : Env) (e : exn) :
  (forall query args, cursor_run E query args = Raise e) ->
  (forall ticker insider_name start_date end_date signal_generated signal_quality
          alert_sent limit offset,
     get_insider_transactions E ticker insider_name start_date end_date
       signal_generated signal_quality alert_sent limit offset
     = Raise (wrapped "Failed to retrieve insider transactions" e))
  /\ (forall transaction_id,
     (isdigit transaction_id = true -> int_readable transaction_id = true) ->
     get_transaction_by_id E transaction_id
     = Raise (wrapped "Failed to retrieve transaction" e))
  /\ (forall limit,
     get_unprocessed_transactions E limit
     = Raise (wrapped "Failed to retrieve unprocessed transactions" e))
  /\ (forall ticker status recommendation is_closed start_date end_date limit offset,
     get_llm_calls E ticker status recommendation is_closed start_date end_date
       limit offset
     = Raise (wrapped "Failed to retrieve LLM calls" e))
  /\ (forall call_id,
     get_call_by_id E call_id = Raise (wrapped "Failed to retrieve call" e))
  /\ (forall limit,
     get_open_calls E limit = Raise (wrapped "Failed to retrieve open calls" e))
  /\ (forall batch_id,
     get_calls_by_batch E batch_id
     = Raise (wrapped "Failed to retrieve calls by batch" e))
  /\ (forall start_timestamp end_timestamp batch_id limit,
     get_market_context E start_timestamp end_timestamp batch_id limit
     = Raise (wrapped "Failed to retrieve market context" e))
  /\ get_latest_market_context E
     = Raise (wrapped "Failed to retrieve latest market context" e)
  /\ (forall context_id,
     get_market_context_by_id E context_id
     = Raise (wrapped "Failed to retrieve market context" e))
  /\ (forall days dt,
     window_start E days = Ok dt ->
     (forall signal_quality limit,
        get_recent_signals E days signal_quality limit
        = Raise (wrapped "Failed to retrieve recent signals" e))
     /\ (forall ticker insider_name,
        get_insider_stats E ticker insider_name days
        = Raise (wrapped "Failed to retrieve insider statistics" e))
     /\ (forall ticker recommendation,
        get_call_performance E days ticker recommendation
        = Raise (wrapped "Failed to retrieve call performance" e))
     /\ get_market_context_summary E days
        = Raise (wrapped "Failed to retrieve market context summary" e)
     /\ get_portfolio_summary E days
        = Raise (wrapped "Failed to retrieve portfolio summary" e)
     /\ (forall ticker,
        get_ticker_analysis E ticker days
        = Raise (wrapped "Failed to retrieve ticker analysis" e))
     /\ get_signal_statistics E days
        = Raise (wrapped "Failed to retrieve signal statistics" e)
     /\ (forall limit metric,
        get_top_performers E days limit metric
        = Raise (wrapped "Failed to retrieve top performers" e))).
Proof.
  intros H. pose proof (execute_query_refused E e H) as Hq.
  repeat match goal with |- _ /\ _ => split end; intros;
    try (unfold get_insider_transactions, get_unprocessed_transactions, get_llm_calls,
           get_call_by_id, get_open_calls, get_calls_by_batch, get_market_context,
           get_latest_market_context, get_market_context_by_id;
         cbv zeta; rewrite Hq; reflexivity).
  - unfold get_transaction_by_id, transaction_by_external_id.
    destruct (isdigit transaction_id).
    + match goal with Hr : true = true -> _ |- _ =>
        rewrite (py_int_readable _ (Hr eq_refl)) end.
      cbn [bind]. rewrite Hq. reflexivity.
    + rewrite Hq. reflexivity.
  - match goal with Hw : window_start _ _ = Ok _ |- _ =>
      pose proof (days_ago_Ok _ _ _ Hw) as Hd; unfold window_start in Hw end.
    repeat match goal with |- _ /\ _ => split end; intros;
      try (unfold get_recent_signals, get_insider_stats, get_call_performance,
             get_portfolio_summary, get_ticker_analysis, get_signal_statistics,
             get_top_performers;
           cbv zeta; rewrite Hd; cbn [bind]; rewrite Hq; reflexivity).
    unfold get_market_context_summary.
    destruct (timedelta days) as [delta|e']; [|discriminate].
    cbn [bind] in *.
    match goal with Hw : datetime_sub _ _ = Ok _ |- _ => rewrite Hw end.
    cbn [bind]. rewrite Hq. reflexivity.
Qed.

Lemma refused_statements_witness :
  let down := mk_env (refusing Db.pool_exhausted) (fun _ => Demo.noon)
                (fun _ => "2024-04-24T12:00:00") (fun _ => "0.0") in
  get_transaction_by_id down "7"
  = Raise (wrapped "Failed to retrieve transaction" Db.pool_exhausted)
  /\ get_portfolio_summary down 30
     = Raise (wrapped "Failed to retrieve portfolio summary" Db.pool_exhausted).
Proof.
  cbv zeta.
  pose proof (refused_statements_fail_every_tool
                (mk_env (refusing Db.pool_exhausted) (fun _ => Demo.noon)
                   (fun _ => "2024-04-24T12:00:00") (fun _ => "0.0"))
                Db.pool_exhausted (fun _ _ => eq_refl)) as H.
  split.
  - exact (proj1 (proj2 H) "7" (fun _ => eq_refl)).
  - destruct H as [_ [_ [_ [_ [_ [_ [_ [_ [_ [_ H]]]]]]]]]].
    exact (proj1 (proj2 (proj2 (proj2 (proj2 (H 30 _ eq_refl)))))).
Defined.

(** X13. For an identifier of decimal digits that [int] reads, an error
    of the primary-key lookup of [get_transaction_by_id] is not a miss: the
    tool raises the wrapped error and does not go on to the lookup by
    [transaction_id], whatever that lookup would find. *)
Theorem lookup_error_is_not_a_miss (E : Env) (transaction_id : string) (e : exn) :
  int_readable transaction_id = true ->
  cursor_run E "SELECT * FROM insider_transactions WHERE id = %s"
    (Some [VInt (int_of_digits 0 transaction_id)]) = Raise e ->
  get_transaction_by_id E transaction_id
  = Raise (wrapped "Failed to retrieve transaction" e).
Proof.
  intros Hd H. unfold get_transaction_by_id.
  rewrite (int_readable_isdigit _ Hd), (py_int_readable _ Hd). cbn [bind].
  unfold execute_query. rewrite H. reflexivity.
Qed.

Lemma lookup_error_witness :
  let E := mk_env (fun sql _ => if contains "WHERE id = %s" sql
                                then Raise (mk_exn OperationalError "server closed the connection unexpectedly")
                                else Ok [Demo.transaction])
             (fun _ => Demo.noon) (fun _ => "2024-04-24T12:00:00") (fun _ => "0.0") in
  get_transaction_by_id E "7"
  = Raise (mk_exn PyException
             "Failed to retrieve transaction: server closed the connection unexpectedly")
  /\ exists r, transaction_by_external_id E "7" = Ok r.
Proof.
  intros E. split.
  - exact (lookup_error_is_not_a_miss E "7"
             (mk_exn OperationalError "server closed the connection unexpectedly")
             eq_refl eq_refl).
  - eexists. vm_compute. reflexivity.
Defined.

(** ** The total of a page *)

Lemma insider_transactions_after_page (E : Env)
    ticker insider_name start_date end_date signal_generated signal_quality alert_sent
    limit offset rows :
  let q := insider_transactions_filters ticker insider_name start_date end_date
             signal_generated signal_quality alert_sent in
  let where_clause := where_or_true (conditions q) in
  cursor_run E (insider_transactions_query where_clause)
    (Some (params q ++ [VInt (effective_limit 1000 100 limit); VInt offset])%list)
    = Ok rows ->
  get_insider_transactions E ticker insider_name start_date end_date signal_generated
    signal_quality alert_sent limit offset
  = try_except "Failed to retrieve insider transactions" (
      total <- count_total E (insider_transactions_count_query where_clause) (params q) ;;
      Ok [("transactions", rows_value rows);
          ("count", len rows);
          ("total", total);
          ("limit", VInt (effective_limit 1000 100 limit));
          ("offset", VInt offset);
          ("timestamp", VStr (isoformat E (now E 0)));
          ("status", VStr "success")]).
Proof.
  intros q where_clause H.
  unfold get_insider_transactions. cbv zeta.
  fold q. fold where_clause. rewrite pagination_params.
  cbn [params append_param]. rewrite <- app_assoc. cbn [app].
  fold (effective_limit 1000 100 limit).
  rewrite (execute_query_all _ _ _ _ H). cbn [bind].
  unfold count_total.
  destruct (execute_query E _ _ true) as [[r|]|e]; reflexivity.
Qed.

Lemma llm_calls_after_page (E : Env)
    ticker status recommendation is_closed start_date end_date limit offset rows :
  let q := llm_calls_filters ticker status recommendation is_closed
             start_date end_date in
  let where_clause := where_or_true (conditions q) in
  cursor_run E (llm_calls_query where_clause)
    (Some (params q ++ [VInt (effective_limit 1000 100 limit); VInt offset])%list)
    = Ok rows ->
  get_llm_calls E ticker status recommendation is_closed start_date end_date
    limit offset
  = try_except "Failed to retrieve LLM calls" (
      total <- count_total E (llm_calls_count_query where_clause) (params q) ;;
      Ok [("calls", rows_value rows);
          ("count", len rows);
          ("total", total);
          ("limit", VInt (effective_limit 1000 100 limit));
          ("offset", VInt offset);
          ("timestamp", VStr (isoformat E (now E 0)));
          ("status", VStr "success")]).
Proof.
  intros q where_clause H.
  unfold get_llm_calls. cbv zeta.
  fold q. fold where_clause. rewrite pagination_params.
  cbn [params append_param]. rewrite <- app_assoc. cbn [app].
  fold (effective_limit 1000 100 limit).
  rewrite (execute_query_all _ _ _ _ H). cbn [bind].
  unfold count_total.
  destruct (execute_query E _ _ true) as [[r|]|e]; reflexivity.
Qed.

Lemma count_total_cases (E : Env) (count_query : string) (filter_params : list value) :
  (cursor_run E count_query (Some filter_params) = Ok [] ->
   count_total E count_query filter_params = Ok (VInt 0))
  /\ (forall r rest,
        cursor_run E count_query (Some filter_params) = Ok (r :: rest) -> r <> [] ->
        dict_lookup r "total" = None ->
        count_total E count_query filter_params = Raise (mk_exn KeyError "'total'"))
  /\ (forall e,
        cursor_run E count_query (Some filter_params) = Raise e ->
        count_total E count_query filter_params = Raise e).
Proof.
  unfold count_total, execute_query.
  split; [|split].
  - intros H. now rewrite H.
  - intros r rest H Hr Ht. rewrite H. cbn [bind fetch].
    rewrite (fetchone_cons _ _ Hr). unfold getitem. now rewrite Ht.
  - intros e H. now rewrite H.
Qed.

(** X14. Once the page statement of a paginated tool has answered, the
    outcome is decided by the count statement: no row gives the total 0
    beside the page, a row without the column [total] makes the tool raise
    the wrapped KeyError, and an error of the count statement makes the
    tool raise that error, wrapped: the page already fetched is not
    returned. *)
Theorem count_statement_decides_the_total (E : Env) (limit offset : Z) (rows : list row) :
  (forall ticker insider_name start_date end_date signal_generated signal_quality
          alert_sent,
     let q := insider_transactions_filters ticker insider_name start_date end_date
                signal_generated signal_quality alert_sent in
     let where_clause := where_or_true (conditions q) in
     let response := get_insider_transactions E ticker insider_name start_date end_date
                       signal_generated signal_quality alert_sent limit offset in
     let counted := cursor_run E (insider_transactions_count_query where_clause)
                      (Some (params q)) in
     cursor_run E (insider_transactions_query where_clause)
       (Some (params q ++ [VInt (effective_limit 1000 100 limit); VInt offset])%list)
       = Ok rows ->
     (counted = Ok [] ->
      field response "total" = Some (VInt 0)
      /\ field response "transactions" = Some (rows_value rows))
     /\ (forall r rest, counted = Ok (r :: rest) -> r <> [] ->
         dict_lookup r "total" = None ->
         response = Raise (wrapped "Failed to retrieve insider transactions"
                             (mk_exn KeyError "'total'")))
     /\ (forall e, counted = Raise e ->
         response = Raise (wrapped "Failed to retrieve insider transactions" e)))
  /\ (forall ticker status recommendation is_closed start_date end_date,
     let q := llm_calls_filters ticker status recommendation is_closed
                start_date end_date in
     let where_clause := where_or_true (conditions q) in
     let response := get_llm_calls E ticker status recommendation is_closed
                       start_date end_date limit offset in
     let counted := cursor_run E (llm_calls_count_query where_clause)
                      (Some (params q)) in
     cursor_run E (llm_calls_query where_clause)
       (Some (params q ++ [VInt (effective_limit 1000 100 limit); VInt offset])%list)
       = Ok rows ->
     (counted = Ok [] ->
      field response "total" = Some (VInt 0)
      /\ field response "calls" = Some (rows_value rows))
     /\ (forall r rest, counted = Ok (r :: rest) -> r <> [] ->
         dict_lookup r "total" = None ->
         response = Raise (wrapped "Failed to retrieve LLM calls"
                             (mk_exn KeyError "'total'")))
     /\ (forall e, counted = Raise e ->
         response = Raise (wrapped "Failed to retrieve LLM calls" e))).
Proof.
  split.
  - intros ticker insider_name start_date end_date signal_generated signal_quality
      alert_sent q where_clause response counted H.
    subst response counted.
    rewrite (insider_transactions_after_page _ _ _ _ _ _ _ _ _ _ _ H).
    fold q. fold where_clause.
    destruct (count_total_cases E (insider_transactions_count_query where_clause)
                (params q)) as [H0 [Hk He]].
    split; [|split].
    + intros Hc. rewrite (H0 Hc). split; reflexivity.
    + intros r rest Hc Hr Ht. rewrite (Hk _ _ Hc Hr Ht). reflexivity.
    + intros e Hc. rewrite (He _ Hc). reflexivity.
  - intros ticker status recommendation is_closed start_date end_date
      q where_clause response counted H.
    subst response counted.
    rewrite (llm_calls_after_page _ _ _ _ _ _ _ _ _ _ H).
    fold q. fold where_clause.
    destruct (count_total_cases E (llm_calls_count_query where_clause)
                (params q)) as [H0 [Hk He]].
    split; [|split].
    + intros Hc. rewrite (H0 Hc). split; reflexivity.
    + intros r rest Hc Hr Ht. rewrite (Hk _ _ Hc Hr Ht). reflexivity.
    + intros e Hc. rewrite (He _ Hc). reflexivity.
Qed.

Lemma count_statement_witness :
  field (get_llm_calls Demo.empty_env (Some "aapl") None None None None None 20 0) "total"
  = Some (VInt 0)
  /\ field (get_llm_calls Demo.empty_env (Some "aapl") None None None None None 20 0)
       "calls" = Some (rows_value []).
Proof.
  exact (proj1 (proj2 (count_statement_decides_the_total Demo.empty_env 20 0 [])
                  (Some "aapl") None None None None None eq_refl) eq_refl).
Defined.

(** ** Aggregate rows *)

(** X15. A statistics statement that returns no row: the three tools
    that compute a rate from the row call [.get] on [None] and raise the
    wrapped AttributeError, [get_portfolio_summary] only after its second
    statement has run; the two tools that only forward the row return
    [None] in a success envelope. *)
Theorem aggregates_without_a_row (E : Env) (days : Z) (dt : datetime) :
  window_start E days = Ok dt ->
  let no_row := mk_exn AttributeError "'NoneType' object has no attribute 'get'" in
  (forall ticker recommendation,
     let q := call_performance_filters (date dt) ticker recommendation in
     cursor_run E (call_performance_query (join " AND " (conditions q)))
       (Some (params q)) = Ok [] ->
     get_call_performance E days ticker recommendation
     = Raise (wrapped "Failed to retrieve call performance" no_row))
  /\ (cursor_run E signal_statistics_query (Some [date dt]) = Ok [] ->
      get_signal_statistics E days
      = Raise (wrapped "Failed to retrieve signal statistics" no_row))
  /\ (forall rows,
      cursor_run E portfolio_calls_query (Some [date dt]) = Ok [] ->
      cursor_run E portfolio_transactions_query (Some [date dt]) = Ok rows ->
      get_portfolio_summary E days
      = Raise (wrapped "Failed to retrieve portfolio summary" no_row))
  /\ (forall ticker insider_name,
      let q := insider_stats_filters (date dt) ticker insider_name in
      cursor_run E (insider_stats_query (join " AND " (conditions q)))
        (Some (params q)) = Ok [] ->
      field (get_insider_stats E ticker insider_name days) "statistics" = Some VNone)
  /\ (cursor_run E market_context_summary_query (Some [VStr (isoformat E dt)]) = Ok [] ->
      field (get_market_context_summary E days) "summary" = Some VNone).
Proof.
  intros Hw no_row. pose proof (days_ago_Ok _ _ _ Hw) as Hd.
  repeat match goal with |- _ /\ _ => split end.
  - intros ticker recommendation q H.
    unfold get_call_performance. rewrite Hd. cbn [bind]. cbv zeta. fold q.
    rewrite (execute_query_one _ _ _ _ H). reflexivity.
  - intros H. unfold get_signal_statistics. rewrite Hd. cbn [bind].
    rewrite (execute_query_one _ _ _ _ H). reflexivity.
  - intros rows H H'. unfold get_portfolio_summary. rewrite Hd. cbn [bind].
    rewrite (execute_query_one _ _ _ _ H). cbn [bind].
    rewrite (execute_query_one _ _ _ _ H'). reflexivity.
  - intros ticker insider_name q H.
    unfold get_insider_stats. rewrite Hd. cbn [bind]. cbv zeta. fold q.
    rewrite (execute_query_one _ _ _ _ H). reflexivity.
  - intros H. unfold get_market_context_summary.
    unfold window_start in Hw.
    destruct (timedelta days) as [delta|e]; [|discriminate].
    cbn [bind] in *. rewrite Hw. cbn [bind]. cbv zeta.
    rewrite (execute_query_one _ _ _ _ H). reflexivity.
Qed.

Lemma aggregates_without_a_row_witness :
  get_signal_statistics Demo.empty_env 30
  = Raise (mk_exn PyException
             "Failed to retrieve signal statistics: 'NoneType' object has no attribute 'get'")
  /\ field (get_insider_stats Demo.empty_env (Some "tsla") None 30) "statistics"
     = Some VNone.
Proof.
  pose proof (aggregates_without_a_row Demo.empty_env 30 _ eq_refl) as H.
  cbv zeta in H. split.
  - exact (proj1 (proj2 H) eq_refl).
  - exact (proj1 (proj2 (proj2 (proj2 H))) (Some "tsla") None eq_refl).
Defined.

(** X16. The tools that add a rate to the aggregate row leave every other
    column of the row as the database returned it, and
    [get_insider_stats] returns the row itself. *)
Theorem aggregate_columns_pass_through (E : Env) (days : Z) (dt : datetime)
    (rows : list row) (r : row) :
  window_start E days = Ok dt ->
  fetchone rows = Some r ->
  (forall ticker recommendation envelope key,
     let q := call_performance_filters (date dt) ticker recommendation in
     cursor_run E (call_performance_query (join " AND " (conditions q)))
       (Some (params q)) = Ok rows ->
     get_call_performance E days ticker recommendation = Ok envelope ->
     key <> "win_rate_pct" ->
     field2 (Ok envelope) "performance" key = dict_lookup r key)
  /\ (forall envelope key,
     cursor_run E signal_statistics_query (Some [date dt]) = Ok rows ->
     get_signal_statistics E days = Ok envelope ->
     key <> "signal_generation_rate_pct" -> key <> "alert_rate_pct" ->
     field2 (Ok envelope) "statistics" key = dict_lookup r key)
  /\ (forall ticker insider_name,
     let q := insider_stats_filters (date dt) ticker insider_name in
     cursor_run E (insider_stats_query (join " AND " (conditions q)))
       (Some (params q)) = Ok rows ->
     field (get_insider_stats E ticker insider_name days) "statistics"
     = Some (VDict r)).
Proof.
  intros Hw Hf. pose proof (days_ago_Ok _ _ _ Hw) as Hd.
  repeat match goal with |- _ /\ _ => split end.
  - intros ticker recommendation envelope key q H Htool Hk.
    unfold get_call_performance in Htool. rewrite Hd in Htool.
    cbn [bind] in Htool. cbv zeta in Htool. fold q in Htool.
    rewrite (execute_query_one _ _ _ _ H), Hf in Htool.
    cbn [bind must_be_dict] in Htool.
    destruct (percentage _ _) as [p|e]; [|discriminate].
    cbn [bind] in Htool.
    destruct (py_round2 p) as [v|e]; [|discriminate].
    cbn [bind try_except] in Htool. inversion Htool; subst envelope.
    unfold field2. cbn [field dict_lookup String.eqb Ascii.eqb Bool.eqb].
    apply dict_lookup_setitem_other. apply String.eqb_neq. congruence.
  - intros envelope key H Htool Hk1 Hk2.
    unfold get_signal_statistics in Htool. rewrite Hd in Htool.
    cbn [bind] in Htool.
    rewrite (execute_query_one _ _ _ _ H), Hf in Htool.
    cbn [bind must_be_dict] in Htool. cbv zeta in Htool.
    destruct (percentage (count_of r "signals_generated") _) as [p|e]; [|discriminate].
    cbn [bind] in Htool.
    destruct (percentage (count_of r "alerts_sent") _) as [p'|e]; [|discriminate].
    cbn [bind] in Htool.
    destruct (py_round2 p) as [v|e]; [|discriminate].
    cbn [bind] in Htool.
    destruct (py_round2 p') as [v'|e]; [|discriminate].
    cbn [bind try_except] in Htool. inversion Htool; subst envelope.
    unfold field2. cbn [field dict_lookup String.eqb Ascii.eqb Bool.eqb].
    rewrite dict_lookup_setitem_other by (apply String.eqb_neq; congruence).
    apply dict_lookup_setitem_other. apply String.eqb_neq. congruence.
  - intros ticker insider_name q H.
    unfold get_insider_stats. rewrite Hd. cbn [bind]. cbv zeta. fold q.
    rewrite (execute_query_one _ _ _ _ H), Hf. reflexivity.
Qed.

Lemma aggregate_columns_witness :
  field2 (get_signal_statistics Demo.env 30) "statistics" "total_transactions"
  = Some (VInt 0).
Proof.
  destruct (get_signal_statistics Demo.env 30) as [envelope|e] eqn:H;
    [|vm_compute in H; discriminate].
  exact (proj1 (proj2 (aggregate_columns_pass_through Demo.env 30 _
                         [[("total_transactions", VInt 0); ("signals_generated", VNone);
                           ("alerts_sent", VInt 0)]]
                         _ eq_refl eq_refl))
           envelope "total_transactions" eq_refl H
           ltac:(discriminate) ltac:(discriminate)).
Defined.

(** ** The batch filter *)

Lemma filter_by_batch_keeps (E : Env) (batch_id : string) (rows kept : list row) :
  filter_by_batch E batch_id rows = Ok kept ->
  kept = filter (kept_by_batch E batch_id) rows.
Proof.
  revert kept. induction rows as [|r rows IH]; intros kept H.
  - inversion H. reflexivity.
  - cbn [filter_by_batch] in H.
    apply bind_Ok in H. destruct H as [found [Hfound H]].
    apply bind_Ok in H. destruct H as [filtered [Hrest H]].
    inversion H; subst kept. cbn [filter].
    unfold kept_by_batch at 1. rewrite Hfound.
    rewrite (IH _ Hrest). reflexivity.
Qed.

(** X17. The batch filter of [get_market_context] only removes records:
    whatever the fields hold, the payload of a call that returns is the
    answer of the statement without the records the filter rejects, in the
    order of the answer, so its count never exceeds the number of rows the
    statement returned under the limit. *)
Theorem batch_filter_only_removes (E : Env)
    (start_timestamp end_timestamp batch_id : option string) (limit : Z)
    (rows : list row) (envelope : row) :
  let q := market_context_filters start_timestamp end_timestamp in
  cursor_run E (market_context_query (where_or_true (conditions q)))
    (Some (params q ++ [VInt (effective_limit 500 50 limit)])%list) = Ok rows ->
  get_market_context E start_timestamp end_timestamp batch_id limit = Ok envelope ->
  exists kept,
    dict_lookup envelope "market_contexts" = Some (rows_value kept)
    /\ dict_lookup envelope "count" = Some (len kept)
    /\ kept = match batch_id with
              | Some b => if supplied batch_id
                          then filter (kept_by_batch E b) rows else rows
              | None => rows
              end
    /\ (List.length kept <= List.length rows)%nat.
Proof.
  intros q H Htool.
  apply try_except_Ok in Htool. cbv zeta in Htool. fold q in Htool.
  cbn [params append_param] in Htool.
  fold (effective_limit 500 50 limit) in Htool.
  rewrite (execute_query_all _ _ _ _ H) in Htool. cbn [bind] in Htool.
  apply bind_Ok in Htool. destruct Htool as [kept [Hkept Htool]].
  inversion Htool; subst envelope. exists kept.
  split; [reflexivity|]. split; [reflexivity|].
  assert (Heq : kept = match batch_id with
                       | Some b => if supplied batch_id
                                   then filter (kept_by_batch E b) rows else rows
                       | None => rows
                       end).
  { destruct batch_id as [b|]; [|now inversion Hkept].
    destruct (supplied (Some b)); cbn [andb] in Hkept; [|now inversion Hkept].
    destruct rows as [|r rows]; [now inversion Hkept|].
    cbn [rows_value map truthy] in Hkept.
    apply (filter_by_batch_keeps _ _ _ _ Hkept). }
  split; [exact Heq|].
  rewrite Heq. destruct batch_id as [b|]; [|lia].
  destruct (supplied (Some b)); [apply filter_length_le | lia].
Qed.

Lemma batch_filter_witness :
  exists kept,
    field (get_market_context Demo.env None None (Some "NVDA") 10) "market_contexts"
    = Some (rows_value kept)
    /\ (List.length kept <= List.length Demo.contexts)%nat.
Proof.
  destruct (get_market_context Demo.env None None (Some "NVDA") 10)
    as [envelope|e] eqn:H; [|vm_compute in H; discriminate].
  destruct (batch_filter_only_removes Demo.env None None (Some "NVDA") 10
              Demo.contexts envelope eq_refl H) as [kept [Hp [_ [_ Hl]]]].
  exists kept. split; [exact Hp | exact Hl].
Defined.

(** ** The limit in force *)

Lemma effective_limit_bounds (cap default limit : Z) :
  1 <= default <= cap ->
  1 <= effective_limit cap default limit <= cap
  /\ (1 <= limit <= cap -> effective_limit cap default limit = limit).
Proof.
  intros Hd. unfold effective_limit.
  destruct (limit <? 1) eqn:Hlo; cbn [orb].
  - apply Z.ltb_lt in Hlo. split; [exact Hd | lia].
  - apply Z.ltb_ge in Hlo. rewrite Z.gtb_ltb.
    destruct (cap <? limit) eqn:Hhi.
    + apply Z.ltb_lt in Hhi. split; [exact Hd | lia].
    + apply Z.ltb_ge in Hhi. split; [lia | reflexivity].
Qed.

Lemma effective_limit_out_of_range (cap default limit : Z) :
  limit < 1 \/ cap < limit -> effective_limit cap default limit = default.
Proof. intros H. unfold effective_limit. now rewrite (out_of_range _ _ H). Qed.

(** Each list tool, once its statement is answered for the limit in
    force. *)
Lemma get_insider_transactions_answered (E : Env)
    ticker insider_name start_date end_date signal_generated signal_quality alert_sent
    limit offset rows total :
  let q := insider_transactions_filters ticker insider_name start_date end_date
             signal_generated signal_quality alert_sent in
  let where_clause := where_or_true (conditions q) in
  cursor_run E (insider_transactions_query where_clause)
    (Some (params q ++ [VInt (effective_limit 1000 100 limit); VInt offset])%list)
    = Ok rows ->
  count_total E (insider_transactions_count_query where_clause) (params q) = Ok total ->
  get_insider_transactions E ticker insider_name start_date end_date signal_generated
    signal_quality alert_sent limit offset
  = Ok (page_response E "transactions" rows total
          (effective_limit 1000 100 limit) offset).
Proof.
  intros q where_clause H Hc.
  rewrite (insider_transactions_after_page _ _ _ _ _ _ _ _ _ _ _ H).
  fold q. fold where_clause. rewrite Hc. reflexivity.
Qed.

Lemma get_llm_calls_answered (E : Env)
    ticker status recommendation is_closed start_date end_date limit offset rows total :
  let q := llm_calls_filters ticker status recommendation is_closed
             start_date end_date in
  let where_clause := where_or_true (conditions q) in
  cursor_run E (llm_calls_query where_clause)
    (Some (params q ++ [VInt (effective_limit 1000 100 limit); VInt offset])%list)
    = Ok rows ->
  count_total E (llm_calls_count_query where_clause) (params q) = Ok total ->
  get_llm_calls E ticker status recommendation is_closed start_date end_date
    limit offset
  = Ok (page_response E "calls" rows total (effective_limit 1000 100 limit) offset).
Proof.
  intros q where_clause H Hc.
  rewrite (llm_calls_after_page _ _ _ _ _ _ _ _ _ _ H).
  fold q. fold where_clause. rewrite Hc. reflexivity.
Qed.

Lemma get_open_calls_answered (E : Env) (limit : Z) (rows : list row) :
  cursor_run E open_calls_query (Some [VInt (effective_limit 1000 100 limit)]) = Ok rows ->
  get_open_calls E limit = Ok (list_response E "calls" rows).
Proof.
  intros H. unfold get_open_calls. cbv zeta.
  fold (effective_limit 1000 100 limit).
  rewrite (execute_query_all _ _ _ _ H). reflexivity.
Qed.

Lemma get_unprocessed_transactions_answered (E : Env) (limit : Z) (rows : list row) :
  cursor_run E unprocessed_transactions_query
    (Some [VInt (effective_limit 1000 100 limit)]) = Ok rows ->
  get_unprocessed_transactions E limit = Ok (list_response E "transactions" rows).
Proof.
  intros H. unfold get_unprocessed_transactions. cbv zeta.
  fold (effective_limit 1000 100 limit).
  rewrite (execute_query_all _ _ _ _ H). reflexivity.
Qed.

Lemma get_recent_signals_answered (E : Env) days signal_quality limit start rows :
  days_ago E days = Ok start ->
  let q := recent_signals_filters start signal_quality in
  cursor_run E (recent_signals_query (join " AND " (conditions q)))
    (Some (params q ++ [VInt (effective_limit 500 50 limit)])%list) = Ok rows ->
  get_recent_signals E days signal_quality limit
  = Ok [("signals", rows_value rows);
        ("count", len rows);
        ("days", VInt days);
        ("timestamp", VStr (isoformat E (now E 1)));
        ("status", VStr "success")].
Proof.
  intros Hd q H. unfold get_recent_signals. cbv zeta. rewrite Hd. cbn [bind].
  fold q. cbn [params append_param]. fold (effective_limit 500 50 limit).
  rewrite (execute_query_all _ _ _ _ H). reflexivity.
Qed.

Lemma get_market_context_answered (E : Env)
    start_timestamp end_timestamp batch_id limit rows kept :
  let q := market_context_filters start_timestamp end_timestamp in
  cursor_run E (market_context_query (where_or_true (conditions q)))
    (Some (params q ++ [VInt (effective_limit 500 50 limit)])%list) = Ok rows ->
  batch_step E batch_id rows = Ok kept ->
  get_market_context E start_timestamp end_timestamp batch_id limit
  = Ok [("market_contexts", rows_value kept);
        ("count", len kept);
        ("limit", VInt (effective_limit 500 50 limit));
        ("filters", VDict [("start_timestamp", opt_str start_timestamp);
                           ("end_timestamp", opt_str end_timestamp);
                           ("batch_id", opt_str batch_id)]);
        ("timestamp", VStr (isoformat E (now E 0)));
        ("status", VStr "success")].
Proof.
  intros q H Hk. unfold get_market_context. cbv zeta. fold q.
  cbn [params append_param]. fold (effective_limit 500 50 limit).
  rewrite (execute_query_all _ _ _ _ H). cbn [bind].
  unfold batch_step in Hk.
  destruct batch_id as [b|]; [|inversion Hk; subst; reflexivity].
  destruct (supplied (Some b) && truthy (rows_value rows)).
  - rewrite Hk. reflexivity.
  - inversion Hk; subst. reflexivity.
Qed.

Lemma get_top_performers_answered (E : Env) days limit metric start rows :
  days_ago E days = Ok start ->
  cursor_run E (top_performers_query metric)
    (Some [start; VInt (effective_limit 50 10 limit)]) = Ok rows ->
  get_top_performers E days limit metric
  = Ok [("top_performers", rows_value rows);
        ("metric", VStr metric);
        ("days", VInt days);
        ("limit", VInt (effective_limit 50 10 limit));
        ("timestamp", VStr (isoformat E (now E 1)));
        ("status", VStr "success")].
Proof.
  intros Hd H. unfold get_top_performers. cbv zeta. rewrite Hd. cbn [bind].
  fold (top_performers_query metric). fold (effective_limit 50 10 limit).
  rewrite (execute_query_all _ _ _ _ H). reflexivity.
Qed.

(** C5. An out-of-range [limit] is replaced by the default of the tool:
    100 under the cap of 1000, 50 under the cap of 500, 10 under the cap
    of 50.  The statement is run with the default as its limit parameter,
    the call is not rejected (it returns what the database answers to that
    statement), the response reports the default where it reports a
    limit, and the call equals the call made with the default. *)
Theorem out_of_range_limit_falls_back_to_default (E : Env) (limit : Z) :
  (limit < 1 \/ 1000 < limit ->
     (forall ticker insider_name start_date end_date signal_generated signal_quality
             alert_sent offset rows total,
        let q := insider_transactions_filters ticker insider_name start_date end_date
                   signal_generated signal_quality alert_sent in
        let where_clause := where_or_true (conditions q) in
        cursor_run E (insider_transactions_query where_clause)
          (Some (params q ++ [VInt 100; VInt offset])%list) = Ok rows ->
        count_total E (insider_transactions_count_query where_clause) (params q)
          = Ok total ->
        get_insider_transactions E ticker insider_name start_date end_date
          signal_generated signal_quality alert_sent limit offset
        = Ok (page_response E "transactions" rows total 100 offset))
     /\ (forall ticker status recommendation is_closed start_date end_date offset
                rows total,
        let q := llm_calls_filters ticker status recommendation is_closed
                   start_date end_date in
        let where_clause := where_or_true (conditions q) in
        cursor_run E (llm_calls_query where_clause)
          (Some (params q ++ [VInt 100; VInt offset])%list) = Ok rows ->
        count_total E (llm_calls_count_query where_clause) (params q) = Ok total ->
        get_llm_calls E ticker status recommendation is_closed start_date end_date
          limit offset
        = Ok (page_response E "calls" rows total 100 offset))
     /\ (forall rows,
        cursor_run E open_calls_query (Some [VInt 100]) = Ok rows ->
        get_open_calls E limit = Ok (list_response E "calls" rows))
     /\ (forall rows,
        cursor_run E unprocessed_transactions_query (Some [VInt 100]) = Ok rows ->
        get_unprocessed_transactions E limit
        = Ok (list_response E "transactions" rows))
     /\ (forall ticker insider_name start_date end_date signal_generated
                signal_quality alert_sent offset,
        get_insider_transactions E ticker insider_name start_date end_date
          signal_generated signal_quality alert_sent limit offset
        = get_insider_transactions E ticker insider_name start_date end_date
            signal_generated signal_quality alert_sent 100 offset)
     /\ (forall ticker status recommendation is_closed start_date end_date offset,
        get_llm_calls E ticker status recommendation is_closed start_date end_date
          limit offset
        = get_llm_calls E ticker status recommendation is_closed start_date end_date
            100 offset)
     /\ get_open_calls E limit = get_open_calls E 100
     /\ get_unprocessed_transactions E limit = get_unprocessed_transactions E 100)
  /\ (limit < 1 \/ 500 < limit ->
     (forall days signal_quality start rows,
        days_ago E days = Ok start ->
        let q := recent_signals_filters start signal_quality in
        cursor_run E (recent_signals_query (join " AND " (conditions q)))
          (Some (params q ++ [VInt 50])%list) = Ok rows ->
        get_recent_signals E days signal_quality limit
        = Ok [("signals", rows_value rows);
              ("count", len rows);
              ("days", VInt days);
              ("timestamp", VStr (isoformat E (now E 1)));
              ("status", VStr "success")])
     /\ (forall start_timestamp end_timestamp batch_id rows kept,
        let q := market_context_filters start_timestamp end_timestamp in
        cursor_run E (market_context_query (where_or_true (conditions q)))
          (Some (params q ++ [VInt 50])%list) = Ok rows ->
        batch_step E batch_id rows = Ok kept ->
        field (get_market_context E start_timestamp end_timestamp batch_id limit)
          "market_contexts" = Some (rows_value kept)
        /\ field (get_market_context E start_timestamp end_timestamp batch_id limit)
             "limit" = Some (VInt 50))
     /\ (forall days signal_quality,
        get_recent_signals E days signal_quality limit
        = get_recent_signals E days signal_quality 50)
     /\ (forall start_timestamp end_timestamp batch_id,
        get_market_context E start_timestamp end_timestamp batch_id limit
        = get_market_context E start_timestamp end_timestamp batch_id 50))
  /\ (limit < 1 \/ 50 < limit ->
     (forall days metric start rows,
        days_ago E days = Ok start ->
        cursor_run E (top_performers_query metric) (Some [start; VInt 10]) = Ok rows ->
        get_top_performers E days limit metric
        = Ok [("top_performers", rows_value rows);
              ("metric", VStr metric);
              ("days", VInt days);
              ("limit", VInt 10);
              ("timestamp", VStr (isoformat E (now E 1)));
              ("status", VStr "success")])
     /\ (forall days metric,
        get_top_performers E days limit metric = get_top_performers E days 10 metric))
  /\ (forall offset rows total,
     cursor_run E (insider_transactions_query "ticker = %s")
       (Some [VStr "TSLA"; VInt 100; VInt offset]) = Ok rows ->
     count_total E (insider_transactions_count_query "ticker = %s") [VStr "TSLA"]
       = Ok total ->
     get_insider_transactions E (Some "tsla") None None None None None None 2000 offset
     = Ok (page_response E "transactions" rows total 100 offset)).
Proof.
  split; [|split; [|split]].
  - intros H.
    pose proof (effective_limit_out_of_range 1000 100 limit H) as Hl.
    pose proof (out_of_range 1000 limit H) as Hb.
    repeat match goal with |- _ /\ _ => split end.
    + intros until total. intros q where_clause Hp Hc. rewrite <- Hl in Hp |- *.
      now apply get_insider_transactions_answered.
    + intros until total. intros q where_clause Hp Hc. rewrite <- Hl in Hp |- *.
      now apply get_llm_calls_answered.
    + intros rows Hp. rewrite <- Hl in Hp. now apply get_open_calls_answered.
    + intros rows Hp. rewrite <- Hl in Hp.
      now apply get_unprocessed_transactions_answered.
    + intros. unfold get_insider_transactions. now rewrite Hb.
    + intros. unfold get_llm_calls. now rewrite Hb.
    + unfold get_open_calls. now rewrite Hb.
    + unfold get_unprocessed_transactions. now rewrite Hb.
  - intros H.
    pose proof (effective_limit_out_of_range 500 50 limit H) as Hl.
    pose proof (out_of_range 500 limit H) as Hb.
    repeat match goal with |- _ /\ _ => split end.
    + intros days signal_quality start rows Hd q Hp. rewrite <- Hl in Hp.
      now apply (get_recent_signals_answered E days signal_quality limit start rows).
    + intros start_timestamp end_timestamp batch_id rows kept q Hp Hk.
      rewrite <- Hl in Hp.
      rewrite (get_market_context_answered E _ _ _ _ _ _ Hp Hk), Hl.
      split; reflexivity.
    + intros. unfold get_recent_signals. now rewrite Hb.
    + intros. unfold get_market_context. now rewrite Hb.
  - intros H.
    pose proof (effective_limit_out_of_range 50 10 limit H) as Hl.
    pose proof (out_of_range 50 limit H) as Hb.
    split.
    + intros days metric start rows Hd Hp. rewrite <- Hl in Hp |- *.
      exact (get_top_performers_answered E days limit metric start rows Hd Hp).
    + intros. unfold get_top_performers. now rewrite Hb.
  - intros offset rows total Hp Hc.
    exact (get_insider_transactions_answered E (Some "tsla") None None None None None
             None 2000 offset rows total Hp Hc).
Qed.

Lemma out_of_range_limit_witness :
  (2000 < 1 \/ 1000 < 2000)
  /\ get_open_calls Demo.env 2000
     = Ok (list_response Demo.env "calls" [Demo.call 1 "AAPL" true (VInt 100)])
  /\ get_insider_transactions Demo.env (Some "tsla") None None None None None None 2000 0
     = Ok (page_response Demo.env "transactions" [Demo.transaction] (VInt 7) 100 0)
  /\ get_top_performers Demo.env 30 2000 "pnl"
     = Ok [("top_performers", rows_value [Demo.call 1 "AAPL" true (VInt 100)]);
           ("metric", VStr "pnl");
           ("days", VInt 30);
           ("limit", VInt 10);
           ("timestamp", VStr "2024-04-24T12:00:00");
           ("status", VStr "success")].
Proof.
  assert (H : 2000 < 1 \/ 1000 < 2000) by (right; lia).
  assert (H' : 2000 < 1 \/ 50 < 2000) by (right; lia).
  destruct (out_of_range_limit_falls_back_to_default Demo.env 2000)
    as [Hk [_ [Hp Ht]]].
  destruct (Hk H) as [_ [_ [Ho _]]].
  split; [exact H|]. split; [|split].
  - exact (Ho _ eq_refl).
  - exact (Ht 0 _ _ eq_refl eq_refl).
  - exact (proj1 (Hp H') 30 "pnl" _ _ eq_refl eq_refl).
Defined.

(** X18. Every list tool runs its statement with a limit within its
    bounds, between 1 and 1000, 500 or 50, and with the given limit when
    that lies within the bounds: once the database has answered the
    statement for this limit the tool returns the rows of the answer, and
    reports this limit where it reports one. *)
Theorem statement_limit_is_within_bounds (E : Env) (limit : Z) :
  (1 <= effective_limit 1000 100 limit <= 1000
   /\ (1 <= limit <= 1000 -> effective_limit 1000 100 limit = limit)
   /\ (forall ticker insider_name start_date end_date signal_generated signal_quality
              alert_sent offset rows total,
         let q := insider_transactions_filters ticker insider_name start_date end_date
                    signal_generated signal_quality alert_sent in
         let where_clause := where_or_true (conditions q) in
         cursor_run E (insider_transactions_query where_clause)
           (Some (params q ++ [VInt (effective_limit 1000 100 limit); VInt offset])%list)
           = Ok rows ->
         count_total E (insider_transactions_count_query where_clause) (params q)
           = Ok total ->
         get_insider_transactions E ticker insider_name start_date end_date
           signal_generated signal_quality alert_sent limit offset
         = Ok (page_response E "transactions" rows total
                 (effective_limit 1000 100 limit) offset))
   /\ (forall ticker status recommendation is_closed start_date end_date offset
              rows total,
         let q := llm_calls_filters ticker status recommendation is_closed
                    start_date end_date in
         let where_clause := where_or_true (conditions q) in
         cursor_run E (llm_calls_query where_clause)
           (Some (params q ++ [VInt (effective_limit 1000 100 limit); VInt offset])%list)
           = Ok rows ->
         count_total E (llm_calls_count_query where_clause) (params q) = Ok total ->
         get_llm_calls E ticker status recommendation is_closed start_date end_date
           limit offset
         = Ok (page_response E "calls" rows total (effective_limit 1000 100 limit)
                 offset))
   /\ (forall rows,
         cursor_run E open_calls_query (Some [VInt (effective_limit 1000 100 limit)])
           = Ok rows ->
         get_open_calls E limit = Ok (list_response E "calls" rows))
   /\ (forall rows,
         cursor_run E unprocessed_transactions_query
           (Some [VInt (effective_limit 1000 100 limit)]) = Ok rows ->
         get_unprocessed_transactions E limit
         = Ok (list_response E "transactions" rows)))
  /\ (1 <= effective_limit 500 50 limit <= 500
      /\ (1 <= limit <= 500 -> effective_limit 500 50 limit = limit)
      /\ (forall days signal_quality start rows,
            days_ago E days = Ok start ->
            let q := recent_signals_filters start signal_quality in
            cursor_run E (recent_signals_query (join " AND " (conditions q)))
              (Some (params q ++ [VInt (effective_limit 500 50 limit)])%list)
              = Ok rows ->
            field (get_recent_signals E days signal_quality limit) "signals"
            = Some (rows_value rows))
      /\ (forall start_timestamp end_timestamp batch_id rows kept,
            let q := market_context_filters start_timestamp end_timestamp in
            cursor_run E (market_context_query (where_or_true (conditions q)))
              (Some (params q ++ [VInt (effective_limit 500 50 limit)])%list)
              = Ok rows ->
            batch_step E batch_id rows = Ok kept ->
            field (get_market_context E start_timestamp end_timestamp batch_id limit)
              "market_contexts" = Some (rows_value kept)
            /\ field (get_market_context E start_timestamp end_timestamp batch_id limit)
                 "limit" = Some (VInt (effective_limit 500 50 limit))))
  /\ (1 <= effective_limit 50 10 limit <= 50
      /\ (1 <= limit <= 50 -> effective_limit 50 10 limit = limit)
      /\ (forall days metric start rows,
            days_ago E days = Ok start ->
            cursor_run E (top_performers_query metric)
              (Some [start; VInt (effective_limit 50 10 limit)]) = Ok rows ->
            field (get_top_performers E days limit metric) "top_performers"
            = Some (rows_value rows)
            /\ field (get_top_performers E days limit metric) "limit"
               = Some (VInt (effective_limit 50 10 limit)))).
Proof.
  split; [|split].
  - destruct (effective_limit_bounds 1000 100 limit) as [Hb Hi]; [lia|].
    split; [exact Hb|]. split; [exact Hi|].
    repeat match goal with |- _ /\ _ => split end.
    + intros until total. intros q where_clause Hp Hc.
      now apply get_insider_transactions_answered.
    + intros until total. intros q where_clause Hp Hc.
      now apply get_llm_calls_answered.
    + intros rows Hp. now apply get_open_calls_answered.
    + intros rows Hp. now apply get_unprocessed_transactions_answered.
  - destruct (effective_limit_bounds 500 50 limit) as [Hb Hi]; [lia|].
    split; [exact Hb|]. split; [exact Hi|]. split.
    + intros days signal_quality start rows Hd q Hp.
      now rewrite (get_recent_signals_answered E days signal_quality limit start rows
                     Hd Hp).
    + intros start_timestamp end_timestamp batch_id rows kept q Hp Hk.
      rewrite (get_market_context_answered E _ _ _ _ _ _ Hp Hk).
      split; reflexivity.
  - destruct (effective_limit_bounds 50 10 limit) as [Hb Hi]; [lia|].
    split; [exact Hb|]. split; [exact Hi|].
    intros days metric start rows Hd Hp.
    rewrite (get_top_performers_answered E _ _ _ _ _ Hd Hp).
    split; reflexivity.
Qed.

Lemma statement_limit_witness :
  field (get_market_context Demo.env None None None 9000) "limit" = Some (VInt 50)
  /\ field (get_market_context Demo.env None None None 20) "limit" = Some (VInt 20)
  /\ field (get_market_context Demo.env None None None 20) "market_contexts"
     = Some (rows_value Demo.contexts).
Proof.
  destruct (statement_limit_is_within_bounds Demo.env 9000)
    as [_ [[_ [_ [_ Hbig]]] _]].
  destruct (statement_limit_is_within_bounds Demo.env 20)
    as [_ [[_ [_ [_ Hfit]]] _]].
  destruct (Hbig None None None Demo.contexts Demo.contexts eq_refl eq_refl)
    as [_ Hl].
  destruct (Hfit None None None Demo.contexts Demo.contexts eq_refl eq_refl)
    as [Hp Hl'].
  split; [exact Hl|]. split; [exact Hl' | exact Hp].
Defined.
